(** * Course progression engine of the e-learning backend

    A shallow embedding of [CourseTakenService]
    (src/CourseTakenModule/service/course.taken.service.ts) and the
    properties of its progression state machine: pointer advancement with
    carry, completion arithmetic, enrollment uniqueness and the listing
    operations. *)

From Stdlib Require Import ZArith QArith Qreduction List Ascii String Bool Lia.
From Stdlib Require Import PrimFloat.
From Stdlib Require Uint63.
Import ListNotations.
Open Scope Z_scope.

(** ** JavaScript numbers

    The percentages of the service are JavaScript numbers.  They are
    modelled as exact rationals kept in lowest terms, extended with the two
    infinities and NaN, with the IEEE-754 rules for the special values
    (x/0, Infinity*0, comparisons with NaN).  Rounding and the sign of zero
    are not modelled: [number] carries the state machine, whose properties
    do not depend on the digits of a percentage.  The digits themselves are
    those of binary64 arithmetic and are given by [calculateCompletition64]
    below, on the kernel's primitive floats. *)

Inductive number : Type :=
| Num (q : Q)
| PosInf
| NegInf
| NaN.

Definition num (q : Q) : number := Num (Qred q).

Definition ofZ (z : Z) : number := Num (inject_Z z).

(** [x / y] *)
Definition ndiv (x y : number) : number :=
  match x, y with
  | NaN, _ | _, NaN => NaN
  | Num a, Num b =>
      match (b ?= 0)%Q with
      | Eq => match (a ?= 0)%Q with
              | Eq => NaN
              | Gt => PosInf
              | Lt => NegInf
              end
      | _ => num (a / b)
      end
  | Num _, PosInf | Num _, NegInf => Num 0
  | PosInf, Num b => match (b ?= 0)%Q with Lt => NegInf | _ => PosInf end
  | NegInf, Num b => match (b ?= 0)%Q with Lt => PosInf | _ => NegInf end
  | _, _ => NaN
  end.

(** [x * y] *)
Definition nmul (x y : number) : number :=
  match x, y with
  | NaN, _ | _, NaN => NaN
  | Num a, Num b => num (a * b)
  | PosInf, Num b | Num b, PosInf =>
      match (b ?= 0)%Q with Eq => NaN | Gt => PosInf | Lt => NegInf end
  | NegInf, Num b | Num b, NegInf =>
      match (b ?= 0)%Q with Eq => NaN | Gt => NegInf | Lt => PosInf end
  | PosInf, PosInf | NegInf, NegInf => PosInf
  | PosInf, NegInf | NegInf, PosInf => NegInf
  end.

(** [x + y] *)
Definition nadd (x y : number) : number :=
  match x, y with
  | NaN, _ | _, NaN => NaN
  | Num a, Num b => num (a + b)
  | PosInf, NegInf | NegInf, PosInf => NaN
  | PosInf, _ | _, PosInf => PosInf
  | NegInf, _ | _, NegInf => NegInf
  end.

(** [x < y]; every comparison with NaN is false. *)
Definition nlt (x y : number) : bool :=
  match x, y with
  | NaN, _ | _, NaN => false
  | Num a, Num b => match (a ?= b)%Q with Lt => true | _ => false end
  | NegInf, NegInf | PosInf, _ | _, NegInf => false
  | NegInf, _ | _, PosInf => true
  end.

(** [x > y] *)
Definition ngt (x y : number) : bool := nlt y x.

(** [x <= y]; every comparison with NaN is false. *)
Definition nle (x y : number) : bool :=
  match x, y with
  | NaN, _ | _, NaN => false
  | Num a, Num b => match (a ?= b)%Q with Gt => false | _ => true end
  | NegInf, _ | _, PosInf => true
  | PosInf, _ | _, NegInf => false
  end.

(** [0 <= x && x <= 100]: [x] is a percentage. *)
Definition withinPercent (x : number) : bool := nle (ofZ 0) x && nle x (ofZ 100).

(** ** Binary64 doubles

    The integers the service computes with (amounts and pointers) as the
    doubles JavaScript holds them in; the conversion is exact for
    [|z| < 2^53]. *)
Definition double_of_Z (z : Z) : PrimFloat.float :=
  if z <? 0
  then PrimFloat.opp (PrimFloat.of_uint63 (Uint63.of_Z (- z)))
  else PrimFloat.of_uint63 (Uint63.of_Z z).

(** ** Entities *)

Inductive CourseTakenStatusEnum : Type := TAKEN | COMPLETED.

(** Rows of the catalog, owned by the course module and only read here. *)
Record Lesson : Type := mkLesson
  { lesson_id : string; lesson_course : string; lesson_sequenceNumber : Z }.

Record Part : Type := mkPart
  { part_id : string; part_lesson : string; part_sequenceNumber : Z }.

Record Test : Type := mkTest
  { test_id : string; test_part : string; test_sequenceNumber : Z }.

(** A [Date] is its epoch time. *)
Definition Date : Type := Z.

Module CourseTaken.
Record t : Type := mk
  { user : string;
    course : string;
    currentLesson : Z;
    currentPart : Z;
    currentTest : Z;
    status : CourseTakenStatusEnum;
    completition : number;
    courseStartDate : option Date;
    courseCompleteDate : option Date }.

Definition set_currentLesson (v : Z) (e : t) : t :=
  mk (user e) (course e) v (currentPart e) (currentTest e) (status e)
     (completition e) (courseStartDate e) (courseCompleteDate e).
Definition set_currentPart (v : Z) (e : t) : t :=
  mk (user e) (course e) (currentLesson e) v (currentTest e) (status e)
     (completition e) (courseStartDate e) (courseCompleteDate e).
Definition set_currentTest (v : Z) (e : t) : t :=
  mk (user e) (course e) (currentLesson e) (currentPart e) v (status e)
     (completition e) (courseStartDate e) (courseCompleteDate e).
Definition set_status (v : CourseTakenStatusEnum) (e : t) : t :=
  mk (user e) (course e) (currentLesson e) (currentPart e) (currentTest e) v
     (completition e) (courseStartDate e) (courseCompleteDate e).
Definition set_completition (v : number) (e : t) : t :=
  mk (user e) (course e) (currentLesson e) (currentPart e) (currentTest e)
     (status e) v (courseStartDate e) (courseCompleteDate e).
Definition set_courseStartDate (v : option Date) (e : t) : t :=
  mk (user e) (course e) (currentLesson e) (currentPart e) (currentTest e)
     (status e) (completition e) v (courseCompleteDate e).
Definition set_courseCompleteDate (v : option Date) (e : t) : t :=
  mk (user e) (course e) (currentLesson e) (currentPart e) (currentTest e)
     (status e) (completition e) (courseStartDate e) v.

(** The three progress pointers. *)
Definition pointers (e : t) : Z * Z * Z :=
  (currentLesson e, currentPart e, currentTest e).
End CourseTaken.

Module NewCourseTakenDTO.
Record t : Type := mk { user : string; course : string }.
End NewCourseTakenDTO.

(** Modelled from the spec: [CourseTakenUpdateDTO] is not part of the
    sources; Update takes partial fields, so the object carries any of the
    fields the progression engine mutates.  [None] is a key the object
    does not have; [courseCompleteDate] can be carried with the value
    [undefined], which is [Some None]. *)
Module CourseTakenUpdateDTO.
Record t : Type := mk
  { currentLesson : option Z;
    currentPart : option Z;
    currentTest : option Z;
    status : option CourseTakenStatusEnum;
    completition : option number;
    courseCompleteDate : option (option Date) }.
End CourseTakenUpdateDTO.

Module AttendAClassDTO.
Record t : Type := mk
  { user : string;
    course : string;
    currentLesson : option Lesson;
    currentPart : option Part;
    currentTest : option Test;
    completition : number;
    status : CourseTakenStatusEnum }.
End AttendAClassDTO.

(** ** The injected services

    [LessonService], [PartService] and [TestService] are the interface the
    engine consumes.  An id that could not be resolved is [None]. *)

Class HierarchyLookup : Type :=
  { findLessonByCourseIdAndSeqNum : string -> Z -> option Lesson;
    getLessonIdByCourseIdAndSeqNum : string -> Z -> option string;
    getMaxValueForLesson : string -> Z;
    findPartByLessonIdAndSeqNum : option string -> Z -> option Part;
    getPartIdByLessonIdAndSeqNum : option string -> Z -> option string;
    getMaxValueForPart : option string -> Z;
    findTestByPartIdAndSeqNum : option string -> Z -> option Test;
    getMaxValueForTest : option string -> Z }.

(** ** The enrollment table behind [CourseTakenRepository] *)

Definition Store : Type := list CourseTaken.t.

Definition sameKey (user course : string) (e : CourseTaken.t) : bool :=
  String.eqb (CourseTaken.user e) user && String.eqb (CourseTaken.course e) course.

(** Modelled from the spec: [CourseTakenRepository.findByUserIdAndCourseId]
    and [findOne] are declared outside this module;
    [EnrollmentStore.get(user, course)] yields the enrollment of the pair,
    or nothing. *)
Definition repository_findByUserIdAndCourseId
    (st : Store) (user course : string) : option CourseTaken.t :=
  find (sameKey user course) st.

(** Modelled from the spec: [EnrollmentStore.save] of
    [CourseTakenRepository], records being keyed by (user, course): the
    record of the pair is replaced, a record of a new pair is appended. *)
Fixpoint repository_save (e : CourseTaken.t) (st : Store) : Store :=
  match st with
  | [] => [e]
  | x :: rest =>
      if sameKey (CourseTaken.user e) (CourseTaken.course e) x
      then e :: rest
      else x :: repository_save e rest
  end.

(** Modelled from the spec: [EnrollmentStore.listByUser] of
    [CourseTakenRepository], the sequence of the user's enrollments. *)
Definition repository_findByUserId (st : Store) (user : string) : list CourseTaken.t :=
  filter (fun e => String.eqb (CourseTaken.user e) user) st.

(** Modelled from the spec: [EnrollmentStore.listByCourse] of
    [CourseTakenRepository], the sequence of the course's enrollments. *)
Definition repository_findByCourseId (st : Store) (course : string) : list CourseTaken.t :=
  filter (fun e => String.eqb (CourseTaken.course e) course) st.

(** Modelled from the spec: [EnrollmentStore.delete] of
    [CourseTakenRepository], a hard delete of the pair's record. *)
Definition repository_delete (user course : string) (st : Store) : Store :=
  filter (fun e => negb (sameKey user course e)) st.

(** ** Effects: the store is threaded, exceptions end the call *)

Inductive Exception : Type :=
| ConflictException (message : string)
| NotFoundException (message : string)
| TypeError.

Inductive Outcome (A : Type) : Type :=
| Returns (a : A)
| Throws (e : Exception)
| OutOfFuel.
Arguments Returns {A} a.
Arguments Throws {A} e.
Arguments OutOfFuel {A}.

Definition M (A : Type) : Type := Store -> Outcome A * Store.

Definition ret {A} (a : A) : M A := fun st => (Returns a, st).

Definition throw {A} (e : Exception) : M A := fun st => (Throws e, st).

Definition bind {A B} (m : M A) (k : A -> M B) : M B :=
  fun st =>
    match m st with
    | (Returns a, st') => k a st'
    | (Throws e, st') => (Throws e, st')
    | (OutOfFuel, st') => (OutOfFuel, st')
    end.

Notation "x <- m ;; k" := (bind m (fun x => k))
  (at level 61, m at next level, right associativity).

(** [@Transactional()]: an exception rolls the store back to where the
    method started. *)
Definition Transactional {A} (m : M A) : M A :=
  fun st =>
    match m st with
    | (Throws e, _) => (Throws e, st)
    | r => r
    end.

(** Truthiness of a JavaScript value that is an object or [undefined]. *)
Definition truthy {A} (v : option A) : bool :=
  match v with Some _ => true | None => false end.

(** Truthiness of a JavaScript array: every array is an object, and every
    object is truthy, the empty array included. *)
Definition truthy_array {A} (v : list A) : bool := true.

(** ** [CourseTakenMapper] *)

(** Modelled from the spec: [CourseTakenMapper.toEntity] on a
    [NewCourseTakenDTO] is not part of the sources; it yields an entity for
    the pair.  The pointers, the status and the start date are assigned by
    [add] right after; the completion is the one the entity starts with,
    [initialCompletition]; no completion date is set. *)
Definition mapper_toEntity (initialCompletition : number)
    (newCourseTaken : NewCourseTakenDTO.t) : CourseTaken.t :=
  CourseTaken.mk (NewCourseTakenDTO.user newCourseTaken)
                 (NewCourseTakenDTO.course newCourseTaken)
                 0 0 0 TAKEN initialCompletition None None.

(** Modelled from the spec: [CourseTakenMapper.toUpdateDto] is not part of
    the sources; the update it builds carries every field the progression
    engine mutates, with the value the entity has. *)
Definition mapper_toUpdateDto (courseTaken : CourseTaken.t) : CourseTakenUpdateDTO.t :=
  CourseTakenUpdateDTO.mk
    (Some (CourseTaken.currentLesson courseTaken))
    (Some (CourseTaken.currentPart courseTaken))
    (Some (CourseTaken.currentTest courseTaken))
    (Some (CourseTaken.status courseTaken))
    (Some (CourseTaken.completition courseTaken))
    (Some (CourseTaken.courseCompleteDate courseTaken)).

(** One key of an object spread [{ ...stored, ...carried }]: the value the
    later object carries, and the stored one for a key it does not have. *)
Definition spreadKey {A : Type} (stored : A) (carried : option A) : A :=
  match carried with
  | Some value => value
  | None => stored
  end.

(** [{ ...courseTaken, ...courseTakenUpdatedInfo }] *)
Definition spread (courseTaken : CourseTaken.t)
    (courseTakenUpdatedInfo : CourseTakenUpdateDTO.t) : CourseTaken.t :=
  CourseTaken.mk
    (CourseTaken.user courseTaken)
    (CourseTaken.course courseTaken)
    (spreadKey (CourseTaken.currentLesson courseTaken)
       (CourseTakenUpdateDTO.currentLesson courseTakenUpdatedInfo))
    (spreadKey (CourseTaken.currentPart courseTaken)
       (CourseTakenUpdateDTO.currentPart courseTakenUpdatedInfo))
    (spreadKey (CourseTaken.currentTest courseTaken)
       (CourseTakenUpdateDTO.currentTest courseTakenUpdatedInfo))
    (spreadKey (CourseTaken.status courseTaken)
       (CourseTakenUpdateDTO.status courseTakenUpdatedInfo))
    (spreadKey (CourseTaken.completition courseTaken)
       (CourseTakenUpdateDTO.completition courseTakenUpdatedInfo))
    (CourseTaken.courseStartDate courseTaken)
    (spreadKey (CourseTaken.courseCompleteDate courseTaken)
       (CourseTakenUpdateDTO.courseCompleteDate courseTakenUpdatedInfo)).

(** ** [CourseTakenService] *)

(** The operations read the clock through [Date.now()]; [now] is that
    reading for the call at hand. *)

Section Service.
Context {lookup : HierarchyLookup}.

(** The completion a new entity starts with (the entity declaration is
    not part of the sources). *)
Variable initialCompletition : number.

Definition findByUserIdAndCourseId (user course : string) : M CourseTaken.t :=
  Transactional (fun st =>
    match repository_findByUserIdAndCourseId st user course with
    | Some courseTaken => (Returns courseTaken, st)
    | None => (Throws (NotFoundException "Course not taken by user"), st)
    end).

Definition update (user course : string)
    (courseTakenUpdatedInfo : CourseTakenUpdateDTO.t) : M CourseTaken.t :=
  Transactional (
    courseTaken <- findByUserIdAndCourseId user course ;;
    let entity := spread courseTaken courseTakenUpdatedInfo in
    fun st => (Returns entity, repository_save entity st)).

Definition getAllByUserId (user : string) : M (list CourseTaken.t) :=
  Transactional (fun st =>
    let courseTaken := repository_findByUserId st user in
    if negb (truthy_array courseTaken)
    then (Throws (NotFoundException "This user did not started any course"), st)
    else (Returns courseTaken, st)).

Definition getAllByCourseId (course : string) : M (list CourseTaken.t) :=
  Transactional (fun st =>
    let courseTaken := repository_findByCourseId st course in
    if negb (truthy_array courseTaken)
    then (Throws (NotFoundException "No users have started this course"), st)
    else (Returns courseTaken, st)).

Definition prepareAttendAClassDTO (courseTaken : CourseTaken.t) (course : string)
    (currentLesson : option Lesson) (currentPart : option Part)
    (currentTest : option Test) : AttendAClassDTO.t :=
  AttendAClassDTO.mk (CourseTaken.user courseTaken) course
    currentLesson currentPart currentTest
    (CourseTaken.completition courseTaken) (CourseTaken.status courseTaken).

Definition prepareCourseTakenUpdatedInfo (now : Date) (courseTaken : CourseTaken.t)
    (nextTest : option Test) (nextPart : option Part) (nextLesson : option Lesson)
    : CourseTaken.t :=
  if truthy nextTest then
    CourseTaken.set_currentTest (CourseTaken.currentTest courseTaken + 1) courseTaken
  else if truthy nextPart then
    CourseTaken.set_currentPart (CourseTaken.currentPart courseTaken + 1)
      (CourseTaken.set_currentTest 1 courseTaken)
  else if truthy nextLesson then
    CourseTaken.set_currentLesson (CourseTaken.currentLesson courseTaken + 1)
      (CourseTaken.set_currentPart 1
        (CourseTaken.set_currentTest 1 courseTaken))
  else
    CourseTaken.set_courseCompleteDate (Some now)
      (CourseTaken.set_status COMPLETED courseTaken).

(** The three amounts [calculateCompletition] asks the services for. *)
Definition queriedAmounts (courseTaken : CourseTaken.t)
    (currentLesson currentPart : option string) : Z * Z * Z :=
  (getMaxValueForLesson (CourseTaken.course courseTaken),
   getMaxValueForPart currentLesson,
   getMaxValueForTest currentPart).

(** The arithmetic of [calculateCompletition] on the amounts. *)
Definition completitionOf (amounts : Z * Z * Z) (courseTaken : CourseTaken.t) : number :=
  let '(lessonsAmount, partsAmount, testsAmount) := amounts in
  let completition :=
    match CourseTaken.status courseTaken with
    | TAKEN =>
        let percentualPerLesson := ndiv (ofZ 100) (ofZ lessonsAmount) in
        let percentualPerPart := ndiv percentualPerLesson (ofZ partsAmount) in
        let percentualPerTest := ndiv percentualPerPart (ofZ testsAmount) in
        let completition :=
          nmul percentualPerLesson (ofZ (CourseTaken.currentLesson courseTaken - 1)) in
        let completition :=
          nadd completition
            (nmul percentualPerPart (ofZ (CourseTaken.currentPart courseTaken - 1))) in
        nadd completition
          (nmul percentualPerTest (ofZ (CourseTaken.currentTest courseTaken - 1)))
    | COMPLETED => ofZ 100
    end in
  if ngt completition (ofZ 100) then ofZ 100 else completition.

Definition calculateCompletition (courseTaken : CourseTaken.t)
    (currentLesson currentPart : option string) : number :=
  completitionOf (queriedAmounts courseTaken currentLesson currentPart) courseTaken.

(** The same arithmetic as the source evaluates it: every [/], [*], [-]
    and [+] is the binary64 operation, rounded to nearest, and
    [completition>100] is the IEEE comparison. *)
Definition completitionOf64 (amounts : Z * Z * Z) (courseTaken : CourseTaken.t)
    : PrimFloat.float :=
  let '(lessonsAmount, partsAmount, testsAmount) := amounts in
  let completition :=
    match CourseTaken.status courseTaken with
    | TAKEN =>
        let percentualPerLesson := (100 / double_of_Z lessonsAmount)%float in
        let percentualPerPart := (percentualPerLesson / double_of_Z partsAmount)%float in
        let percentualPerTest := (percentualPerPart / double_of_Z testsAmount)%float in
        let completition :=
          (percentualPerLesson
           * (double_of_Z (CourseTaken.currentLesson courseTaken) - 1))%float in
        let completition :=
          (completition
           + percentualPerPart
             * (double_of_Z (CourseTaken.currentPart courseTaken) - 1))%float in
        (completition
         + percentualPerTest
           * (double_of_Z (CourseTaken.currentTest courseTaken) - 1))%float
    | COMPLETED => 100%float
    end in
  if (100 <? completition)%float then 100%float else completition.


(** When the pair has no record, [repository.findByUserIdAndCourseId]
    yields [undefined] and reading [courseTaken.currentLesson] raises a
    TypeError. *)
Definition updateCourseStatus (now : Date) (user course : string) : M CourseTaken.t :=
  Transactional (fun st =>
    match repository_findByUserIdAndCourseId st user course with
    | None => (Throws TypeError, st)
    | Some courseTaken =>
        let currentLessonId :=
          getLessonIdByCourseIdAndSeqNum course (CourseTaken.currentLesson courseTaken) in
        let currentPartId :=
          getPartIdByLessonIdAndSeqNum currentLessonId (CourseTaken.currentPart courseTaken) in
        let nextTest :=
          findTestByPartIdAndSeqNum currentPartId (CourseTaken.currentTest courseTaken + 1) in
        let nextPart :=
          findPartByLessonIdAndSeqNum currentLessonId (CourseTaken.currentPart courseTaken + 1) in
        let nextLesson :=
          findLessonByCourseIdAndSeqNum course (CourseTaken.currentLesson courseTaken + 1) in
        let courseTaken :=
          prepareCourseTakenUpdatedInfo now courseTaken nextTest nextPart nextLesson in
        let courseTaken :=
          CourseTaken.set_completition
            (calculateCompletition courseTaken currentLessonId currentPartId)
            courseTaken in
        let courseTakenUpdatedInfo := mapper_toUpdateDto courseTaken in
        update (CourseTaken.user courseTaken) (CourseTaken.course courseTaken)
               courseTakenUpdatedInfo st
    end).

(** [attendAClass] calls itself until the pointers resolve or the course
    is completed; [fuel] bounds the depth of that recursion.  Where the
    source falls through to [if (invalidOptionFlag)] the flag is still
    [true] (the only assignment of [false] is followed by a [return]), so
    the three places that fall through share [invalidOption]. *)
Fixpoint attendAClass (fuel : nat) (now : Date) (user course : string)
    : M AttendAClassDTO.t :=
  match fuel with
  | O => fun st => (OutOfFuel, st)
  | S fuel' =>
      Transactional (
        courseTaken <- findByUserIdAndCourseId user course ;;
        let invalidOption : M AttendAClassDTO.t :=
          courseTaken <- updateCourseStatus now user course ;;
          match CourseTaken.status courseTaken with
          | COMPLETED => ret (prepareAttendAClassDTO courseTaken course None None None)
          | TAKEN => attendAClass fuel' now user course
          end in
        match findLessonByCourseIdAndSeqNum course (CourseTaken.currentLesson courseTaken) with
        | Some currentLesson =>
            match findPartByLessonIdAndSeqNum (Some (lesson_id currentLesson))
                    (CourseTaken.currentPart courseTaken) with
            | Some currentPart =>
                match findTestByPartIdAndSeqNum (Some (part_id currentPart))
                        (CourseTaken.currentTest courseTaken) with
                | Some currentTest =>
                    ret (prepareAttendAClassDTO courseTaken course
                           (Some currentLesson) (Some currentPart) (Some currentTest))
                | None => invalidOption
                end
            | None => invalidOption
            end
        | None => invalidOption
        end)
  end.

Definition add (fuel : nat) (now : Date) (newCourseTaken : NewCourseTakenDTO.t)
    : M AttendAClassDTO.t :=
  Transactional (fun st =>
    let user := NewCourseTakenDTO.user newCourseTaken in
    let course := NewCourseTakenDTO.course newCourseTaken in
    if truthy (repository_findByUserIdAndCourseId st user course)
    then (Throws (ConflictException "Course already taken by user"), st)
    else
      let newCourseTakenEntity := mapper_toEntity initialCompletition newCourseTaken in
      let newCourseTakenEntity := CourseTaken.set_currentLesson 1 newCourseTakenEntity in
      let newCourseTakenEntity := CourseTaken.set_currentPart 1 newCourseTakenEntity in
      let newCourseTakenEntity := CourseTaken.set_currentTest 1 newCourseTakenEntity in
      let newCourseTakenEntity := CourseTaken.set_status TAKEN newCourseTakenEntity in
      let newCourseTakenEntity :=
        CourseTaken.set_courseStartDate (Some now) newCourseTakenEntity in
      attendAClass fuel now user course (repository_save newCourseTakenEntity st)).

Definition delete (user course : string) : M unit :=
  Transactional (fun st => (Returns tt, repository_delete user course st)).

(** A client that calls [attendAClass] for the same pair once per entry
    of [calls] (the fuel and the time of the call) and collects the
    snapshots; [None] when a call does not return one. *)
Fixpoint attendRepeatedly (calls : list (nat * Date)) (user course : string)
    (st : Store) : option (list AttendAClassDTO.t * Store) :=
  match calls with
  | [] => Some ([], st)
  | (fuel, now) :: rest =>
      match attendAClass fuel now user course st with
      | (Returns snapshot, st1) =>
          match attendRepeatedly rest user course st1 with
          | Some (snapshots, st2) => Some (snapshot :: snapshots, st2)
          | None => None
          end
      | _ => None
      end
  end.

End Service.

(** ** A catalog held in three tables

    The lesson, part and test services answer from the catalog tables. *)

Record Catalog : Type := mkCatalog
  { lessons : list Lesson; parts : list Part; tests : list Test }.

Definition isLessonAt (course : string) (sequenceNumber : Z) (l : Lesson) : bool :=
  String.eqb (lesson_course l) course && Z.eqb (lesson_sequenceNumber l) sequenceNumber.

Definition isPartAt (lesson : string) (sequenceNumber : Z) (p : Part) : bool :=
  String.eqb (part_lesson p) lesson && Z.eqb (part_sequenceNumber p) sequenceNumber.

Definition isTestAt (part : string) (sequenceNumber : Z) (t : Test) : bool :=
  String.eqb (test_part t) part && Z.eqb (test_sequenceNumber t) sequenceNumber.

(** The largest of the sequence numbers [xs], 0 when there is none. *)
Definition maxSeq (xs : list Z) : Z := fold_right Z.max 0 xs.

Section Tables.
Variable catalog : Catalog.

(** Modelled from the spec: [LessonService] is not part of the sources;
    [HierarchyLookup.findByContainerAndSeq] returns the child at that
    sequence number of the container, or nothing. *)
Definition table_findLesson (course : string) (sequenceNumber : Z) : option Lesson :=
  find (isLessonAt course sequenceNumber) (lessons catalog).

(** Modelled from the spec: [LessonService.getLessonIdByCourseIdAndSeqNum]
    is not part of the sources; the id is resolved defensively, a lesson
    that does not exist has no id. *)
Definition table_getLessonId (course : string) (sequenceNumber : Z) : option string :=
  option_map lesson_id (table_findLesson course sequenceNumber).

(** Modelled from the spec: [LessonService.getMaxValueForLesson] is not
    part of the sources; [HierarchyLookup.maxSeq] is the maximum sequence
    number within the container, an integer that is at least 0. *)
Definition table_maxLesson (course : string) : Z :=
  maxSeq (map lesson_sequenceNumber
            (filter (fun l => String.eqb (lesson_course l) course) (lessons catalog))).

(** Modelled from the spec: [PartService.findPartByLessonIdAndSeqNum] is
    not part of the sources; a lesson that could not be resolved contains
    nothing. *)
Definition table_findPart (lesson : option string) (sequenceNumber : Z) : option Part :=
  match lesson with
  | Some id => find (isPartAt id sequenceNumber) (parts catalog)
  | None => None
  end.

(** Modelled from the spec: [PartService.getPartIdByLessonIdAndSeqNum] is
    not part of the sources; as for lessons. *)
Definition table_getPartId (lesson : option string) (sequenceNumber : Z) : option string :=
  option_map part_id (table_findPart lesson sequenceNumber).

(** Modelled from the spec: [PartService.getMaxValueForPart] is not part
    of the sources; as for lessons, 0 for a lesson that could not be
    resolved. *)
Definition table_maxPart (lesson : option string) : Z :=
  match lesson with
  | Some id =>
      maxSeq (map part_sequenceNumber
                (filter (fun p => String.eqb (part_lesson p) id) (parts catalog)))
  | None => 0
  end.

(** Modelled from the spec: [TestService.findTestByPartIdAndSeqNum] is
    not part of the sources; as for parts. *)
Definition table_findTest (part : option string) (sequenceNumber : Z) : option Test :=
  match part with
  | Some id => find (isTestAt id sequenceNumber) (tests catalog)
  | None => None
  end.

(** Modelled from the spec: [TestService.getMaxValueForTest] is not part
    of the sources; as for parts. *)
Definition table_maxTest (part : option string) : Z :=
  match part with
  | Some id =>
      maxSeq (map test_sequenceNumber
                (filter (fun t => String.eqb (test_part t) id) (tests catalog)))
  | None => 0
  end.

Definition tables : HierarchyLookup :=
  {| findLessonByCourseIdAndSeqNum := table_findLesson;
     getLessonIdByCourseIdAndSeqNum := table_getLessonId;
     getMaxValueForLesson := table_maxLesson;
     findPartByLessonIdAndSeqNum := table_findPart;
     getPartIdByLessonIdAndSeqNum := table_getPartId;
     getMaxValueForPart := table_maxPart;
     findTestByPartIdAndSeqNum := table_findTest;
     getMaxValueForTest := table_maxTest |}.
End Tables.

(** ** Derived views of the service, used to state its properties *)

Section Views.
Context {lookup : HierarchyLookup}.

(** The chain lesson, part, test that [attendAClass] resolves from the
    pointers of [courseTaken], when all three exist. *)
Definition resolved (course : string) (courseTaken : CourseTaken.t)
    : option (Lesson * Part * Test) :=
  match findLessonByCourseIdAndSeqNum course (CourseTaken.currentLesson courseTaken) with
  | Some currentLesson =>
      match findPartByLessonIdAndSeqNum (Some (lesson_id currentLesson))
              (CourseTaken.currentPart courseTaken) with
      | Some currentPart =>
          match findTestByPartIdAndSeqNum (Some (part_id currentPart))
                  (CourseTaken.currentTest courseTaken) with
          | Some currentTest => Some (currentLesson, currentPart, currentTest)
          | None => None
          end
      | None => None
      end
  | None => None
  end.

(** The ids [updateCourseStatus] resolves from the pointers of
    [courseTaken], as they are when it is called. *)
Definition idsOf (course : string) (courseTaken : CourseTaken.t)
    : option string * option string :=
  let currentLessonId :=
    getLessonIdByCourseIdAndSeqNum course (CourseTaken.currentLesson courseTaken) in
  (currentLessonId,
   getPartIdByLessonIdAndSeqNum currentLessonId (CourseTaken.currentPart courseTaken)).

(** The record [updateCourseStatus] leaves [prepareCourseTakenUpdatedInfo]
    with, before the completion is recomputed. *)
Definition advanced (now : Date) (course : string) (courseTaken : CourseTaken.t)
    : CourseTaken.t :=
  let '(currentLessonId, currentPartId) := idsOf course courseTaken in
  prepareCourseTakenUpdatedInfo now courseTaken
    (findTestByPartIdAndSeqNum currentPartId (CourseTaken.currentTest courseTaken + 1))
    (findPartByLessonIdAndSeqNum currentLessonId (CourseTaken.currentPart courseTaken + 1))
    (findLessonByCourseIdAndSeqNum course (CourseTaken.currentLesson courseTaken + 1)).

(** Whether [updateCourseStatus] finds a next test, part or lesson. *)
Definition hasNext (course : string) (courseTaken : CourseTaken.t) : bool :=
  let '(currentLessonId, currentPartId) := idsOf course courseTaken in
  truthy (findTestByPartIdAndSeqNum currentPartId (CourseTaken.currentTest courseTaken + 1))
  || truthy (findPartByLessonIdAndSeqNum currentLessonId
               (CourseTaken.currentPart courseTaken + 1))
  || truthy (findLessonByCourseIdAndSeqNum course
               (CourseTaken.currentLesson courseTaken + 1)).

(** The amounts [updateCourseStatus] makes [calculateCompletition] ask
    for: it passes the ids resolved before the pointers were advanced. *)
Definition amountsOfStep (now : Date) (course : string) (courseTaken : CourseTaken.t)
    : Z * Z * Z :=
  let '(currentLessonId, currentPartId) := idsOf course courseTaken in
  queriedAmounts (advanced now course courseTaken) currentLessonId currentPartId.

(** The record one call of [updateCourseStatus] computes and saves. *)
Definition stepOf (now : Date) (course : string) (courseTaken : CourseTaken.t)
    : CourseTaken.t :=
  CourseTaken.set_completition
    (completitionOf (amountsOfStep now course courseTaken)
                    (advanced now course courseTaken))
    (advanced now course courseTaken).

(** What the specification asks of RecomputeCompletion: the amounts of
    the containers the pointers designate after the advancement. *)
Definition amountsAfterAdvancement (now : Date) (course : string)
    (courseTaken : CourseTaken.t) : Z * Z * Z :=
  let courseTaken' := advanced now course courseTaken in
  let '(currentLessonId, currentPartId) := idsOf course courseTaken' in
  queriedAmounts courseTaken' currentLessonId currentPartId.
End Views.

(** The entity [add] saves. *)
Definition newEntity (initialCompletition : number) (now : Date)
    (newCourseTaken : NewCourseTakenDTO.t) : CourseTaken.t :=
  CourseTaken.mk (NewCourseTakenDTO.user newCourseTaken)
    (NewCourseTakenDTO.course newCourseTaken) 1 1 1 TAKEN initialCompletition
    (Some now) None.

(** The enrollments of a store have pairwise different (user, course). *)
Definition keyOf (e : CourseTaken.t) : string * string :=
  (CourseTaken.user e, CourseTaken.course e).

Definition uniquePairs (st : Store) : Prop := NoDup (map keyOf st).

(** How many enrollments the store holds for the pair. *)
Definition enrollmentsOf (user course : string) (st : Store) : nat :=
  List.length (filter (sameKey user course) st).

(** The largest sequence numbers of the three tables. *)
Definition topLesson (catalog : Catalog) : Z :=
  maxSeq (map lesson_sequenceNumber (lessons catalog)).
Definition topPart (catalog : Catalog) : Z :=
  maxSeq (map part_sequenceNumber (parts catalog)).
Definition topTest (catalog : Catalog) : Z :=
  maxSeq (map test_sequenceNumber (tests catalog)).

(** A bound on the rounds [attendAClass] can still make from the pointers
    of [e]: the distance to the top of the tables, lesson first. *)
Definition roundsLeft (catalog : Catalog) (e : CourseTaken.t) : nat :=
  let P := Z.to_nat (topPart catalog) in
  let T := Z.to_nat (topTest catalog) in
  (Z.to_nat (topLesson catalog - CourseTaken.currentLesson e) * ((P + 1) * (T + 1))
   + Z.to_nat (topPart catalog - CourseTaken.currentPart e) * (T + 1)
   + Z.to_nat (topTest catalog - CourseTaken.currentTest e))%nat.

(** The enrollment of the pair is at rest: a further call of
    [attendAClass] finds a valid position, or a completed course that
    reports 100. *)
Definition settled {lookup : HierarchyLookup} (user course : string)
    (st : Store) (e : CourseTaken.t) : Prop :=
  repository_findByUserIdAndCourseId st user course = Some e /\
  (resolved course e <> None \/
   CourseTaken.status e = COMPLETED /\ CourseTaken.completition e = ofZ 100).

(** Every value of the sequence is [<=] every later one. *)
Definition nonDecreasing (xs : list number) : Prop :=
  forall i j x y,
    (i <= j)%nat -> nth_error xs i = Some x -> nth_error xs j = Some y ->
    nle x y = true.

(** ** Scenarios *)

Open Scope string_scope.

(** Two lessons; lesson 1 has one part with one test. *)
Definition carryCatalog : Catalog :=
  mkCatalog [mkLesson "L1" "c" 1; mkLesson "L2" "c" 2]
            [mkPart "P1" "L1" 1]
            [mkTest "T1" "P1" 1].

(** One lesson with two parts; part 1 has no test yet, part 2 has one. *)
Definition emptyPartCatalog : Catalog :=
  mkCatalog [mkLesson "L1" "c" 1]
            [mkPart "P1" "L1" 1; mkPart "P2" "L1" 2]
            [mkTest "T1" "P2" 1].

(** A course whose first lesson was deleted: its only lesson has sequence
    number 2. *)
Definition gapCatalog : Catalog :=
  mkCatalog [mkLesson "L2" "c" 2] [mkPart "P1" "L2" 1] [mkTest "T1" "P1" 1].

(** A course without content. *)
Definition noCatalog : Catalog := mkCatalog [] [] [].

(** Two lessons, two parts in each, two tests in each part. *)
Definition fullCatalog : Catalog :=
  mkCatalog
    [mkLesson "L1" "c" 1; mkLesson "L2" "c" 2]
    [mkPart "P11" "L1" 1; mkPart "P12" "L1" 2; mkPart "P21" "L2" 1; mkPart "P22" "L2" 2]
    [mkTest "T111" "P11" 1; mkTest "T112" "P11" 2; mkTest "T121" "P12" 1;
     mkTest "T122" "P12" 2; mkTest "T211" "P21" 1; mkTest "T212" "P21" 2;
     mkTest "T221" "P22" 1; mkTest "T222" "P22" 2].


(** An enrollment of user "u" in course "c". *)
Definition enrollment (l p t : Z) (s : CourseTakenStatusEnum) (completition : number)
    (completed : option Date) : CourseTaken.t :=
  CourseTaken.mk "u" "c" l p t s completition (Some 5) completed.

Close Scope string_scope.

(** ** Further views of the progression engine *)

(** Lexicographic order of the pointer triples (lesson, part, test). *)
Definition pointersLe (a b : Z * Z * Z) : Prop :=
  let '(l, p, t) := a in
  let '(l', p', t') := b in
  l < l' \/ l = l' /\ (p < p' \/ p = p' /\ t <= t').

(** What a call may change in an enrollment: never the pair or the start
    date, never COMPLETED back to TAKEN, never the pointers backwards. *)
Definition progressed (e e' : CourseTaken.t) : Prop :=
  CourseTaken.user e' = CourseTaken.user e /\
  CourseTaken.course e' = CourseTaken.course e /\
  CourseTaken.courseStartDate e' = CourseTaken.courseStartDate e /\
  (CourseTaken.status e = COMPLETED -> CourseTaken.status e' = COMPLETED) /\
  pointersLe (CourseTaken.pointers e) (CourseTaken.pointers e').

(** A bound on the rounds of [attendAClass] from the pointers of [e] when
    no lesson, part or test has a sequence number above [topL], [topP],
    [topT]. *)
Definition roundsWithin (topL topP topT : Z) (e : CourseTaken.t) : nat :=
  let P := Z.to_nat topP in
  let T := Z.to_nat topT in
  (Z.to_nat (topL - CourseTaken.currentLesson e) * ((P + 1) * (T + 1))
   + Z.to_nat (topP - CourseTaken.currentPart e) * (T + 1)
   + Z.to_nat (topT - CourseTaken.currentTest e))%nat.

(** Numbers that are not negative: a rational from 0 up, [Infinity], or
    NaN. *)
Inductive notNegative : number -> Prop :=
| notNegative_Num : forall q, (0 <= q)%Q -> notNegative (Num q)
| notNegative_PosInf : notNegative PosInf
| notNegative_NaN : notNegative NaN.

(** ** [SecurityService]

    The service of the security module: client credentials sent as
    base64 of [name:secret], logins through Facebook and Google, and the
    refresh of tokens. *)

Module Security.

Inductive GrantTypeEnum : Type := CLIENT_CREDENTIALS | PASSWORD | REFRESH_TOKEN.

(** The columns of [User] the service reads or writes; [otherColumns]
    stands for the rest of the entity, which the service passes along. *)
Record User : Type := mkUser
  { id : string;
    email : string;
    facebookId : option string;
    googleSub : option string;
    role : option string;
    otherColumns : list (string * string) }.

(** [const { role, ...userInfo } = user]: the user without its role. *)
Record UserInfo : Type := mkUserInfo
  { info_id : string;
    info_email : string;
    info_facebookId : option string;
    info_googleSub : option string;
    info_otherColumns : list (string * string) }.

Definition withoutRole (user : User) : UserInfo :=
  mkUserInfo (id user) (email user) (facebookId user) (googleSub user)
             (otherColumns user).

Definition set_facebookId (v : option string) (user : User) : User :=
  mkUser (id user) (email user) v (googleSub user) (role user) (otherColumns user).

Definition set_googleSub (v : option string) (user : User) : User :=
  mkUser (id user) (email user) (facebookId user) v (role user) (otherColumns user).

Record FacebookAuthUserDTO : Type := mkFacebookAuthUserDTO
  { facebook_email : string; facebook_id : string }.

Record GoogleAuthUserDTO : Type := mkGoogleAuthUserDTO
  { google_email : string; google_sub : string }.

Module GeneratedTokenDTO.
Record t : Type := mk
  { accessToken : string;
    refreshToken : string;
    tokenType : string;
    expiresIn : string }.
End GeneratedTokenDTO.

Inductive Exception : Type :=
| InvalidClientCredentialsError
| NotFoundException (message : string)
| UnauthorizedException (message : string)
| TokenExpiredError
| OtherError (name : string).

Inductive Outcome (A : Type) : Type :=
| Returns (a : A)
| Throws (e : Exception).
Arguments Returns {A} a.
Arguments Throws {A} e.

(** Truthiness of a JavaScript value that is a string or [undefined]: the
    empty string is falsy. *)
Definition truthy_string (v : option string) : bool :=
  match v with
  | Some EmptyString | None => false
  | Some _ => true
  end.

(** [s.split(sep)] for a separator of one character. *)
Fixpoint split (sep : ascii) (s : string) : list string :=
  match s with
  | EmptyString => [EmptyString]
  | String c rest =>
      if Ascii.eqb c sep then EmptyString :: split sep rest
      else
        match split sep rest with
        | piece :: pieces => String c piece :: pieces
        | [] => [String c EmptyString]
        end
  end.

Definition splitClientCredentials (login : string) : list string :=
  split ":"%char login.

(** [const [name, secret] = ...]: the first two elements of the array;
    [split] always yields a first one, the second may be [undefined]. *)
Definition destructureNameSecret (parts : list string) : string * option string :=
  (nth 0 parts EmptyString, nth_error parts 1).

Section Service.
(** The client credentials entity and the state behind the user service
    are declared outside the module. *)
Variable ClientCredentials : Type.
Variable World : Type.

(** Who a token is issued to. *)
Inductive Authenticated : Type :=
| ofUser (user : User)
| ofClient (clientCredentials : ClientCredentials).

(** The plain object a token carries: [classToPlain(authenticatedUser)],
    where [isRefreshToken] is absent, or
    [{ ...authenticatedUser, isRefreshToken: true }]. *)
Record TokenPayload : Type := mkTokenPayload
  { subject : Authenticated; isRefreshToken : bool }.

(** [const { email, ... } = refreshTokenUser]: client credentials have no
    email. *)
Definition payload_email (payload : TokenPayload) : option string :=
  match subject payload with
  | ofUser user => Some (email user)
  | ofClient _ => None
  end.

(** What the constructor injects, and [Buffer] and the
    [ClientCredentialsEnum] table. *)
Variable Buffer_base64_ascii : string -> string.
Variable ClientCredentialsEnum : string -> option string.
Variable clientCredentialsRepository_findByNameAndSecret :
  World -> string -> option string -> GrantTypeEnum -> option ClientCredentials.
Variable jwtService_sign : TokenPayload -> string -> string.
Variable jwtService_verify : string -> Outcome TokenPayload.
Variable userService_findByEmail : World -> option string -> Outcome User.
Variable userService_findByEmailAndPassword : World -> string -> string -> Outcome User.
Variable userService_update : string -> UserInfo -> World -> Outcome User * World.
Variable expiresInAccessToken : string.
Variable expiresInRefreshToken : string.

Definition base64ToString (base64Login : string) : string :=
  Buffer_base64_ascii base64Login.

Definition generateLoginObject (authenticatedUser : Authenticated) : GeneratedTokenDTO.t :=
  GeneratedTokenDTO.mk
    (jwtService_sign (mkTokenPayload authenticatedUser false) expiresInAccessToken)
    (jwtService_sign (mkTokenPayload authenticatedUser true) expiresInRefreshToken)
    "bearer"
    expiresInAccessToken.

Definition findClientCredentialsByNameAndSecret (w : World)
    (name : option string) (secret : option string) (grantType : GrantTypeEnum)
    : Outcome ClientCredentials :=
  if negb (truthy_string name) then Throws InvalidClientCredentialsError
  else
    match name with
    | Some name' =>
        match clientCredentialsRepository_findByNameAndSecret w name' secret grantType with
        | Some clientCredentials => Returns clientCredentials
        | None => Throws InvalidClientCredentialsError
        end
    | None => Throws InvalidClientCredentialsError
    end.

Definition validateClientCredentials (w : World) (base64Login : string)
    : Outcome GeneratedTokenDTO.t :=
  let '(name, secret) :=
    destructureNameSecret (splitClientCredentials (base64ToString base64Login)) in
  match findClientCredentialsByNameAndSecret w (ClientCredentialsEnum name) secret
          CLIENT_CREDENTIALS with
  | Returns clientCredentials => Returns (generateLoginObject (ofClient clientCredentials))
  | Throws e => Throws e
  end.

Definition decodeToken (jwt : string) : Outcome TokenPayload := jwtService_verify jwt.

Definition getUserFromToken (jwt : string) : Outcome TokenPayload :=
  jwtService_verify jwt.

Definition validateUserCredentials (w : World) (base64Login username password : string)
    : Outcome GeneratedTokenDTO.t :=
  let '(name, secret) :=
    destructureNameSecret (splitClientCredentials (base64ToString base64Login)) in
  match findClientCredentialsByNameAndSecret w (ClientCredentialsEnum name) secret
          PASSWORD with
  | Returns _ =>
      match userService_findByEmailAndPassword w username password with
      | Returns user => Returns (generateLoginObject (ofUser user))
      | Throws e => Throws e
      end
  | Throws e => Throws e
  end.

Definition validateFacebookUser (facebookAuthUser : FacebookAuthUserDTO) (w : World)
    : Outcome GeneratedTokenDTO.t * World :=
  match userService_findByEmail w (Some (facebook_email facebookAuthUser)) with
  | Throws e => (Throws e, w)
  | Returns user =>
      if negb (truthy_string (facebookId user)) then
        let user := set_facebookId (Some (facebook_id facebookAuthUser)) user in
        let userInfo := withoutRole user in
        match userService_update (id user) userInfo w with
        | (Returns userWithFacebookId, w') =>
            (Returns (generateLoginObject (ofUser userWithFacebookId)), w')
        | (Throws e, w') => (Throws e, w')
        end
      else if negb (match facebookId user with
                    | Some stored => String.eqb stored (facebook_id facebookAuthUser)
                    | None => false
                    end)
      then (Throws (NotFoundException "User not found"), w)
      else (Returns (generateLoginObject (ofUser user)), w)
  end.

Definition validateGoogleUser (googleAuthUser : GoogleAuthUserDTO) (w : World)
    : Outcome GeneratedTokenDTO.t * World :=
  match userService_findByEmail w (Some (google_email googleAuthUser)) with
  | Throws e => (Throws e, w)
  | Returns user =>
      if negb (truthy_string (googleSub user)) then
        let user := set_googleSub (Some (google_sub googleAuthUser)) user in
        let userInfo := withoutRole user in
        match userService_update (id user) userInfo w with
        | (Returns userWithGoogleSub, w') =>
            (Returns (generateLoginObject (ofUser userWithGoogleSub)), w')
        | (Throws e, w') => (Throws e, w')
        end
      else if negb (match googleSub user with
                    | Some stored => String.eqb stored (google_sub googleAuthUser)
                    | None => false
                    end)
      then (Throws (NotFoundException "User not found"), w)
      else (Returns (generateLoginObject (ofUser user)), w)
  end.

Definition refreshToken (w : World) (base64Login refreshToken : string)
    : Outcome GeneratedTokenDTO.t :=
  let '(name, secret) :=
    destructureNameSecret (splitClientCredentials (base64ToString base64Login)) in
  match findClientCredentialsByNameAndSecret w (ClientCredentialsEnum name) secret
          REFRESH_TOKEN with
  | Throws e => Throws e
  | Returns _ =>
      match getUserFromToken refreshToken with
      | Throws TokenExpiredError => Throws (UnauthorizedException "Refresh Token expired")
      | Throws error => Throws error
      | Returns refreshTokenUser =>
          if negb (isRefreshToken refreshTokenUser)
          then Throws (UnauthorizedException "The given token is not a Refresh Token")
          else
            match userService_findByEmail w (payload_email refreshTokenUser) with
            | Returns user => Returns (generateLoginObject (ofUser user))
            | Throws e => Throws e
            end
      end
  end.

End Service.
End Security.

(** Whether the character occurs in the string. *)
Fixpoint hasChar (c : ascii) (s : string) : bool :=
  match s with
  | EmptyString => false
  | String c' rest => Ascii.eqb c' c || hasChar c rest
  end.

(** ** Stand-ins for the collaborators of [SecurityService]

    An in-memory user table, a token service that knows four tokens and a
    client table, to run the service on.  The table registers the client
    FRONT; the member BLANK of the enumeration has the empty string as its
    value, and the table has a row under that empty name as well. *)

Module SecurityDouble.
Import Security.
Open Scope string_scope.

Definition ana : User := mkUser "1" "ana@school" None None (Some "STUDENT") [].

Definition bob : User :=
  mkUser "2" "bob@school" (Some "fb-bob") (Some "g-bob") (Some "STUDENT") [].

Definition World : Type := list User.

Definition users : World := [ana; bob].

Definition findByEmail (w : World) (address : option string) : Outcome User :=
  match address with
  | Some address' =>
      match find (fun user => String.eqb (email user) address') w with
      | Some user => Returns user
      | None => Throws (NotFoundException "User not found")
      end
  | None => Throws (NotFoundException "User not found")
  end.

Definition findByEmailAndPassword (w : World) (username password : string)
    : Outcome User :=
  if String.eqb password "pass" then findByEmail w (Some username)
  else Throws (NotFoundException "User not found").

Definition update (key : string) (info : UserInfo) (w : World) : Outcome User * World :=
  match find (fun user => String.eqb (id user) key) w with
  | Some stored =>
      let saved :=
        mkUser (info_id info) (info_email info) (info_facebookId info)
               (info_googleSub info) (role stored) (info_otherColumns info) in
      (Returns saved,
       map (fun user => if String.eqb (id user) key then saved else user) w)
  | None => (Throws (NotFoundException "User not found"), w)
  end.

Definition sign (payload : TokenPayload string) (expiry : string) : string :=
  (if isRefreshToken string payload then "R/" else "A/") ++
  match subject string payload with
  | ofUser _ user => email user
  | ofClient _ client => client
  end.

Definition verify (jwt : string) : Outcome (TokenPayload string) :=
  if String.eqb jwt "R/ana@school" then Returns (mkTokenPayload string (ofUser string ana) true)
  else if String.eqb jwt "A/ana@school"
  then Returns (mkTokenPayload string (ofUser string ana) false)
  else if String.eqb jwt "old" then Throws TokenExpiredError
  else Throws (OtherError "JsonWebTokenError").

Definition clients (name : string) : option string :=
  if String.eqb name "FRONT" then Some "NEWSCHOOL@FRONT"
  else if String.eqb name "BLANK" then Some ""
  else None.

Definition findByNameAndSecret (w : World) (name : string) (secret : option string)
    (grantType : GrantTypeEnum) : option string :=
  match secret with
  | Some secret' =>
      if (String.eqb name "NEWSCHOOL@FRONT" || String.eqb name "")
         && String.eqb secret' "s3cret"
      then Some name else None
  | None => None
  end.

(** The stand-in for [Buffer] takes the login as already decoded. *)
Definition decoded (base64Login : string) : string := base64Login.

(** The service on the stand-ins. *)
Definition loginOf : Authenticated string -> GeneratedTokenDTO.t :=
  generateLoginObject string sign "15m" "7d".
Definition validateClientCredentials : World -> string -> Outcome GeneratedTokenDTO.t :=
  Security.validateClientCredentials string World decoded clients findByNameAndSecret
    sign "15m" "7d".
Definition validateUserCredentials
    : World -> string -> string -> string -> Outcome GeneratedTokenDTO.t :=
  Security.validateUserCredentials string World decoded clients findByNameAndSecret
    sign findByEmailAndPassword "15m" "7d".
Definition refreshToken : World -> string -> string -> Outcome GeneratedTokenDTO.t :=
  Security.refreshToken string World decoded clients findByNameAndSecret
    sign verify findByEmail "15m" "7d".
Definition validateFacebookUser
    : FacebookAuthUserDTO -> World -> Outcome GeneratedTokenDTO.t * World :=
  Security.validateFacebookUser string World sign findByEmail update "15m" "7d".
Definition validateGoogleUser
    : GoogleAuthUserDTO -> World -> Outcome GeneratedTokenDTO.t * World :=
  Security.validateGoogleUser string World sign findByEmail update "15m" "7d".

Close Scope string_scope.
End SecurityDouble.

(** * Properties *)

(** ** Arithmetic of the number model *)

Lemma nle_refl x : x <> NaN -> nle x x = true.
Proof.
  destruct x; unfold nle; try reflexivity; [|congruence].
  intros _. assert (H : (q ?= q)%Q = Eq) by (apply Qeq_alt; reflexivity).
  now rewrite H.
Qed.

(** ** Arithmetic of [calculateCompletition] *)

Lemma completitionOf_completed amounts e :
  CourseTaken.status e = COMPLETED -> completitionOf amounts e = ofZ 100.
Proof.
  intros H. destruct amounts as [[L P] T]. unfold completitionOf. now rewrite H.
Qed.

(** ** The enrollment table *)

Lemma sameKey_true user course e :
  sameKey user course e = true <->
  CourseTaken.user e = user /\ CourseTaken.course e = course.
Proof.
  unfold sameKey. rewrite andb_true_iff, !String.eqb_eq. tauto.
Qed.

Lemma sameKey_keyOf user course e :
  sameKey user course e = true <-> keyOf e = (user, course).
Proof.
  rewrite sameKey_true. unfold keyOf. split.
  - intros [-> ->]. reflexivity.
  - intros H. inversion H. auto.
Qed.

Lemma find_key st user course e :
  repository_findByUserIdAndCourseId st user course = Some e ->
  CourseTaken.user e = user /\ CourseTaken.course e = course.
Proof.
  intros H. apply find_some in H. apply sameKey_true, H.
Qed.

Lemma find_in_keys st user course e :
  repository_findByUserIdAndCourseId st user course = Some e ->
  In (user, course) (map keyOf st).
Proof.
  intros H. apply find_some in H as [Hin Hk].
  apply sameKey_keyOf in Hk. rewrite <- Hk. now apply in_map.
Qed.

Lemma find_none_keys st user course :
  repository_findByUserIdAndCourseId st user course = None ->
  ~ In (user, course) (map keyOf st).
Proof.
  intros H Hin. apply in_map_iff in Hin as (e & Hk & Hin).
  apply (find_none _ _ H) in Hin.
  apply sameKey_keyOf in Hk. congruence.
Qed.

Lemma save_keys e st :
  map keyOf (repository_save e st) =
  if truthy (repository_findByUserIdAndCourseId st (CourseTaken.user e) (CourseTaken.course e))
  then map keyOf st
  else map keyOf st ++ [keyOf e].
Proof.
  unfold repository_findByUserIdAndCourseId.
  induction st as [|x rest IH]; simpl; [reflexivity|].
  destruct (sameKey _ _ x) eqn:Hx; simpl.
  - apply sameKey_keyOf in Hx. now rewrite Hx.
  - rewrite IH. now destruct (find _ rest).
Qed.

Lemma save_find e st :
  repository_findByUserIdAndCourseId (repository_save e st)
    (CourseTaken.user e) (CourseTaken.course e) = Some e.
Proof.
  unfold repository_findByUserIdAndCourseId.
  assert (He : sameKey (CourseTaken.user e) (CourseTaken.course e) e = true)
    by now apply sameKey_true.
  induction st as [|x rest IH]; simpl.
  - now rewrite He.
  - destruct (sameKey _ _ x) eqn:Hx; simpl.
    + now rewrite He.
    + now rewrite Hx.
Qed.

Lemma save_unique e st : uniquePairs st -> uniquePairs (repository_save e st).
Proof.
  unfold uniquePairs. intros H. rewrite save_keys.
  destruct (repository_findByUserIdAndCourseId st _ _) eqn:Hf; simpl; [assumption|].
  apply find_none_keys in Hf.
  apply NoDup_rev in H. rewrite <- (rev_involutive (_ ++ _)).
  apply NoDup_rev. rewrite rev_app_distr. simpl.
  constructor; [|assumption]. now rewrite <- in_rev.
Qed.

Lemma unique_count user course st :
  uniquePairs st -> (enrollmentsOf user course st <= 1)%nat.
Proof.
  unfold uniquePairs, enrollmentsOf.
  induction st as [|x rest IH]; simpl; intros H; [lia|].
  inversion H as [|? ? Hnot Hrest]; subst.
  destruct (sameKey user course x) eqn:Hx; simpl; [|auto].
  apply sameKey_keyOf in Hx.
  assert (Hnone : filter (sameKey user course) rest = []).
  { destruct (filter _ rest) as [|y ys] eqn:Hf; [reflexivity|].
    assert (Hy : In y (filter (sameKey user course) rest)) by (rewrite Hf; now left).
    apply filter_In in Hy as [Hy Hk]. apply sameKey_keyOf in Hk.
    exfalso. apply Hnot. rewrite Hx, <- Hk. now apply in_map. }
  rewrite Hnone. simpl. lia.
Qed.

(** ** One call of each operation *)

Section ServiceFacts.
Context {lookup : HierarchyLookup}.

Lemma advanced_key now course e :
  CourseTaken.user (advanced now course e) = CourseTaken.user e /\
  CourseTaken.course (advanced now course e) = CourseTaken.course e /\
  CourseTaken.courseStartDate (advanced now course e) = CourseTaken.courseStartDate e.
Proof.
  unfold advanced, idsOf, prepareCourseTakenUpdatedInfo.
  destruct (truthy _); [|destruct (truthy _); [|destruct (truthy _)]];
    simpl; auto.
Qed.

Lemma spread_toUpdateDto e x :
  CourseTaken.user x = CourseTaken.user e ->
  CourseTaken.course x = CourseTaken.course e ->
  CourseTaken.courseStartDate x = CourseTaken.courseStartDate e ->
  spread e (mapper_toUpdateDto x) = x.
Proof.
  intros Hu Hc Hd. destruct x, e; simpl in *. unfold spread. simpl. congruence.
Qed.

Lemma findByUserIdAndCourseId_found st user course e :
  repository_findByUserIdAndCourseId st user course = Some e ->
  findByUserIdAndCourseId user course st = (Returns e, st).
Proof.
  intros H. unfold findByUserIdAndCourseId, Transactional. now rewrite H.
Qed.

Lemma findByUserIdAndCourseId_missing st user course :
  repository_findByUserIdAndCourseId st user course = None ->
  findByUserIdAndCourseId user course st =
  (Throws (NotFoundException "Course not taken by user"), st).
Proof.
  intros H. unfold findByUserIdAndCourseId, Transactional. now rewrite H.
Qed.

Lemma update_found st user course e info :
  repository_findByUserIdAndCourseId st user course = Some e ->
  update user course info st =
  (Returns (spread e info), repository_save (spread e info) st).
Proof.
  intros H. unfold update, Transactional, bind.
  now rewrite (findByUserIdAndCourseId_found _ _ _ _ H).
Qed.

Lemma updateCourseStatus_found now st user course e :
  repository_findByUserIdAndCourseId st user course = Some e ->
  updateCourseStatus now user course st =
  (Returns (stepOf now course e), repository_save (stepOf now course e) st).
Proof.
  intros H. destruct (find_key _ _ _ _ H) as [Hu Hc].
  destruct (advanced_key now course e) as (Hau & Hac & Had).
  unfold updateCourseStatus, Transactional. rewrite H.
  cbv zeta.
  change (prepareCourseTakenUpdatedInfo now e _ _ _) with (advanced now course e).
  change (CourseTaken.set_completition _ (advanced now course e))
    with (stepOf now course e).
  assert (Hsu : CourseTaken.user (stepOf now course e) = user)
    by (unfold stepOf; simpl; congruence).
  assert (Hsc : CourseTaken.course (stepOf now course e) = course)
    by (unfold stepOf; simpl; congruence).
  rewrite Hsu, Hsc, (update_found _ _ _ _ _ H).
  rewrite spread_toUpdateDto; [reflexivity|unfold stepOf; simpl; congruence..].
Qed.

Lemma stepOf_key now course e :
  CourseTaken.user (stepOf now course e) = CourseTaken.user e /\
  CourseTaken.course (stepOf now course e) = CourseTaken.course e.
Proof.
  destruct (advanced_key now course e) as (Hau & Hac & _).
  unfold stepOf. simpl. auto.
Qed.

Lemma attendAClass_step fuel now st user course e :
  repository_findByUserIdAndCourseId st user course = Some e ->
  attendAClass (S fuel) now user course st =
  match resolved course e with
  | Some (l, p, t) =>
      (Returns (prepareAttendAClassDTO e course (Some l) (Some p) (Some t)), st)
  | None =>
      let e' := stepOf now course e in
      let st' := repository_save e' st in
      match CourseTaken.status e' with
      | COMPLETED => (Returns (prepareAttendAClassDTO e' course None None None), st')
      | TAKEN =>
          match attendAClass fuel now user course st' with
          | (Throws x, _) => (Throws x, st)
          | r => r
          end
      end
  end.
Proof.
  intros H. cbn [attendAClass]. unfold Transactional at 1. unfold bind at 1.
  rewrite (findByUserIdAndCourseId_found _ _ _ _ H).
  unfold resolved.
  assert (Hinv : forall k : CourseTaken.t -> M AttendAClassDTO.t,
    (let (o, s) := bind (updateCourseStatus now user course) k st in
     match o with
     | Returns a => (Returns a, s)
     | Throws x => (Throws x, st)
     | OutOfFuel => (OutOfFuel, s)
     end) =
    (let (o, s) := k (stepOf now course e) (repository_save (stepOf now course e) st) in
     match o with
     | Returns a => (Returns a, s)
     | Throws x => (Throws x, st)
     | OutOfFuel => (OutOfFuel, s)
     end)).
  { intros k. unfold bind. now rewrite (updateCourseStatus_found _ _ _ _ _ H). }
  destruct (findLessonByCourseIdAndSeqNum _ _) as [l|];
    [destruct (findPartByLessonIdAndSeqNum _ _) as [p|];
     [destruct (findTestByPartIdAndSeqNum _ _) as [t|]; [reflexivity|]|]|];
    rewrite Hinv; cbv zeta;
    destruct (CourseTaken.status (stepOf now course e)); try reflexivity;
    destruct (attendAClass fuel now user course _) as [[a|x|] s]; reflexivity.
Qed.

Lemma save_stepOf_find now st user course e :
  repository_findByUserIdAndCourseId st user course = Some e ->
  repository_findByUserIdAndCourseId
    (repository_save (stepOf now course e) st) user course =
  Some (stepOf now course e).
Proof.
  intros H.
  pose proof (save_find (stepOf now course e) st) as Hs.
  destruct (stepOf_key now course e) as [Hu Hc].
  destruct (find_key _ _ _ _ H) as [Hu' Hc'].
  rewrite Hu, Hc, Hu', Hc' in Hs. exact Hs.
Qed.

Lemma attendAClass_no_throw fuel now user course :
  forall st e x st',
    repository_findByUserIdAndCourseId st user course = Some e ->
    attendAClass fuel now user course st <> (Throws x, st').
Proof.
  induction fuel as [|fuel IH]; intros st e x st' H; [discriminate|].
  rewrite (attendAClass_step _ _ _ _ _ _ H).
  destruct (resolved course e) as [[[l p] t]|]; [discriminate|].
  cbv zeta. destruct (CourseTaken.status _); [|discriminate].
  destruct (attendAClass fuel now user course _) as [[a|y|] s] eqn:Hrec;
    try discriminate.
  exfalso. exact (IH _ _ y s (save_stepOf_find now _ _ _ _ H) Hrec).
Qed.

(** A call whose pointers do not resolve advances once and, unless that
    completed the course, starts over. *)
Lemma attendAClass_invalid fuel now st user course e :
  repository_findByUserIdAndCourseId st user course = Some e ->
  resolved course e = None ->
  attendAClass (S fuel) now user course st =
  match CourseTaken.status (stepOf now course e) with
  | COMPLETED =>
      (Returns (prepareAttendAClassDTO (stepOf now course e) course None None None),
       repository_save (stepOf now course e) st)
  | TAKEN => attendAClass fuel now user course (repository_save (stepOf now course e) st)
  end.
Proof.
  intros H Hr. rewrite (attendAClass_step _ _ _ _ _ _ H), Hr. cbv zeta.
  destruct (CourseTaken.status _); [|reflexivity].
  destruct (attendAClass fuel now user course _) as [[a|x|] s] eqn:Hrec;
    try reflexivity.
  exfalso. exact (attendAClass_no_throw _ _ _ _ _ _ _ _
                    (save_stepOf_find now _ _ _ _ H) Hrec).
Qed.

Lemma attendAClass_valid fuel now st user course e l p t :
  repository_findByUserIdAndCourseId st user course = Some e ->
  resolved course e = Some (l, p, t) ->
  attendAClass (S fuel) now user course st =
  (Returns (prepareAttendAClassDTO e course (Some l) (Some p) (Some t)), st).
Proof.
  intros H Hr. now rewrite (attendAClass_step _ _ _ _ _ _ H), Hr.
Qed.

End ServiceFacts.

Section StoreFacts.
Context {lookup : HierarchyLookup}.

Lemma save_existing_keys e st x :
  repository_findByUserIdAndCourseId st (CourseTaken.user e) (CourseTaken.course e) = Some x ->
  map keyOf (repository_save e st) = map keyOf st.
Proof.
  intros H. now rewrite save_keys, H.
Qed.

(** [attendAClass] only rewrites the record of its pair: the pairs of the
    store stay as they are. *)
Lemma attendAClass_keys fuel now user course :
  forall st e,
    repository_findByUserIdAndCourseId st user course = Some e ->
    map keyOf (snd (attendAClass fuel now user course st)) = map keyOf st.
Proof.
  induction fuel as [|fuel IH]; intros st e H; [reflexivity|].
  rewrite (attendAClass_step _ _ _ _ _ _ H).
  destruct (find_key _ _ _ _ H) as [Hu Hc].
  destruct (stepOf_key now course e) as [Hsu Hsc].
  assert (Hsave : map keyOf (repository_save (stepOf now course e) st) = map keyOf st).
  { apply (save_existing_keys _ _ e). now rewrite Hsu, Hsc, Hu, Hc. }
  destruct (resolved course e) as [[[l p] t]|]; [reflexivity|].
  cbv zeta. destruct (CourseTaken.status _); [|exact Hsave].
  specialize (IH _ _ (save_stepOf_find now _ _ _ _ H)).
  destruct (attendAClass fuel now user course _) as [[a|x|] s]; simpl in *;
    congruence.
Qed.

Lemma keys_find st user course :
  In (user, course) (map keyOf st) ->
  exists e, repository_findByUserIdAndCourseId st user course = Some e.
Proof.
  intros Hin.
  destruct (repository_findByUserIdAndCourseId st user course) as [e|] eqn:Hf.
  - now exists e.
  - now apply find_none_keys in Hf.
Qed.

Variable initialCompletition : number.

Lemma add_enrolled fuel now newCourseTaken st e :
  repository_findByUserIdAndCourseId st
    (NewCourseTakenDTO.user newCourseTaken) (NewCourseTakenDTO.course newCourseTaken)
    = Some e ->
  add initialCompletition fuel now newCourseTaken st =
  (Throws (ConflictException "Course already taken by user"), st).
Proof.
  intros H. unfold add, Transactional. cbv zeta. now rewrite H.
Qed.

Lemma add_new fuel now newCourseTaken st :
  repository_findByUserIdAndCourseId st
    (NewCourseTakenDTO.user newCourseTaken) (NewCourseTakenDTO.course newCourseTaken)
    = None ->
  add initialCompletition fuel now newCourseTaken st =
  attendAClass fuel now (NewCourseTakenDTO.user newCourseTaken)
    (NewCourseTakenDTO.course newCourseTaken)
    (repository_save (newEntity initialCompletition now newCourseTaken) st).
Proof.
  intros H. unfold add, Transactional. cbv zeta. rewrite H. simpl truthy. cbv iota.
  change (CourseTaken.set_courseStartDate _ _) with (newEntity initialCompletition now newCourseTaken).
  destruct (attendAClass _ _ _ _ _) as [[a|x|] s] eqn:Hrun; try reflexivity.
  exfalso. refine (attendAClass_no_throw _ _ _ _ _ _ _ _ _ Hrun).
  apply (save_find (newEntity initialCompletition now newCourseTaken)).
Qed.

Lemma add_keys fuel now newCourseTaken st :
  map keyOf (snd (add initialCompletition fuel now newCourseTaken st)) =
  map keyOf st \/
  map keyOf (snd (add initialCompletition fuel now newCourseTaken st)) =
  map keyOf st ++
    [(NewCourseTakenDTO.user newCourseTaken, NewCourseTakenDTO.course newCourseTaken)] /\
  repository_findByUserIdAndCourseId st
    (NewCourseTakenDTO.user newCourseTaken) (NewCourseTakenDTO.course newCourseTaken)
    = None.
Proof.
  destruct (repository_findByUserIdAndCourseId st
    (NewCourseTakenDTO.user newCourseTaken) (NewCourseTakenDTO.course newCourseTaken))
    as [e|] eqn:Hf.
  - left. now rewrite (add_enrolled _ _ _ _ _ Hf).
  - right. split; [|reflexivity]. rewrite (add_new _ _ _ _ Hf).
    rewrite (attendAClass_keys _ _ _ _ _ (newEntity initialCompletition now newCourseTaken)).
    + rewrite save_keys. simpl CourseTaken.user. simpl CourseTaken.course.
      now rewrite Hf.
    + apply (save_find (newEntity initialCompletition now newCourseTaken)).
Qed.

End StoreFacts.

(** ** Advancement *)

(** Claim C1: One AdvancePointer step ([updateCourseStatus]) on an enrollment
    with pointers (l, p, t) is a three-level carry in which the first level
    that is not exhausted wins: when a test t+1 exists in the current part
    the pointers become (l, p, t+1); otherwise, when a part p+1 exists in
    the current lesson, they become (l, p+1, 1); otherwise, when a lesson
    l+1 exists in the course, they become (l+1, 1, 1).  In a course of two
    lessons whose lesson 1 has one part with one test, one step from
    (1, 1, 1) yields (2, 1, 1), not (1, 2, 1) nor (1, 1, 2). *)
Theorem AdvancePointer_three_level_carry :
  (forall (lookup : HierarchyLookup) now st user course e l p t,
      repository_findByUserIdAndCourseId st user course = Some e ->
      CourseTaken.pointers e = (l, p, t) ->
      let currentLessonId := getLessonIdByCourseIdAndSeqNum course l in
      let currentPartId := getPartIdByLessonIdAndSeqNum currentLessonId p in
      exists e' st',
        updateCourseStatus now user course st = (Returns e', st') /\
        repository_findByUserIdAndCourseId st' user course = Some e' /\
        (findTestByPartIdAndSeqNum currentPartId (t + 1) <> None ->
         CourseTaken.pointers e' = (l, p, t + 1)) /\
        (findTestByPartIdAndSeqNum currentPartId (t + 1) = None ->
         findPartByLessonIdAndSeqNum currentLessonId (p + 1) <> None ->
         CourseTaken.pointers e' = (l, p + 1, 1)) /\
        (findTestByPartIdAndSeqNum currentPartId (t + 1) = None ->
         findPartByLessonIdAndSeqNum currentLessonId (p + 1) = None ->
         findLessonByCourseIdAndSeqNum course (l + 1) <> None ->
         CourseTaken.pointers e' = (l + 1, 1, 1)))
  /\
  (exists e' st',
      updateCourseStatus (lookup := tables carryCatalog) 7 "u" "c"
        [enrollment 1 1 1 TAKEN (ofZ 0) None] = (Returns e', st') /\
      repository_findByUserIdAndCourseId st' "u" "c" = Some e' /\
      CourseTaken.pointers e' = (2, 1, 1) /\
      CourseTaken.pointers e' <> (1, 2, 1) /\
      CourseTaken.pointers e' <> (1, 1, 2)).
Proof.
  split.
  - intros lookup now st user course e l p t H Hp. cbv zeta.
    exists (stepOf now course e), (repository_save (stepOf now course e) st).
    split; [now apply updateCourseStatus_found|].
    split; [now apply save_stepOf_find|].
    unfold CourseTaken.pointers in Hp. inversion Hp; subst l p t.
    unfold stepOf, advanced, idsOf, prepareCourseTakenUpdatedInfo.
    destruct (findTestByPartIdAndSeqNum _ _) as [nextTest|];
      [|destruct (findPartByLessonIdAndSeqNum _ _) as [nextPart|];
        [|destruct (findLessonByCourseIdAndSeqNum _ _) as [nextLesson|]]];
      simpl; repeat split; intros; try reflexivity; congruence.
  - eexists; eexists. split; [vm_compute; reflexivity|].
    repeat split; try reflexivity; discriminate.
Qed.

(** The test level of [fullCatalog] is not exhausted at (1,1,1): the step
    increments the test pointer only. *)
Lemma AdvancePointer_three_level_carry_witness :
  exists e' st',
    updateCourseStatus (lookup := tables fullCatalog) 7 "u" "c"
      [enrollment 1 1 1 TAKEN (ofZ 0) None] = (Returns e', st') /\
    CourseTaken.pointers e' = (1, 1, 2).
Proof.
  destruct (proj1 AdvancePointer_three_level_carry (tables fullCatalog) 7
              [enrollment 1 1 1 TAKEN (ofZ 0) None] "u"%string "c"%string
              (enrollment 1 1 1 TAKEN (ofZ 0) None) 1 1 1 eq_refl eq_refl)
    as (e' & st' & Hrun & _ & Htest & _).
  exists e', st'. split; [exact Hrun|].
  apply Htest. vm_compute. discriminate.
Defined.

(** ** The read path *)

(** Claim C2: When the stored pointers of an enrollment resolve to an existing
    lesson, part and test, [attendAClass] returns the snapshot at once and
    leaves the store as it was; a second call returns the identical
    snapshot and the store is still unchanged. *)
Theorem attendAClass_valid_position_idempotent :
  forall (lookup : HierarchyLookup) st user course e lesson part test
         fuel now fuel' now',
    repository_findByUserIdAndCourseId st user course = Some e ->
    findLessonByCourseIdAndSeqNum course (CourseTaken.currentLesson e) = Some lesson ->
    findPartByLessonIdAndSeqNum (Some (lesson_id lesson)) (CourseTaken.currentPart e)
      = Some part ->
    findTestByPartIdAndSeqNum (Some (part_id part)) (CourseTaken.currentTest e)
      = Some test ->
    let snapshot :=
      AttendAClassDTO.mk (CourseTaken.user e) course (Some lesson) (Some part) (Some test)
        (CourseTaken.completition e) (CourseTaken.status e) in
    attendAClass (S fuel) now user course st = (Returns snapshot, st) /\
    attendAClass (S fuel') now' user course
      (snd (attendAClass (S fuel) now user course st)) = (Returns snapshot, st).
Proof.
  intros lookup st user course e lesson part test fuel now fuel' now' H Hl Hp Ht.
  assert (Hr : resolved course e = Some (lesson, part, test))
    by (unfold resolved; now rewrite Hl, Hp, Ht).
  cbv zeta.
  rewrite (attendAClass_valid fuel now _ _ _ _ _ _ _ H Hr). simpl snd.
  rewrite (attendAClass_valid fuel' now' _ _ _ _ _ _ _ H Hr). split; reflexivity.
Qed.

(** In [fullCatalog] the position (1,2,1) is valid: two calls, one snapshot,
    the store untouched. *)
Lemma attendAClass_valid_position_idempotent_witness :
  let st := [enrollment 1 2 1 TAKEN (ofZ 25) None] in
  let snapshot :=
    AttendAClassDTO.mk "u" "c" (Some (mkLesson "L1" "c" 1)) (Some (mkPart "P12" "L1" 2))
      (Some (mkTest "T121" "P12" 1)) (ofZ 25) TAKEN in
  attendAClass (lookup := tables fullCatalog) 1 10 "u" "c" st = (Returns snapshot, st) /\
  attendAClass (lookup := tables fullCatalog) 3 11 "u" "c"
    (snd (attendAClass (lookup := tables fullCatalog) 1 10 "u" "c" st))
  = (Returns snapshot, st).
Proof.
  exact (attendAClass_valid_position_idempotent (tables fullCatalog)
           [enrollment 1 2 1 TAKEN (ofZ 25) None] "u"%string "c"%string
           (enrollment 1 2 1 TAKEN (ofZ 25) None)
           (mkLesson "L1" "c" 1) (mkPart "P12" "L1" 2) (mkTest "T121" "P12" 1)
           0%nat 10 2%nat 11 eq_refl eq_refl eq_refl eq_refl).
Defined.

(** ** Listing *)

(** Claim C7: [getAllByUserId] and [getAllByCourseId] hand back whatever the
    repository found and never throw: the guard [!courseTaken] is false for
    every array, so an empty result is returned as an empty sequence
    instead of the NotFoundException the guard was written for. *)
Theorem listing_returns_empty_result :
  (forall st user,
      getAllByUserId user st = (Returns (repository_findByUserId st user), st)) /\
  (forall st course,
      getAllByCourseId course st = (Returns (repository_findByCourseId st course), st)) /\
  getAllByUserId "u" [] = (Returns [], []) /\
  getAllByCourseId "c" [] = (Returns [], []).
Proof.
  repeat split.
Qed.

(** ** Enrollment *)

(** Claim C8: When the pair is already enrolled, [add] throws the
    ConflictException and the store is unchanged; after an [add] that
    succeeded, every further [add] for the pair throws it; and [add] keeps
    the pairs of the store different from each other, so the store never
    holds more than one enrollment of a pair. *)
Theorem add_at_most_once :
  forall (lookup : HierarchyLookup) initialCompletition fuel now newCourseTaken st,
    let user := NewCourseTakenDTO.user newCourseTaken in
    let course := NewCourseTakenDTO.course newCourseTaken in
    (forall e,
        repository_findByUserIdAndCourseId st user course = Some e ->
        add initialCompletition fuel now newCourseTaken st =
        (Throws (ConflictException "Course already taken by user"), st)) /\
    (forall snapshot st',
        add initialCompletition fuel now newCourseTaken st = (Returns snapshot, st') ->
        forall fuel' now',
          add initialCompletition fuel' now' newCourseTaken st' =
          (Throws (ConflictException "Course already taken by user"), st')) /\
    (uniquePairs st ->
     uniquePairs (snd (add initialCompletition fuel now newCourseTaken st)) /\
     (enrollmentsOf user course
        (snd (add initialCompletition fuel now newCourseTaken st)) <= 1)%nat).
Proof.
  intros lookup initialCompletition fuel now newCourseTaken st user course.
  split; [|split].
  - intros e H. now apply (add_enrolled _ _ _ _ _ e).
  - intros snapshot st' Hadd fuel' now'.
    destruct (add_keys initialCompletition fuel now newCourseTaken st)
      as [Hk|[Hk Hnone]].
    + destruct (repository_findByUserIdAndCourseId st user course) as [e|] eqn:Hf.
      * rewrite (add_enrolled _ _ _ _ _ e Hf) in Hadd. discriminate.
      * fold user course in Hk.
        rewrite Hadd in Hk. simpl in Hk.
        rewrite (add_new _ _ _ _ _ Hf) in Hadd.
        pose proof (attendAClass_keys fuel now user course _ _
                      (save_find (newEntity initialCompletition now newCourseTaken) st)) as Hk'.
        fold user course in Hadd. rewrite Hadd in Hk'. simpl in Hk'.
        assert (Hin : In (user, course) (map keyOf st')).
        { rewrite Hk', save_keys. simpl CourseTaken.user. simpl CourseTaken.course.
          fold user course. rewrite Hf. simpl. apply in_or_app. right. now left. }
        destruct (keys_find _ _ _ Hin) as [e' He'].
        now apply (add_enrolled _ _ _ _ _ e').
    + rewrite Hadd in Hk. simpl in Hk.
      assert (Hin : In (user, course) (map keyOf st')).
      { rewrite Hk. apply in_or_app. right. now left. }
      destruct (keys_find _ _ _ Hin) as [e' He'].
      now apply (add_enrolled _ _ _ _ _ e').
  - intros Hu.
    assert (Hu' : uniquePairs (snd (add initialCompletition fuel now newCourseTaken st))).
    { unfold uniquePairs in *.
      destruct (add_keys initialCompletition fuel now newCourseTaken st)
        as [Hk|[Hk Hnone]]; rewrite Hk; [assumption|].
      apply find_none_keys in Hnone.
      apply NoDup_rev in Hu. rewrite <- (rev_involutive (_ ++ _)).
      apply NoDup_rev. rewrite rev_app_distr. simpl.
      constructor; [|assumption]. now rewrite <- in_rev. }
    split; [assumption|]. now apply unique_count.
Qed.

(** Enrolling the pair of an existing enrollment, and enrolling twice from
    an empty store. *)
Lemma add_at_most_once_witness :
  let newCourseTaken := NewCourseTakenDTO.mk "u" "c" in
  let enrolled := [enrollment 1 1 1 TAKEN (ofZ 0) None] in
  let st' := snd (add (lookup := tables fullCatalog) (ofZ 0) 3 9 newCourseTaken []) in
  add (lookup := tables fullCatalog) (ofZ 0) 3 9 newCourseTaken enrolled =
  (Throws (ConflictException "Course already taken by user"), enrolled) /\
  (forall fuel' now',
      add (lookup := tables fullCatalog) (ofZ 0) fuel' now' newCourseTaken st' =
      (Throws (ConflictException "Course already taken by user"), st')) /\
  uniquePairs st'.
Proof.
  cbv zeta. split; [|split].
  - exact (proj1 (add_at_most_once (tables fullCatalog) (ofZ 0) 3%nat 9
                    (NewCourseTakenDTO.mk "u" "c")
                    [enrollment 1 1 1 TAKEN (ofZ 0) None])
             (enrollment 1 1 1 TAKEN (ofZ 0) None) eq_refl).
  - exact (proj1 (proj2 (add_at_most_once (tables fullCatalog) (ofZ 0) 3%nat 9
                           (NewCourseTakenDTO.mk "u" "c") []))
             _ _ eq_refl).
  - refine (proj1 (proj2 (proj2 (add_at_most_once (tables fullCatalog) (ofZ 0) 3%nat 9
                                   (NewCourseTakenDTO.mk "u" "c") [])) _)).
    constructor.
Defined.

(** ** The catalog tables *)

Lemma maxSeq_nonneg xs : 0 <= maxSeq xs.
Proof. induction xs as [|x xs IH]; simpl; lia. Qed.

Lemma maxSeq_ge xs x : In x xs -> x <= maxSeq xs.
Proof.
  induction xs as [|y xs IH]; simpl; [tauto|].
  intros [->|Hin]; [lia|]. specialize (IH Hin). lia.
Qed.

(** ** Repeated calls *)

Section Repeated.
Context {lookup : HierarchyLookup}.
Variables user course : string.

(** A property of enrollments that every step establishes. *)
Variable written : CourseTaken.t -> Prop.
Hypothesis written_stepOf :
  forall now e, CourseTaken.course e = course -> written (stepOf now course e).

Lemma stepOf_stays_completed now e :
  CourseTaken.status e = COMPLETED ->
  CourseTaken.status (stepOf now course e) = COMPLETED.
Proof.
  intros H. unfold stepOf, advanced, idsOf, prepareCourseTakenUpdatedInfo.
  destruct (truthy _); [|destruct (truthy _); [|destruct (truthy _)]];
    simpl; auto.
Qed.

Lemma stepOf_completed_100 now e :
  CourseTaken.status (stepOf now course e) = COMPLETED ->
  CourseTaken.completition (stepOf now course e) = ofZ 100.
Proof.
  intros H. unfold stepOf in *. simpl in H.
  change (CourseTaken.completition (CourseTaken.set_completition ?v ?x)) with v.
  now apply completitionOf_completed.
Qed.

(** The first call brings the enrollment to rest. *)
Lemma attendAClass_settles now fuel :
  forall st e s st',
    repository_findByUserIdAndCourseId st user course = Some e ->
    written e ->
    attendAClass fuel now user course st = (Returns s, st') ->
    exists e',
      settled user course st' e' /\ written e' /\
      AttendAClassDTO.completition s = CourseTaken.completition e' /\
      AttendAClassDTO.status s = CourseTaken.status e'.
Proof.
  induction fuel as [|fuel IH]; intros st e s st' H Hw Hrun; [discriminate|].
  destruct (resolved course e) as [[[l p] t]|] eqn:Hr.
  - rewrite (attendAClass_valid _ _ _ _ _ _ _ _ _ H Hr) in Hrun.
    injection Hrun as <- <-. exists e.
    split; [split; [assumption|left; congruence]|now repeat split].
  - rewrite (attendAClass_invalid _ _ _ _ _ _ H Hr) in Hrun.
    destruct (find_key _ _ _ _ H) as [_ Hc].
    pose proof (written_stepOf now e Hc) as Hw'.
    pose proof (save_stepOf_find now _ _ _ _ H) as Hfind'.
    destruct (CourseTaken.status (stepOf now course e)) eqn:Hs.
    + exact (IH _ _ _ _ Hfind' Hw' Hrun).
    + injection Hrun as <- <-. exists (stepOf now course e).
      split; [split; [assumption|right]|now repeat split].
      split; [assumption|now apply stepOf_completed_100].
Qed.

(** A call on an enrollment at rest reports what is stored and leaves it
    at rest. *)
Lemma attendAClass_at_rest now fuel st e s st' :
  settled user course st e -> written e ->
  attendAClass fuel now user course st = (Returns s, st') ->
  exists e',
    settled user course st' e' /\ written e' /\
    CourseTaken.completition e' = CourseTaken.completition e /\
    CourseTaken.status e' = CourseTaken.status e /\
    AttendAClassDTO.completition s = CourseTaken.completition e /\
    AttendAClassDTO.status s = CourseTaken.status e.
Proof.
  intros (H & Hrest) Hw Hrun.
  destruct fuel as [|fuel]; [discriminate|].
  destruct (resolved course e) as [[[l p] t]|] eqn:Hr.
  - rewrite (attendAClass_valid _ _ _ _ _ _ _ _ _ H Hr) in Hrun.
    injection Hrun as <- <-. exists e.
    split; [split; [assumption|left; congruence]|now repeat split].
  - destruct Hrest as [Hrest|[Hdone H100]]; [congruence|].
    rewrite (attendAClass_invalid _ _ _ _ _ _ H Hr) in Hrun.
    destruct (find_key _ _ _ _ H) as [_ Hc].
    pose proof (stepOf_stays_completed now e Hdone) as Hs.
    pose proof (stepOf_completed_100 now e Hs) as Hs100.
    rewrite Hs in Hrun. injection Hrun as <- <-.
    exists (stepOf now course e).
    split; [split; [now apply save_stepOf_find|right; now split]|].
    split; [now apply written_stepOf|].
    unfold prepareAttendAClassDTO. cbn [AttendAClassDTO.completition AttendAClassDTO.status].
    rewrite Hs100, H100, Hs, Hdone. now repeat split.
Qed.

Lemma attendRepeatedly_at_rest calls :
  forall st e snapshots st',
    settled user course st e -> written e ->
    attendRepeatedly calls user course st = Some (snapshots, st') ->
    Forall (fun s => AttendAClassDTO.completition s = CourseTaken.completition e /\
                     AttendAClassDTO.status s = CourseTaken.status e) snapshots.
Proof.
  induction calls as [|[fuel now] calls IH]; intros st e snapshots st' Hrest Hw Hrun;
    simpl in Hrun.
  - injection Hrun as <- <-. constructor.
  - destruct (attendAClass fuel now user course st) as [[s|x|] st1] eqn:Hcall;
      try discriminate.
    destruct (attendRepeatedly calls user course st1) as [[ss st2]|] eqn:Hrec;
      [|discriminate].
    injection Hrun as <- <-.
    destruct (attendAClass_at_rest _ _ _ _ _ _ Hrest Hw Hcall)
      as (e' & Hrest' & Hw' & Hc & Hs & Hsc & Hss).
    constructor; [now split|].
    specialize (IH _ _ _ _ Hrest' Hw' Hrec). rewrite Hc, Hs in IH. exact IH.
Qed.

Lemma attendAClass_missing now fuel st s st' :
  repository_findByUserIdAndCourseId st user course = None ->
  attendAClass fuel now user course st <> (Returns s, st').
Proof.
  intros H. destruct fuel as [|fuel]; [discriminate|].
  cbn [attendAClass]. unfold Transactional at 1. unfold bind at 1.
  rewrite (findByUserIdAndCourseId_missing _ _ _ H). discriminate.
Qed.

(** All the snapshots of a sequence of calls report the status and the
    completion of one enrollment, which the first call left at rest and
    which has the property. *)
Lemma attendRepeatedly_constant calls st e snapshots st' :
  repository_findByUserIdAndCourseId st user course = Some e -> written e ->
  attendRepeatedly calls user course st = Some (snapshots, st') ->
  snapshots = [] \/
  exists e' st1,
    settled user course st1 e' /\ written e' /\
    Forall (fun s => AttendAClassDTO.completition s = CourseTaken.completition e' /\
                     AttendAClassDTO.status s = CourseTaken.status e') snapshots.
Proof.
  intros Hf Hw Hrun. destruct calls as [|[fuel now] calls]; simpl in Hrun.
  - injection Hrun as <- <-. now left.
  - destruct (attendAClass fuel now user course st) as [[s|x|] st1] eqn:Hcall;
      try discriminate.
    destruct (attendRepeatedly calls user course st1) as [[ss st2]|] eqn:Hrec;
      [|discriminate].
    injection Hrun as <- <-.
    destruct (attendAClass_settles _ _ _ _ _ _ Hf Hw Hcall)
      as (e' & Hrest & Hw' & Hc & Hs).
    right. exists e', st1. split; [assumption|]. split; [assumption|].
    constructor; [now split|].
    exact (attendRepeatedly_at_rest _ _ _ _ _ Hrest Hw' Hrec).
Qed.
End Repeated.

Lemma nonDecreasing_constant v xs :
  v <> NaN -> Forall (fun x => x = v) xs -> nonDecreasing xs.
Proof.
  intros Hv Hall i j x y _ Hx Hy. rewrite Forall_forall in Hall.
  rewrite (Hall x (nth_error_In _ _ Hx)), (Hall y (nth_error_In _ _ Hy)).
  now apply nle_refl.
Qed.

(** ** Completion *)

(** Claim C3 (as the code has it): The amounts RecomputeCompletion asks for in
    an AdvancePointer step are L of the course and P, T of the lesson and
    part whose ids were resolved from the pointers as they were before the
    advancement; the completion saved by the step is computed from them and
    from the advanced pointers. *)
Theorem recompute_amounts_before_advancement :
  forall (lookup : HierarchyLookup) now st user course e,
    repository_findByUserIdAndCourseId st user course = Some e ->
    let currentLessonId :=
      getLessonIdByCourseIdAndSeqNum course (CourseTaken.currentLesson e) in
    let currentPartId :=
      getPartIdByLessonIdAndSeqNum currentLessonId (CourseTaken.currentPart e) in
    let amounts :=
      (getMaxValueForLesson course, getMaxValueForPart currentLessonId,
       getMaxValueForTest currentPartId) in
    amountsOfStep now course e = amounts /\
    exists e' st',
      updateCourseStatus now user course st = (Returns e', st') /\
      repository_findByUserIdAndCourseId st' user course = Some e' /\
      CourseTaken.pointers e' = CourseTaken.pointers (advanced now course e) /\
      CourseTaken.completition e' = completitionOf amounts (advanced now course e).
Proof.
  intros lookup now st user course e H. cbv zeta.
  destruct (find_key _ _ _ _ H) as [_ Hc].
  destruct (advanced_key now course e) as (_ & Hac & _).
  assert (Ha : amountsOfStep now course e =
               (getMaxValueForLesson course,
                getMaxValueForPart
                  (getLessonIdByCourseIdAndSeqNum course (CourseTaken.currentLesson e)),
                getMaxValueForTest
                  (getPartIdByLessonIdAndSeqNum
                     (getLessonIdByCourseIdAndSeqNum course (CourseTaken.currentLesson e))
                     (CourseTaken.currentPart e)))).
  { unfold amountsOfStep, idsOf, queriedAmounts. now rewrite Hac, Hc. }
  split; [exact Ha|].
  exists (stepOf now course e), (repository_save (stepOf now course e) st).
  split; [now apply updateCourseStatus_found|].
  split; [now apply save_stepOf_find|].
  split; [reflexivity|]. unfold stepOf.
  change (CourseTaken.completition (CourseTaken.set_completition ?v ?x)) with v.
  now rewrite Ha.
Qed.

(** The step from (1,1,1) in [emptyPartCatalog]: the amounts are those of
    part 1. *)
Lemma recompute_amounts_before_advancement_witness :
  amountsOfStep (lookup := tables emptyPartCatalog) 7 "c"
    (enrollment 1 1 1 TAKEN (ofZ 0) None) = (1, 2, 0) /\
  exists e' st',
    updateCourseStatus (lookup := tables emptyPartCatalog) 7 "u" "c"
      [enrollment 1 1 1 TAKEN (ofZ 0) None] = (Returns e', st') /\
    CourseTaken.pointers e' = (1, 2, 1) /\
    CourseTaken.completition e' = NaN.
Proof.
  destruct (recompute_amounts_before_advancement (tables emptyPartCatalog) 7
              [enrollment 1 1 1 TAKEN (ofZ 0) None] "u"%string "c"%string
              (enrollment 1 1 1 TAKEN (ofZ 0) None) eq_refl)
    as (Ha & e' & st' & Hrun & _ & Hp & Hc).
  split; [exact Ha|]. exists e', st'. split; [exact Hrun|].
  split; [exact Hp|exact Hc].
Defined.

(** Claim C3 (as stated, refuted): In [emptyPartCatalog] the step from (1,1,1)
    carries to part 2; the amounts asked for are those of part 1 (no test:
    T = 0), not those of part 2 that the advanced pointers designate
    (T = 1), and the saved completion is NaN where the amounts after the
    advancement would give 50. *)
Lemma recompute_amounts_not_after_advancement :
  let e := enrollment 1 1 1 TAKEN (ofZ 0) None in
  CourseTaken.status (stepOf (lookup := tables emptyPartCatalog) 7 "c" e) = TAKEN /\
  CourseTaken.pointers (stepOf (lookup := tables emptyPartCatalog) 7 "c" e) = (1, 2, 1) /\
  amountsOfStep (lookup := tables emptyPartCatalog) 7 "c" e = (1, 2, 0) /\
  amountsAfterAdvancement (lookup := tables emptyPartCatalog) 7 "c" e = (1, 2, 1) /\
  amountsOfStep (lookup := tables emptyPartCatalog) 7 "c" e <>
  amountsAfterAdvancement (lookup := tables emptyPartCatalog) 7 "c" e /\
  CourseTaken.completition (stepOf (lookup := tables emptyPartCatalog) 7 "c" e) = NaN /\
  completitionOf (amountsAfterAdvancement (lookup := tables emptyPartCatalog) 7 "c" e)
    (advanced (lookup := tables emptyPartCatalog) 7 "c" e) = Num 50.
Proof.
  cbv zeta. repeat split; try (vm_compute; reflexivity). vm_compute. discriminate.
Qed.



(** On doubles a division by an amount of 0 gives the NaN of claim C9 as
    well: the step to (1,2,1) with the amounts (1,2,0). *)
Lemma completitionOf64_NaN_on_empty_part :
  completitionOf64 (1, 2, 0) (enrollment 1 2 1 TAKEN (ofZ 0) None) = nan.
Proof. reflexivity. Qed.

(** On doubles a TAKEN enrollment can be given exactly 100: at the last
    test of a hierarchy whose amounts are (200000, 200000, 1000000) the
    three rounded terms add up to 100. *)
Lemma completitionOf64_rounds_to_100 :
  completitionOf64 (200000, 200000, 1000000)
    (enrollment 200000 200000 1000000 TAKEN (ofZ 0) None) = 100%float.
Proof. reflexivity. Qed.

(** Claim C9: Enrolling in [emptyPartCatalog], whose part 1 has no test,
    carries to part 2; the recomputation divides by the T = 0 of part 1 and
    the completion that is saved and returned is NaN, which is not within
    0 and 100. *)
Theorem completition_NaN_on_empty_part :
  exists snapshot e,
    add (lookup := tables emptyPartCatalog) (ofZ 0) 5 7 (NewCourseTakenDTO.mk "u" "c") []
    = (Returns snapshot, [e]) /\
    amountsOfStep (lookup := tables emptyPartCatalog) 7 "c"
      (newEntity (ofZ 0) 7 (NewCourseTakenDTO.mk "u" "c")) = (1, 2, 0) /\
    CourseTaken.pointers e = (1, 2, 1) /\
    CourseTaken.status e = TAKEN /\
    CourseTaken.completition e = NaN /\
    AttendAClassDTO.completition snapshot = NaN /\
    withinPercent (CourseTaken.completition e) = false.
Proof.
  eexists; eexists. split; [vm_compute; reflexivity|].
  repeat split; vm_compute; reflexivity.
Qed.

(** Claim C5 (as the code has it): With the course hierarchy held fixed, all
    the snapshots of a sequence of [attendAClass] calls on an enrollment
    report the same completion and the same status, so the returned
    completion is non-decreasing whenever it is a number; and a snapshot
    whose status is COMPLETED reports exactly 100, unless the enrollment
    was stored COMPLETED at a valid position, which is returned as it is
    stored. *)
Theorem attendAClass_completion_constant :
  forall (lookup : HierarchyLookup) user course calls st e snapshots st',
    repository_findByUserIdAndCourseId st user course = Some e ->
    attendRepeatedly calls user course st = Some (snapshots, st') ->
    (forall s1 s2, In s1 snapshots -> In s2 snapshots ->
       AttendAClassDTO.completition s1 = AttendAClassDTO.completition s2 /\
       AttendAClassDTO.status s1 = AttendAClassDTO.status s2) /\
    ((forall s, In s snapshots -> AttendAClassDTO.completition s <> NaN) ->
     nonDecreasing (map AttendAClassDTO.completition snapshots)) /\
    (forall s, In s snapshots -> AttendAClassDTO.status s = COMPLETED ->
       AttendAClassDTO.completition s = ofZ 100 \/
       (resolved course e <> None /\ CourseTaken.status e = COMPLETED /\
        AttendAClassDTO.completition s = CourseTaken.completition e)).
Proof.
  intros lookup user course calls st e snapshots st' Hf Hrun.
  set (written := fun e' : CourseTaken.t =>
         e' = e \/
         (CourseTaken.status e' = COMPLETED -> CourseTaken.completition e' = ofZ 100)).
  assert (Hstep : forall now e', CourseTaken.course e' = course ->
                                 written (stepOf now course e')).
  { intros now e' _. right. apply stepOf_completed_100. }
  destruct (attendRepeatedly_constant user course written Hstep calls st e snapshots st'
              Hf (or_introl eq_refl) Hrun)
    as [->|(e' & st1 & [_ Hrest] & Hw & Hall)].
  { split; [intros s1 s2 []|]. split; [|intros s []].
    intros _ i j x y _ Hx. destruct i; discriminate. }
  rewrite Forall_forall in Hall.
  split; [|split].
  - intros s1 s2 H1 H2. destruct (Hall _ H1) as [-> ->], (Hall _ H2) as [-> ->].
    now split.
  - intros Hnum.
    destruct snapshots as [|s0 ss].
    { intros i j x y _ Hx. destruct i; discriminate. }
    apply (nonDecreasing_constant (CourseTaken.completition e')).
    + rewrite <- (proj1 (Hall s0 (or_introl eq_refl))). apply Hnum. now left.
    + rewrite Forall_map, Forall_forall. intros s Hs. exact (proj1 (Hall s Hs)).
  - intros s Hs Hdone. destruct (Hall _ Hs) as [Hc Hst]. rewrite Hc.
    rewrite Hst in Hdone.
    destruct Hw as [->|Hw]; [|left; now apply Hw].
    destruct Hrest as [Hvalid|[_ H100]]; [right; now repeat split|now left].
Qed.

(** Three calls from (1,1,3) in [fullCatalog]: the first carries to
    (1,2,1), all report 25 with status TAKEN.  Two calls from (2,2,3),
    past the last test of the course: both report 100 with status
    COMPLETED. *)
Lemma attendAClass_completion_constant_witness :
  (exists snapshots st',
      attendRepeatedly (lookup := tables fullCatalog)
        [(3%nat, 10); (1%nat, 11); (2%nat, 12)]
        "u" "c" [enrollment 1 1 3 TAKEN (ofZ 0) None] = Some (snapshots, st') /\
      map (fun s => (AttendAClassDTO.completition s, AttendAClassDTO.status s)) snapshots
      = [(Num 25, TAKEN); (Num 25, TAKEN); (Num 25, TAKEN)] /\
      nonDecreasing (map AttendAClassDTO.completition snapshots)) /\
  (exists snapshots st',
      attendRepeatedly (lookup := tables fullCatalog) [(2%nat, 10); (2%nat, 11)]
        "u" "c" [enrollment 2 2 3 TAKEN (ofZ 0) None] = Some (snapshots, st') /\
      map AttendAClassDTO.status snapshots = [COMPLETED; COMPLETED] /\
      nonDecreasing (map AttendAClassDTO.completition snapshots) /\
      Forall (fun s => AttendAClassDTO.completition s = ofZ 100) snapshots).
Proof.
  split.
  - eexists; eexists. split; [vm_compute; reflexivity|].
    split; [reflexivity|].
    refine (proj1 (proj2 (attendAClass_completion_constant (tables fullCatalog)
              "u"%string "c"%string [(3%nat, 10); (1%nat, 11); (2%nat, 12)]
              [enrollment 1 1 3 TAKEN (ofZ 0) None] (enrollment 1 1 3 TAKEN (ofZ 0) None)
              _ _ eq_refl _)) _); [vm_compute; reflexivity|].
    intros s [<-|[<-|[<-|[]]]]; discriminate.
  - eexists; eexists. split; [vm_compute; reflexivity|].
    split; [reflexivity|].
    destruct (attendAClass_completion_constant (tables fullCatalog)
                "u"%string "c"%string [(2%nat, 10); (2%nat, 11)]
                [enrollment 2 2 3 TAKEN (ofZ 0) None] (enrollment 2 2 3 TAKEN (ofZ 0) None)
                _ _ eq_refl ltac:(vm_compute; reflexivity)) as (_ & Hmono & Hdone).
    split.
    + apply Hmono. intros s [<-|[<-|[]]]; discriminate.
    + apply Forall_forall. intros s Hs.
      assert (Hstatus : AttendAClassDTO.status s = COMPLETED)
        by (destruct Hs as [<-|[<-|[]]]; reflexivity).
      destruct (Hdone s Hs Hstatus) as [H100|(_ & Hstored & _)];
        [exact H100|discriminate].
Defined.

(** Claim C5 (as stated, refuted): In [fullCatalog] a learner enrolls and
    stands at the valid position (1,1,1) with status TAKEN; [update] with
    the single key completition = 100 stores it, and the two calls of
    [attendAClass] that follow both return completion 100 with status
    TAKEN.  An [update] to COMPLETED with completion 30 is returned in the
    same way: completion 30 with status COMPLETED. *)
Lemma attendAClass_reports_stored_completion :
  exists s0 st1 e2 st2 snapshots st3 e4 st4 snapshots' st5,
    add (lookup := tables fullCatalog) (ofZ 0) 5 7 (NewCourseTakenDTO.mk "u" "c") []
    = (Returns s0, st1) /\
    (AttendAClassDTO.completition s0, AttendAClassDTO.status s0) = (ofZ 0, TAKEN) /\
    update "u" "c" (CourseTakenUpdateDTO.mk None None None None (Some (ofZ 100)) None) st1
    = (Returns e2, st2) /\
    attendRepeatedly (lookup := tables fullCatalog) [(5%nat, 8); (5%nat, 9)] "u" "c" st2
    = Some (snapshots, st3) /\
    map (fun s => (AttendAClassDTO.completition s, AttendAClassDTO.status s)) snapshots
    = [(ofZ 100, TAKEN); (ofZ 100, TAKEN)] /\
    update "u" "c"
      (CourseTakenUpdateDTO.mk None None None (Some COMPLETED) (Some (ofZ 30)) None) st3
    = (Returns e4, st4) /\
    attendRepeatedly (lookup := tables fullCatalog) [(5%nat, 10)] "u" "c" st4
    = Some (snapshots', st5) /\
    map (fun s => (AttendAClassDTO.completition s, AttendAClassDTO.status s)) snapshots'
    = [(ofZ 30, COMPLETED)].
Proof.
  do 10 eexists.
  split; [vm_compute; reflexivity|]. split; [reflexivity|].
  split; [vm_compute; reflexivity|]. split; [vm_compute; reflexivity|].
  split; [reflexivity|].
  split; [vm_compute; reflexivity|]. split; [vm_compute; reflexivity|].
  reflexivity.
Qed.

(** ** Completion date *)

(** Claim C6 (as the code has it): An AdvancePointer step assigns
    courseCompleteDate exactly when it finds no next test, part or lesson:
    then the status is COMPLETED and the date is the time of the step;
    a step that finds one leaves status and date as they were.  A call of
    [attendAClass] on a COMPLETED enrollment whose pointers resolve leaves
    the stored date unchanged. *)
Theorem courseCompleteDate_assignment :
  forall (lookup : HierarchyLookup) st user course e,
    repository_findByUserIdAndCourseId st user course = Some e ->
    (forall now,
        exists e' st',
          updateCourseStatus now user course st = (Returns e', st') /\
          repository_findByUserIdAndCourseId st' user course = Some e' /\
          (hasNext course e = false ->
           CourseTaken.status e' = COMPLETED /\
           CourseTaken.courseCompleteDate e' = Some now) /\
          (hasNext course e = true ->
           CourseTaken.status e' = CourseTaken.status e /\
           CourseTaken.courseCompleteDate e' = CourseTaken.courseCompleteDate e)) /\
    (forall fuel now lesson part test,
        CourseTaken.status e = COMPLETED ->
        resolved course e = Some (lesson, part, test) ->
        exists snapshot st',
          attendAClass (S fuel) now user course st = (Returns snapshot, st') /\
          option_map CourseTaken.courseCompleteDate
            (repository_findByUserIdAndCourseId st' user course)
          = Some (CourseTaken.courseCompleteDate e)).
Proof.
  intros lookup st user course e H. split.
  - intros now.
    exists (stepOf now course e), (repository_save (stepOf now course e) st).
    split; [now apply updateCourseStatus_found|].
    split; [now apply save_stepOf_find|].
    unfold hasNext, stepOf, advanced, idsOf, prepareCourseTakenUpdatedInfo.
    destruct (truthy (findTestByPartIdAndSeqNum _ _));
      [|destruct (truthy (findPartByLessonIdAndSeqNum _ _));
        [|destruct (truthy (findLessonByCourseIdAndSeqNum _ _))]];
      simpl; split; intros; try discriminate; split; reflexivity.
  - intros fuel now lesson part test Hs Hr.
    exists (prepareAttendAClassDTO e course (Some lesson) (Some part) (Some test)), st.
    split; [now apply attendAClass_valid|]. now rewrite H.
Qed.

(** The last step of [fullCatalog] completes at time 30; a later call at
    the valid position (2,2,2) keeps that date. *)
Lemma courseCompleteDate_assignment_witness :
  (exists e' st',
      updateCourseStatus (lookup := tables fullCatalog) 30 "u" "c"
        [enrollment 2 2 2 TAKEN (Num (175 # 2)) None] = (Returns e', st') /\
      CourseTaken.status e' = COMPLETED /\
      CourseTaken.courseCompleteDate e' = Some 30) /\
  (exists snapshot st',
      attendAClass (lookup := tables fullCatalog) 1 40 "u" "c"
        [enrollment 2 2 2 COMPLETED (ofZ 100) (Some 30)] = (Returns snapshot, st') /\
      option_map CourseTaken.courseCompleteDate
        (repository_findByUserIdAndCourseId st' "u" "c") = Some (Some 30)).
Proof.
  split.
  - destruct (proj1 (courseCompleteDate_assignment (tables fullCatalog)
                       [enrollment 2 2 2 TAKEN (Num (175 # 2)) None]
                       "u"%string "c"%string
                       (enrollment 2 2 2 TAKEN (Num (175 # 2)) None) eq_refl) 30)
      as (e' & st' & Hrun & _ & Hlast & _).
    exists e', st'. split; [exact Hrun|]. apply Hlast. reflexivity.
  - exact (proj2 (courseCompleteDate_assignment (tables fullCatalog)
                    [enrollment 2 2 2 COMPLETED (ofZ 100) (Some 30)]
                    "u"%string "c"%string
                    (enrollment 2 2 2 COMPLETED (ofZ 100) (Some 30)) eq_refl)
             0%nat 40 (mkLesson "L2" "c" 2) (mkPart "P22" "L2" 2) (mkTest "T222" "P22" 2)
             eq_refl eq_refl).
Defined.

(** Claim C6 (as stated, refuted): A learner enrolls at time 10 in a course
    without content: the enrollment is COMPLETED with date 10.  The next
    [attendAClass], at time 20, finds the pointers still unresolved, runs
    the step again and stores date 20. *)
Lemma courseCompleteDate_reassigned :
  let view := fun e => (CourseTaken.status e, CourseTaken.courseCompleteDate e) in
  let st1 :=
    snd (add (lookup := tables noCatalog) (ofZ 0) 2 10 (NewCourseTakenDTO.mk "u" "c") []) in
  let st2 := snd (attendAClass (lookup := tables noCatalog) 2 20 "u" "c" st1) in
  option_map view (repository_findByUserIdAndCourseId st1 "u" "c")
    = Some (COMPLETED, Some 10) /\
  option_map view (repository_findByUserIdAndCourseId st2 "u" "c")
    = Some (COMPLETED, Some 20) /\
  option_map CourseTaken.courseCompleteDate (repository_findByUserIdAndCourseId st2 "u" "c")
  <> option_map CourseTaken.courseCompleteDate (repository_findByUserIdAndCourseId st1 "u" "c").
Proof.
  cbv zeta. repeat split; try (vm_compute; reflexivity). vm_compute. discriminate.
Qed.

(** ** Enrolling in a course without content *)

(** Claim C10 (as the code has it): When the course has no lesson at sequence 1
    and none at sequence 2, enrolling a pair that is not enrolled completes
    the enrollment at once: the snapshot has status COMPLETED, completion
    100 and no lesson, part or test, and the saved enrollment is COMPLETED
    with its completion date set. *)
Theorem add_completes_course_without_lessons :
  forall catalog initialCompletition fuel now newCourseTaken st,
    let user := NewCourseTakenDTO.user newCourseTaken in
    let course := NewCourseTakenDTO.course newCourseTaken in
    repository_findByUserIdAndCourseId st user course = None ->
    table_findLesson catalog course 1 = None ->
    table_findLesson catalog course 2 = None ->
    exists e' st',
      add (lookup := tables catalog) initialCompletition (S fuel) now newCourseTaken st =
      (Returns (AttendAClassDTO.mk user course None None None (ofZ 100) COMPLETED), st') /\
      repository_findByUserIdAndCourseId st' user course = Some e' /\
      CourseTaken.status e' = COMPLETED /\
      CourseTaken.completition e' = ofZ 100 /\
      CourseTaken.courseCompleteDate e' = Some now.
Proof.
  intros catalog initialCompletition fuel now newCourseTaken st user course Hnew H1 H2.
  set (e0 := newEntity initialCompletition now newCourseTaken).
  assert (Hfind : repository_findByUserIdAndCourseId (repository_save e0 st) user course
                  = Some e0) by apply (save_find e0).
  assert (Hr : resolved (lookup := tables catalog) course e0 = None).
  { unfold resolved, e0, newEntity.
    cbn [tables findLessonByCourseIdAndSeqNum CourseTaken.currentLesson].
    fold user course. now rewrite H1. }
  assert (Hstep : stepOf (lookup := tables catalog) now course e0 =
                  CourseTaken.mk user course 1 1 1 COMPLETED (ofZ 100) (Some now) (Some now)).
  { unfold stepOf, amountsOfStep, advanced, idsOf.
    cbn [tables getLessonIdByCourseIdAndSeqNum getPartIdByLessonIdAndSeqNum
         findTestByPartIdAndSeqNum findPartByLessonIdAndSeqNum
         findLessonByCourseIdAndSeqNum].
    unfold table_getLessonId, e0, newEntity.
    cbn [CourseTaken.currentLesson CourseTaken.currentPart CourseTaken.currentTest].
    change (1 + 1) with 2. fold user course. rewrite H1, H2.
    reflexivity. }
  exists (stepOf (lookup := tables catalog) now course e0),
         (repository_save (stepOf (lookup := tables catalog) now course e0)
            (repository_save e0 st)).
  split; [|split; [now apply save_stepOf_find|rewrite Hstep; repeat split]].
  rewrite (add_new _ _ _ _ _ Hnew). fold user course e0.
  rewrite (attendAClass_invalid _ _ _ _ _ _ Hfind Hr), Hstep. reflexivity.
Qed.

(** Enrolling in the course without content. *)
Lemma add_completes_course_without_lessons_witness :
  exists e' st',
    add (lookup := tables noCatalog) (ofZ 0) 1 10 (NewCourseTakenDTO.mk "u" "c") [] =
    (Returns (AttendAClassDTO.mk "u" "c" None None None (ofZ 100) COMPLETED), st') /\
    repository_findByUserIdAndCourseId st' "u" "c" = Some e' /\
    CourseTaken.status e' = COMPLETED /\
    CourseTaken.completition e' = ofZ 100 /\
    CourseTaken.courseCompleteDate e' = Some 10.
Proof.
  exact (add_completes_course_without_lessons noCatalog (ofZ 0) 0%nat 10
           (NewCourseTakenDTO.mk "u" "c") [] eq_refl eq_refl eq_refl).
Defined.

(** Claim C10 (as stated, refuted): [gapCatalog] has no lesson at sequence 1,
    yet enrolling carries the pointers to its lesson 2 and leaves the
    learner TAKEN there. *)
Lemma add_gap_course_stays_taken :
  table_findLesson gapCatalog "c" 1 = None /\
  exists snapshot e,
    add (lookup := tables gapCatalog) (ofZ 0) 5 7 (NewCourseTakenDTO.mk "u" "c") []
    = (Returns snapshot, [e]) /\
    AttendAClassDTO.status snapshot = TAKEN /\
    AttendAClassDTO.currentLesson snapshot = Some (mkLesson "L2" "c" 2) /\
    CourseTaken.status e = TAKEN /\
    CourseTaken.courseCompleteDate e = None.
Proof.
  split; [reflexivity|].
  eexists; eexists. split; [vm_compute; reflexivity|]. repeat split.
Qed.

(** ** Termination

    The recursion of [attendAClass] is bounded by the size of the catalog:
    every round that does not return moves the pointers up, and they
    cannot pass the largest sequence numbers of the tables. *)

Section Termination.
Variable catalog : Catalog.
Variables user course : string.

Local Abbreviation attendAClass := (attendAClass (lookup := tables catalog)).
Local Abbreviation stepOf := (stepOf (lookup := tables catalog)).
Local Abbreviation resolved := (resolved (lookup := tables catalog)).
Local Abbreviation save_stepOf_find := (save_stepOf_find (lookup := tables catalog)).

Lemma table_findLesson_top c n l :
  table_findLesson catalog c n = Some l -> n <= topLesson catalog.
Proof.
  intros H. apply find_some in H as [Hin Hat].
  apply andb_true_iff in Hat as [_ Hn]. apply Z.eqb_eq in Hn. subst n.
  now apply maxSeq_ge, in_map.
Qed.

Lemma table_findPart_top lesson n p :
  table_findPart catalog lesson n = Some p -> n <= topPart catalog.
Proof.
  destruct lesson as [id|]; [|discriminate]. simpl.
  intros H. apply find_some in H as [Hin Hat].
  apply andb_true_iff in Hat as [_ Hn]. apply Z.eqb_eq in Hn. subst n.
  now apply maxSeq_ge, in_map.
Qed.

Lemma table_findTest_top part n t :
  table_findTest catalog part n = Some t -> n <= topTest catalog.
Proof.
  destruct part as [id|]; [|discriminate]. simpl.
  intros H. apply find_some in H as [Hin Hat].
  apply andb_true_iff in Hat as [_ Hn]. apply Z.eqb_eq in Hn. subst n.
  now apply maxSeq_ge, in_map.
Qed.

Lemma stepOf_rounds now e :
  CourseTaken.status (stepOf now course e) = TAKEN ->
  (roundsLeft catalog (stepOf now course e) < roundsLeft catalog e)%nat.
Proof.
  unfold roundsLeft, stepOf, advanced, idsOf, prepareCourseTakenUpdatedInfo.
  cbn [tables getLessonIdByCourseIdAndSeqNum
       getPartIdByLessonIdAndSeqNum findTestByPartIdAndSeqNum
       findPartByLessonIdAndSeqNum findLessonByCourseIdAndSeqNum].
  pose proof (maxSeq_nonneg (map part_sequenceNumber (parts catalog))) as HP.
  pose proof (maxSeq_nonneg (map test_sequenceNumber (tests catalog))) as HT.
  fold (topPart catalog) in HP. fold (topTest catalog) in HT.
  destruct (table_findTest catalog _ _) as [nextTest|] eqn:Htest; simpl truthy; cbv iota.
  - intros _. apply table_findTest_top in Htest. simpl. lia.
  - destruct (table_findPart catalog _ (_ + 1)) as [nextPart|] eqn:Hpart;
      simpl truthy; cbv iota.
    + intros _. apply table_findPart_top in Hpart. simpl. nia.
    + destruct (table_findLesson catalog _ (_ + 1)) as [nextLesson|] eqn:Hlesson;
        simpl truthy; cbv iota.
      * intros _. apply table_findLesson_top in Hlesson. simpl. nia.
      * discriminate.
Qed.

Lemma attendAClass_returns_within now n :
  forall st e,
    repository_findByUserIdAndCourseId st user course = Some e ->
    (roundsLeft catalog e <= n)%nat ->
    exists snapshot st',
      attendAClass (S n) now user course st = (Returns snapshot, st').
Proof.
  induction n as [|n IH]; intros st e H Hn.
  - destruct (resolved course e) as [[[l p] t]|] eqn:Hr.
    + rewrite (attendAClass_valid _ _ _ _ _ _ _ _ _ H Hr). eauto.
    + rewrite (attendAClass_invalid _ _ _ _ _ _ H Hr).
      destruct (CourseTaken.status (stepOf now course e)) eqn:Hs; [|eauto].
      apply stepOf_rounds in Hs. lia.
  - destruct (resolved course e) as [[[l p] t]|] eqn:Hr.
    + rewrite (attendAClass_valid _ _ _ _ _ _ _ _ _ H Hr). eauto.
    + rewrite (attendAClass_invalid _ _ _ _ _ _ H Hr).
      destruct (CourseTaken.status (stepOf now course e)) eqn:Hs; [|eauto].
      apply stepOf_rounds in Hs.
      apply (IH _ _ (save_stepOf_find now _ _ _ _ H)). lia.
Qed.
End Termination.

(** For an enrolled pair [attendAClass] returns a snapshot, given fuel for
    the rounds the catalog allows. *)
Theorem attendAClass_returns :
  forall catalog now user course st e,
    repository_findByUserIdAndCourseId st user course = Some e ->
    exists snapshot st',
      attendAClass (lookup := tables catalog) (S (roundsLeft catalog e)) now user course st
      = (Returns snapshot, st').
Proof.
  intros catalog now user course st e H.
  now apply (attendAClass_returns_within catalog user course now _ st e H).
Qed.


(** * Further properties of [CourseTakenService] *)

(** ** The enrollment table, continued *)

Lemma sameKey_other user course user' course' e :
  (user', course') <> (user, course) ->
  sameKey user course e = true -> sameKey user' course' e = false.
Proof.
  intros Hne H. apply sameKey_true in H as [Hu Hc].
  destruct (sameKey user' course' e) eqn:H'; [|reflexivity].
  apply sameKey_true in H' as [Hu' Hc']. exfalso. apply Hne. congruence.
Qed.

Lemma save_find_other e st user' course' :
  (user', course') <> keyOf e ->
  repository_findByUserIdAndCourseId (repository_save e st) user' course' =
  repository_findByUserIdAndCourseId st user' course'.
Proof.
  intros Hne. unfold repository_findByUserIdAndCourseId.
  assert (He : sameKey user' course' e = false).
  { apply (sameKey_other (CourseTaken.user e) (CourseTaken.course e)); [exact Hne|].
    now apply sameKey_true. }
  induction st as [|x rest IH]; simpl.
  - now rewrite He.
  - destruct (sameKey (CourseTaken.user e) (CourseTaken.course e) x) eqn:Hx; simpl.
    + rewrite He. now rewrite (sameKey_other _ _ _ _ _ Hne Hx).
    + now rewrite IH.
Qed.

Lemma delete_find user course st :
  repository_findByUserIdAndCourseId (repository_delete user course st) user course = None.
Proof.
  unfold repository_findByUserIdAndCourseId, repository_delete.
  induction st as [|x rest IH]; simpl; [reflexivity|].
  destruct (sameKey user course x) eqn:Hx; simpl; [exact IH|]. now rewrite Hx.
Qed.

Lemma delete_find_other user course user' course' st :
  (user', course') <> (user, course) ->
  repository_findByUserIdAndCourseId (repository_delete user course st) user' course' =
  repository_findByUserIdAndCourseId st user' course'.
Proof.
  intros Hne. unfold repository_findByUserIdAndCourseId, repository_delete.
  induction st as [|x rest IH]; simpl; [reflexivity|].
  destruct (sameKey user course x) eqn:Hx; simpl.
  - now rewrite (sameKey_other _ _ _ _ _ Hne Hx).
  - now rewrite IH.
Qed.

Lemma delete_absent user course st :
  repository_findByUserIdAndCourseId st user course = None ->
  repository_delete user course st = st.
Proof.
  unfold repository_findByUserIdAndCourseId, repository_delete.
  induction st as [|x rest IH]; simpl; [reflexivity|].
  destruct (sameKey user course x) eqn:Hx; simpl; [discriminate|].
  intros H. now rewrite IH.
Qed.

(** ** What a call may change *)

Lemma pointersLe_refl a : pointersLe a a.
Proof. destruct a as [[l p] t]. simpl. lia. Qed.

Lemma pointersLe_trans a b c : pointersLe a b -> pointersLe b c -> pointersLe a c.
Proof.
  destruct a as [[l p] t], b as [[l' p'] t'], c as [[l'' p''] t'']. simpl. lia.
Qed.

Lemma progressed_refl e : progressed e e.
Proof. repeat split; auto. apply pointersLe_refl. Qed.

Lemma progressed_trans a b c : progressed a b -> progressed b c -> progressed a c.
Proof.
  intros (Hu & Hc & Hd & Hs & Hp) (Hu' & Hc' & Hd' & Hs' & Hp').
  repeat split; try congruence; auto.
  exact (pointersLe_trans _ _ _ Hp Hp').
Qed.

Section Progress.
Context {lookup : HierarchyLookup}.

Lemma stepOf_progressed now course e : progressed e (stepOf now course e).
Proof.
  unfold progressed, stepOf, advanced, idsOf, prepareCourseTakenUpdatedInfo,
    CourseTaken.pointers.
  destruct (truthy _); [|destruct (truthy _); [|destruct (truthy _)]];
    simpl; repeat split; auto; lia.
Qed.

Lemma attendAClass_unenrolled fuel now user course st :
  repository_findByUserIdAndCourseId st user course = None ->
  attendAClass (S fuel) now user course st =
  (Throws (NotFoundException "Course not taken by user"), st).
Proof.
  intros H. cbn [attendAClass]. unfold Transactional at 1. unfold bind at 1.
  now rewrite (findByUserIdAndCourseId_missing _ _ _ H).
Qed.

(** Whatever a call of [attendAClass] returns, the record it leaves for
    the pair is the old one moved forward. *)
Lemma attendAClass_progressed now user course fuel :
  forall st e,
    repository_findByUserIdAndCourseId st user course = Some e ->
    exists e',
      repository_findByUserIdAndCourseId
        (snd (attendAClass fuel now user course st)) user course = Some e' /\
      progressed e e'.
Proof.
  induction fuel as [|fuel IH]; intros st e H.
  - exists e. split; [exact H|apply progressed_refl].
  - destruct (resolved course e) as [[[l p] t]|] eqn:Hr.
    + rewrite (attendAClass_valid _ _ _ _ _ _ _ _ _ H Hr).
      exists e. split; [exact H|apply progressed_refl].
    + rewrite (attendAClass_invalid _ _ _ _ _ _ H Hr).
      pose proof (save_stepOf_find now _ _ _ _ H) as Hfind.
      pose proof (stepOf_progressed now course e) as Hstep.
      destruct (CourseTaken.status (stepOf now course e)).
      * destruct (IH _ _ Hfind) as (e' & He' & Hp).
        exists e'. split; [exact He'|exact (progressed_trans _ _ _ Hstep Hp)].
      * exists (stepOf now course e). split; [exact Hfind|exact Hstep].
Qed.

(** [attendAClass] reads and writes the record of its pair only. *)
Lemma attendAClass_other now user course user' course' fuel :
  (user', course') <> (user, course) ->
  forall st,
    repository_findByUserIdAndCourseId
      (snd (attendAClass fuel now user course st)) user' course' =
    repository_findByUserIdAndCourseId st user' course'.
Proof.
  intros Hne. induction fuel as [|fuel IH]; intros st; [reflexivity|].
  destruct (repository_findByUserIdAndCourseId st user course) as [e|] eqn:H.
  - destruct (find_key _ _ _ _ H) as [Hu Hc].
    destruct (stepOf_key now course e) as [Hsu Hsc].
    assert (Hsave : repository_findByUserIdAndCourseId
                      (repository_save (stepOf now course e) st) user' course' =
                    repository_findByUserIdAndCourseId st user' course').
    { apply save_find_other. unfold keyOf. rewrite Hsu, Hsc, Hu, Hc. exact Hne. }
    destruct (resolved course e) as [[[l p] t]|] eqn:Hr.
    + now rewrite (attendAClass_valid _ _ _ _ _ _ _ _ _ H Hr).
    + rewrite (attendAClass_invalid _ _ _ _ _ _ H Hr).
      destruct (CourseTaken.status (stepOf now course e)); [|exact Hsave].
      now rewrite IH.
  - now rewrite (attendAClass_unenrolled _ _ _ _ _ H).
Qed.

End Progress.

(** ** Pairs that are not enrolled *)

(** X1: For a pair without enrollment, [findByUserIdAndCourseId], [update]
    and [attendAClass] all throw the NotFoundException 'Course not taken by
    user' and leave the store as it was. *)
Theorem unenrolled_pair_not_found :
  forall (lookup : HierarchyLookup) fuel now user course info st,
    repository_findByUserIdAndCourseId st user course = None ->
    findByUserIdAndCourseId user course st =
      (Throws (NotFoundException "Course not taken by user"), st) /\
    update user course info st =
      (Throws (NotFoundException "Course not taken by user"), st) /\
    attendAClass (S fuel) now user course st =
      (Throws (NotFoundException "Course not taken by user"), st).
Proof.
  intros lookup fuel now user course info st H.
  split; [now apply findByUserIdAndCourseId_missing|].
  split; [|now apply attendAClass_unenrolled].
  unfold update, Transactional, bind.
  now rewrite (findByUserIdAndCourseId_missing _ _ _ H).
Qed.

(** Nobody is enrolled in the empty store. *)
Lemma unenrolled_pair_not_found_witness :
  update "u" "c" (CourseTakenUpdateDTO.mk (Some 3) None None None (Some (ofZ 50)) None) [] =
    (Throws (NotFoundException "Course not taken by user"), []) /\
  attendAClass (lookup := tables fullCatalog) 4 10 "u" "c" [] =
    (Throws (NotFoundException "Course not taken by user"), []).
Proof.
  exact (proj2 (unenrolled_pair_not_found (tables fullCatalog) 3%nat 10
                  "u"%string "c"%string
                  (CourseTakenUpdateDTO.mk (Some 3) None None None (Some (ofZ 50)) None) [] eq_refl)).
Defined.

(** ** [update] *)

(** X2: [update] of an enrolled pair saves the stored record merged with
    the update: the pair and the start date stay; each of the pointers, the
    status, the completion and the completion date is the update's when the
    update carries that key and stays as stored when it does not, so an
    update without keys saves the record as it was; the saved record is
    what a lookup of the pair finds afterwards, and no record is added or
    removed. *)
Theorem update_merges_and_saves :
  forall st user course e info,
    repository_findByUserIdAndCourseId st user course = Some e ->
    exists e' st',
      update user course info st = (Returns e', st') /\
      findByUserIdAndCourseId user course st' = (Returns e', st') /\
      CourseTaken.user e' = user /\
      CourseTaken.course e' = course /\
      CourseTaken.courseStartDate e' = CourseTaken.courseStartDate e /\
      CourseTaken.currentLesson e' =
        match CourseTakenUpdateDTO.currentLesson info with
        | Some currentLesson => currentLesson
        | None => CourseTaken.currentLesson e
        end /\
      CourseTaken.currentPart e' =
        match CourseTakenUpdateDTO.currentPart info with
        | Some currentPart => currentPart
        | None => CourseTaken.currentPart e
        end /\
      CourseTaken.currentTest e' =
        match CourseTakenUpdateDTO.currentTest info with
        | Some currentTest => currentTest
        | None => CourseTaken.currentTest e
        end /\
      CourseTaken.status e' =
        match CourseTakenUpdateDTO.status info with
        | Some status => status
        | None => CourseTaken.status e
        end /\
      CourseTaken.completition e' =
        match CourseTakenUpdateDTO.completition info with
        | Some completition => completition
        | None => CourseTaken.completition e
        end /\
      CourseTaken.courseCompleteDate e' =
        match CourseTakenUpdateDTO.courseCompleteDate info with
        | Some courseCompleteDate => courseCompleteDate
        | None => CourseTaken.courseCompleteDate e
        end /\
      (info = CourseTakenUpdateDTO.mk None None None None None None -> e' = e) /\
      map keyOf st' = map keyOf st.
Proof.
  intros st user course e info H.
  destruct (find_key _ _ _ _ H) as [Hu Hc].
  exists (spread e info), (repository_save (spread e info) st).
  assert (Hfind : repository_findByUserIdAndCourseId
                    (repository_save (spread e info) st) user course
                  = Some (spread e info)).
  { pose proof (save_find (spread e info) st) as Hs. simpl in Hs.
    now rewrite Hu, Hc in Hs. }
  split; [now apply update_found|].
  split; [now apply findByUserIdAndCourseId_found|].
  repeat split; try assumption.
  - intros ->. now destruct e.
  - apply (save_existing_keys _ _ e). simpl. now rewrite Hu, Hc.
Qed.

(** A correction that carries the lesson pointer and the completion only:
    the part and test pointers, the status and the dates stay as stored. *)
Lemma update_merges_and_saves_witness :
  exists e' st',
    update "u" "c" (CourseTakenUpdateDTO.mk (Some 2) None None None (Some (ofZ 50)) None)
      [enrollment 1 2 2 TAKEN (ofZ 0) None] = (Returns e', st') /\
    findByUserIdAndCourseId "u" "c" st' = (Returns e', st') /\
    e' = enrollment 2 2 2 TAKEN (ofZ 50) None.
Proof.
  destruct (update_merges_and_saves [enrollment 1 2 2 TAKEN (ofZ 0) None]
              "u"%string "c"%string (enrollment 1 2 2 TAKEN (ofZ 0) None)
              (CourseTakenUpdateDTO.mk (Some 2) None None None (Some (ofZ 50)) None) eq_refl)
    as (e' & st' & Hrun & Hfind & Hu & Hc & Hd & Hl & Hp & Ht & Hs & Hv & Hcd & _).
  exists e', st'. split; [exact Hrun|]. split; [exact Hfind|].
  destruct e'. simpl in *. unfold enrollment. congruence.
Defined.

(** ** Other enrollments *)

(** X3: The operations on a pair leave the enrollment of every other pair
    as it is. *)
Theorem other_enrollments_untouched :
  forall (lookup : HierarchyLookup) initialCompletition fuel now user course info
         user' course' st,
    (user', course') <> (user, course) ->
    let other := fun st' => repository_findByUserIdAndCourseId st' user' course' in
    other (snd (add initialCompletition fuel now (NewCourseTakenDTO.mk user course) st))
      = other st /\
    other (snd (update user course info st)) = other st /\
    other (snd (updateCourseStatus now user course st)) = other st /\
    other (snd (attendAClass fuel now user course st)) = other st /\
    other (snd (delete user course st)) = other st.
Proof.
  intros lookup initialCompletition fuel now user course info user' course' st Hne other.
  unfold other.
  repeat split.
  - destruct (repository_findByUserIdAndCourseId st user course) as [e|] eqn:H.
    + now rewrite (add_enrolled initialCompletition fuel now
                     (NewCourseTakenDTO.mk user course) st e H).
    + rewrite (add_new initialCompletition fuel now (NewCourseTakenDTO.mk user course) st H).
      cbn [NewCourseTakenDTO.user NewCourseTakenDTO.course].
      rewrite (attendAClass_other _ _ _ _ _ _ Hne). now apply save_find_other.
  - destruct (repository_findByUserIdAndCourseId st user course) as [e|] eqn:H.
    + rewrite (update_found _ _ _ _ info H). cbn [snd].
      apply save_find_other. unfold keyOf. simpl.
      destruct (find_key _ _ _ _ H) as [-> ->]. exact Hne.
    + unfold update, Transactional, bind.
      now rewrite (findByUserIdAndCourseId_missing _ _ _ H).
  - destruct (repository_findByUserIdAndCourseId st user course) as [e|] eqn:H.
    + rewrite (updateCourseStatus_found _ _ _ _ _ H). cbn [snd].
      apply save_find_other. unfold keyOf.
      destruct (stepOf_key now course e) as [-> ->].
      destruct (find_key _ _ _ _ H) as [-> ->]. exact Hne.
    + unfold updateCourseStatus, Transactional. now rewrite H.
  - now apply attendAClass_other.
  - unfold delete, Transactional. cbn [snd]. now apply delete_find_other.
Qed.

(** The enrollment of "v" is not touched while "u" attends and advances. *)
Lemma other_enrollments_untouched_witness :
  let st := [enrollment 1 1 3 TAKEN (ofZ 0) None;
             CourseTaken.mk "v" "c" 2 1 1 TAKEN (ofZ 50) (Some 6) None] in
  repository_findByUserIdAndCourseId
    (snd (attendAClass (lookup := tables fullCatalog) 3 10 "u" "c" st)) "v" "c" =
  Some (CourseTaken.mk "v" "c" 2 1 1 TAKEN (ofZ 50) (Some 6) None) /\
  repository_findByUserIdAndCourseId (snd (delete "u" "c" st)) "v" "c" =
  Some (CourseTaken.mk "v" "c" 2 1 1 TAKEN (ofZ 50) (Some 6) None).
Proof.
  cbv zeta.
  assert (Hne : ("v"%string, "c"%string) <> ("u"%string, "c"%string)) by discriminate.
  destruct (other_enrollments_untouched (tables fullCatalog) (ofZ 0) 3%nat 10
              "u"%string "c"%string (CourseTakenUpdateDTO.mk (Some 1) (Some 1) (Some 1) (Some TAKEN) (Some (ofZ 0)) None)
              "v"%string "c"%string
              [enrollment 1 1 3 TAKEN (ofZ 0) None;
               CourseTaken.mk "v" "c" 2 1 1 TAKEN (ofZ 50) (Some 6) None] Hne)
    as (_ & _ & _ & Hattend & Hdelete).
  split; [exact Hattend|exact Hdelete].
Defined.

(** ** [delete] *)

(** X4: [delete] never throws; afterwards the pair is not enrolled (a
    lookup throws the NotFoundException), a second [delete] changes
    nothing, and [add] for the pair is not rejected as already taken.  On a
    pair that was not enrolled [delete] leaves the store as it was. *)
Theorem delete_unenrolls :
  forall (lookup : HierarchyLookup) initialCompletition fuel now user course st,
    exists st',
      delete user course st = (Returns tt, st') /\
      findByUserIdAndCourseId user course st' =
        (Throws (NotFoundException "Course not taken by user"), st') /\
      delete user course st' = (Returns tt, st') /\
      (forall message,
          fst (add initialCompletition fuel now (NewCourseTakenDTO.mk user course) st')
          <> Throws (ConflictException message)) /\
      (repository_findByUserIdAndCourseId st user course = None -> st' = st).
Proof.
  intros lookup initialCompletition fuel now user course st.
  exists (repository_delete user course st).
  pose proof (delete_find user course st) as Hgone.
  split; [reflexivity|].
  split; [now apply findByUserIdAndCourseId_missing|].
  split; [unfold delete, Transactional; now rewrite (delete_absent _ _ _ Hgone)|].
  split; [|apply delete_absent].
  intros message Hadd.
  rewrite (add_new initialCompletition fuel now (NewCourseTakenDTO.mk user course) _ Hgone)
    in Hadd.
  destruct (attendAClass _ _ _ _ _) as [o s] eqn:Hrun. simpl in Hadd. subst o.
  refine (attendAClass_no_throw _ _ _ _ _ _ _ _ _ Hrun).
  apply (save_find (newEntity initialCompletition now (NewCourseTakenDTO.mk user course))).
Qed.

(** Unenrolling from a store where the pair never was. *)
Lemma delete_unenrolls_witness :
  exists st',
    delete "u" "c" [CourseTaken.mk "v" "c" 2 1 1 TAKEN (ofZ 50) (Some 6) None]
      = (Returns tt, st') /\
    st' = [CourseTaken.mk "v" "c" 2 1 1 TAKEN (ofZ 50) (Some 6) None].
Proof.
  destruct (delete_unenrolls (tables fullCatalog) (ofZ 0) 3%nat 10 "u"%string "c"%string
              [CourseTaken.mk "v" "c" 2 1 1 TAKEN (ofZ 50) (Some 6) None])
    as (st' & Hrun & _ & _ & _ & Hsame).
  exists st'. split; [exact Hrun|]. apply Hsame. reflexivity.
Defined.

(** ** Invariants of the progression *)

(** X5: Neither [updateCourseStatus] nor [attendAClass], whatever it
    returns, changes the user, the course or the start date of the stored
    enrollment, and an enrollment that is COMPLETED stays COMPLETED. *)
Theorem progression_keeps_identity_and_completion :
  forall (lookup : HierarchyLookup) fuel now user course st e,
    repository_findByUserIdAndCourseId st user course = Some e ->
    forall st',
      st' = snd (updateCourseStatus now user course st) \/
      st' = snd (attendAClass fuel now user course st) ->
      exists e',
        repository_findByUserIdAndCourseId st' user course = Some e' /\
        CourseTaken.user e' = CourseTaken.user e /\
        CourseTaken.course e' = CourseTaken.course e /\
        CourseTaken.courseStartDate e' = CourseTaken.courseStartDate e /\
        (CourseTaken.status e = COMPLETED -> CourseTaken.status e' = COMPLETED).
Proof.
  intros lookup fuel now user course st e H st' [->| ->].
  - rewrite (updateCourseStatus_found _ _ _ _ _ H). cbn [snd].
    exists (stepOf now course e). split; [now apply save_stepOf_find|].
    destruct (stepOf_progressed now course e) as (Hu & Hc & Hd & Hs & _). auto.
  - destruct (attendAClass_progressed now user course fuel st e H)
      as (e' & Hfind & Hu & Hc & Hd & Hs & _).
    exists e'. auto.
Qed.

(** A completed learner whose last test was deleted attends again. *)
Lemma progression_keeps_identity_and_completion_witness :
  exists e',
    repository_findByUserIdAndCourseId
      (snd (attendAClass (lookup := tables fullCatalog) 3 40 "u" "c"
              [enrollment 2 2 3 COMPLETED (ofZ 100) (Some 30)])) "u" "c" = Some e' /\
    CourseTaken.courseStartDate e' = Some 5 /\
    CourseTaken.status e' = COMPLETED.
Proof.
  destruct (progression_keeps_identity_and_completion (tables fullCatalog) 3%nat 40
              "u"%string "c"%string [enrollment 2 2 3 COMPLETED (ofZ 100) (Some 30)]
              (enrollment 2 2 3 COMPLETED (ofZ 100) (Some 30)) eq_refl _
              (or_intror eq_refl))
    as (e' & Hfind & _ & _ & Hd & Hs).
  exists e'. split; [exact Hfind|]. split; [exact Hd|]. now apply Hs.
Defined.

(** X6: The pointers of the stored enrollment never move backwards: after
    [updateCourseStatus] or [attendAClass] the triple (lesson, part, test)
    is lexicographically at or after where it was; in particular the
    lesson pointer never decreases. *)
Theorem pointers_never_move_back :
  forall (lookup : HierarchyLookup) fuel now user course st e,
    repository_findByUserIdAndCourseId st user course = Some e ->
    forall st',
      st' = snd (updateCourseStatus now user course st) \/
      st' = snd (attendAClass fuel now user course st) ->
      exists e',
        repository_findByUserIdAndCourseId st' user course = Some e' /\
        pointersLe (CourseTaken.pointers e) (CourseTaken.pointers e') /\
        CourseTaken.currentLesson e <= CourseTaken.currentLesson e'.
Proof.
  intros lookup fuel now user course st e H st' Hst'.
  assert (Hp : exists e',
             repository_findByUserIdAndCourseId st' user course = Some e' /\
             progressed e e').
  { destruct Hst' as [->| ->].
    - rewrite (updateCourseStatus_found _ _ _ _ _ H). cbn [snd].
      exists (stepOf now course e). split; [now apply save_stepOf_find|].
      apply stepOf_progressed.
    - exact (attendAClass_progressed now user course fuel st e H). }
  destruct Hp as (e' & Hfind & _ & _ & _ & _ & Hle).
  exists e'. split; [exact Hfind|]. split; [exact Hle|].
  unfold CourseTaken.pointers, pointersLe in Hle. lia.
Qed.

(** From (1,1,3), where no test exists, in [fullCatalog]. *)
Lemma pointers_never_move_back_witness :
  exists e',
    repository_findByUserIdAndCourseId
      (snd (attendAClass (lookup := tables fullCatalog) 3 10 "u" "c"
              [enrollment 1 1 3 TAKEN (ofZ 0) None])) "u" "c" = Some e' /\
    pointersLe (1, 1, 3) (CourseTaken.pointers e').
Proof.
  destruct (pointers_never_move_back (tables fullCatalog) 3%nat 10
              "u"%string "c"%string [enrollment 1 1 3 TAKEN (ofZ 0) None]
              (enrollment 1 1 3 TAKEN (ofZ 0) None) eq_refl _ (or_intror eq_refl))
    as (e' & Hfind & Hle & _).
  exists e'. split; [exact Hfind|exact Hle].
Defined.

(** ** What [attendAClass] returns *)

Section Snapshot.
Context {lookup : HierarchyLookup}.

Lemma attendAClass_snapshot now user course fuel :
  forall st e snapshot st',
    repository_findByUserIdAndCourseId st user course = Some e ->
    attendAClass fuel now user course st = (Returns snapshot, st') ->
    exists e',
      repository_findByUserIdAndCourseId st' user course = Some e' /\
      ((exists l p t,
           resolved course e' = Some (l, p, t) /\
           snapshot = prepareAttendAClassDTO e' course (Some l) (Some p) (Some t)) \/
       (CourseTaken.status e' = COMPLETED /\
        snapshot = prepareAttendAClassDTO e' course None None None)).
Proof.
  induction fuel as [|fuel IH]; intros st e snapshot st' H Hrun; [discriminate|].
  destruct (resolved course e) as [[[l p] t]|] eqn:Hr.
  - rewrite (attendAClass_valid _ _ _ _ _ _ _ _ _ H Hr) in Hrun.
    injection Hrun as <- <-. exists e. split; [exact H|]. left. now exists l, p, t.
  - rewrite (attendAClass_invalid _ _ _ _ _ _ H Hr) in Hrun.
    pose proof (save_stepOf_find now _ _ _ _ H) as Hfind.
    destruct (CourseTaken.status (stepOf now course e)) eqn:Hs.
    + exact (IH _ _ _ _ Hfind Hrun).
    + injection Hrun as <- <-. exists (stepOf now course e). auto.
Qed.
End Snapshot.

(** X7: A snapshot returned by [attendAClass] is for the pair asked for and
    reports the status and completion stored after the call; either it
    carries the lesson, the part and the test that the stored pointers
    resolve to, all three, or its status is COMPLETED and it carries none
    of them.  It never carries a lesson without a part or a part without a
    test. *)
Theorem attendAClass_snapshot_sound :
  forall (lookup : HierarchyLookup) fuel now user course st snapshot st',
    attendAClass fuel now user course st = (Returns snapshot, st') ->
    exists e',
      repository_findByUserIdAndCourseId st' user course = Some e' /\
      AttendAClassDTO.user snapshot = user /\
      AttendAClassDTO.course snapshot = course /\
      AttendAClassDTO.status snapshot = CourseTaken.status e' /\
      AttendAClassDTO.completition snapshot = CourseTaken.completition e' /\
      ((exists lesson part test,
           findLessonByCourseIdAndSeqNum course (CourseTaken.currentLesson e')
             = Some lesson /\
           findPartByLessonIdAndSeqNum (Some (lesson_id lesson))
             (CourseTaken.currentPart e') = Some part /\
           findTestByPartIdAndSeqNum (Some (part_id part))
             (CourseTaken.currentTest e') = Some test /\
           AttendAClassDTO.currentLesson snapshot = Some lesson /\
           AttendAClassDTO.currentPart snapshot = Some part /\
           AttendAClassDTO.currentTest snapshot = Some test) \/
       (AttendAClassDTO.status snapshot = COMPLETED /\
        AttendAClassDTO.currentLesson snapshot = None /\
        AttendAClassDTO.currentPart snapshot = None /\
        AttendAClassDTO.currentTest snapshot = None)).
Proof.
  intros lookup fuel now user course st snapshot st' Hrun.
  destruct (repository_findByUserIdAndCourseId st user course) as [e|] eqn:H.
  - destruct (attendAClass_snapshot now user course fuel st e snapshot st' H Hrun)
      as (e' & Hfind & [(l & p & t & Hr & ->)|(Hs & ->)]);
      exists e'; destruct (find_key _ _ _ _ Hfind) as [Hu Hc];
      (split; [exact Hfind|]); cbn; repeat (split; [solve [auto]|]).
    + left. exists l, p, t. unfold resolved in Hr.
      destruct (findLessonByCourseIdAndSeqNum _ _) as [l0|] eqn:Hl; [|discriminate].
      destruct (findPartByLessonIdAndSeqNum _ _) as [p0|] eqn:Hp; [|discriminate].
      destruct (findTestByPartIdAndSeqNum _ _) as [t0|] eqn:Ht; [|discriminate].
      injection Hr as -> -> ->. auto 10.
    + right. auto.
  - destruct fuel as [|fuel]; [discriminate|].
    rewrite (attendAClass_unenrolled _ _ _ _ _ H) in Hrun. discriminate.
Qed.

(** The call that carries from (1,1,3) to (1,2,1) in [fullCatalog]. *)
Lemma attendAClass_snapshot_sound_witness :
  exists snapshot st' e',
    attendAClass (lookup := tables fullCatalog) 3 10 "u" "c"
      [enrollment 1 1 3 TAKEN (ofZ 0) None] = (Returns snapshot, st') /\
    repository_findByUserIdAndCourseId st' "u" "c" = Some e' /\
    AttendAClassDTO.status snapshot = CourseTaken.status e' /\
    AttendAClassDTO.completition snapshot = CourseTaken.completition e'.
Proof.
  eexists; eexists.
  assert (Hrun : attendAClass (lookup := tables fullCatalog) 3 10 "u" "c"
                   [enrollment 1 1 3 TAKEN (ofZ 0) None] =
                 (Returns
                    (AttendAClassDTO.mk "u" "c" (Some (mkLesson "L1" "c" 1))
                       (Some (mkPart "P12" "L1" 2)) (Some (mkTest "T121" "P12" 1))
                       (Num 25) TAKEN),
                  [enrollment 1 2 1 TAKEN (Num 25) None]))
    by (vm_compute; reflexivity).
  destruct (attendAClass_snapshot_sound (tables fullCatalog) 3%nat 10
              "u"%string "c"%string _ _ _ Hrun)
    as (e' & Hfind & _ & _ & Hs & Hc & _).
  exists e'. split; [exact Hrun|]. split; [exact Hfind|]. split; [exact Hs|exact Hc].
Defined.

(** ** Termination for any bounded hierarchy *)

Section Bounded.
Context {lookup : HierarchyLookup}.
Variables topL topP topT : Z.
Hypothesis lessons_bounded :
  forall course n l, findLessonByCourseIdAndSeqNum course n = Some l -> n <= topL.
Hypothesis parts_bounded :
  forall lesson n p, findPartByLessonIdAndSeqNum lesson n = Some p -> n <= topP.
Hypothesis tests_bounded :
  forall part n t, findTestByPartIdAndSeqNum part n = Some t -> n <= topT.

Lemma stepOf_roundsWithin now course e :
  CourseTaken.status (stepOf now course e) = TAKEN ->
  (roundsWithin topL topP topT (stepOf now course e) <
   roundsWithin topL topP topT e)%nat.
Proof.
  unfold roundsWithin, stepOf, advanced, idsOf, prepareCourseTakenUpdatedInfo.
  destruct (findTestByPartIdAndSeqNum _ _) as [nextTest|] eqn:Htest;
    simpl truthy; cbv iota.
  - intros _. apply tests_bounded in Htest. simpl. lia.
  - destruct (findPartByLessonIdAndSeqNum _ (_ + 1)) as [nextPart|] eqn:Hpart;
      simpl truthy; cbv iota.
    + intros _. apply parts_bounded in Hpart. simpl. nia.
    + destruct (findLessonByCourseIdAndSeqNum _ (_ + 1)) as [nextLesson|] eqn:Hlesson;
        simpl truthy; cbv iota.
      * intros _. apply lessons_bounded in Hlesson. simpl. nia.
      * discriminate.
Qed.

Lemma attendAClass_returns_bounded now user course n :
  forall st e,
    repository_findByUserIdAndCourseId st user course = Some e ->
    (roundsWithin topL topP topT e <= n)%nat ->
    exists snapshot st',
      attendAClass (S n) now user course st = (Returns snapshot, st').
Proof.
  induction n as [|n IH]; intros st e H Hn.
  - destruct (resolved course e) as [[[l p] t]|] eqn:Hr.
    + rewrite (attendAClass_valid _ _ _ _ _ _ _ _ _ H Hr). eauto.
    + rewrite (attendAClass_invalid _ _ _ _ _ _ H Hr).
      destruct (CourseTaken.status (stepOf now course e)) eqn:Hs; [|eauto].
      apply stepOf_roundsWithin in Hs. lia.
  - destruct (resolved course e) as [[[l p] t]|] eqn:Hr.
    + rewrite (attendAClass_valid _ _ _ _ _ _ _ _ _ H Hr). eauto.
    + rewrite (attendAClass_invalid _ _ _ _ _ _ H Hr).
      destruct (CourseTaken.status (stepOf now course e)) eqn:Hs; [|eauto].
      apply stepOf_roundsWithin in Hs.
      apply (IH _ _ (save_stepOf_find now _ _ _ _ H)). lia.
Qed.
End Bounded.

(** X8: When no lesson, part or test that the services can find has a
    sequence number above some bounds, [attendAClass] on an enrolled pair
    returns a snapshot: the recursion ends within the number of rounds the
    bounds leave above the stored pointers, it neither throws nor runs on
    for ever. *)
Theorem attendAClass_returns_for_bounded_hierarchy :
  forall (lookup : HierarchyLookup) topL topP topT,
    (forall course n l, findLessonByCourseIdAndSeqNum course n = Some l -> n <= topL) ->
    (forall lesson n p, findPartByLessonIdAndSeqNum lesson n = Some p -> n <= topP) ->
    (forall part n t, findTestByPartIdAndSeqNum part n = Some t -> n <= topT) ->
    forall now user course st e fuel,
      repository_findByUserIdAndCourseId st user course = Some e ->
      (roundsWithin topL topP topT e <= fuel)%nat ->
      exists snapshot st',
        attendAClass (S fuel) now user course st = (Returns snapshot, st').
Proof.
  intros lookup topL topP topT HL HP HT now user course st e fuel H Hfuel.
  exact (attendAClass_returns_bounded topL topP topT HL HP HT now user course fuel
           st e H Hfuel).
Qed.

(** [fullCatalog] has no sequence number above 2: from (1,1,3) twelve
    rounds are enough. *)
Lemma attendAClass_returns_for_bounded_hierarchy_witness :
  exists snapshot st',
    attendAClass (lookup := tables fullCatalog) 13 10 "u" "c"
      [enrollment 1 1 3 TAKEN (ofZ 0) None] = (Returns snapshot, st').
Proof.
  refine (attendAClass_returns_for_bounded_hierarchy (tables fullCatalog) 2 2 2 _ _ _
            10 "u"%string "c"%string [enrollment 1 1 3 TAKEN (ofZ 0) None]
            (enrollment 1 1 3 TAKEN (ofZ 0) None) 12%nat eq_refl _).
  - intros course n l H. exact (table_findLesson_top fullCatalog course n l H).
  - intros lesson n p H. exact (table_findPart_top fullCatalog lesson n p H).
  - intros part n t H. exact (table_findTest_top fullCatalog part n t H).
  - vm_compute. lia.
Defined.

(** ** The range of [calculateCompletition] *)

Lemma notNegative_ofZ z : 0 <= z -> notNegative (ofZ z).
Proof.
  intros H. constructor. change 0%Q with (inject_Z 0). now rewrite <- Zle_Qle.
Qed.

Lemma notNegative_num q : (0 <= q)%Q -> notNegative (num q).
Proof. intros H. constructor. now rewrite Qred_correct. Qed.

Lemma Qcompare_nonneg_not_Lt q : (0 <= q)%Q -> (q ?= 0)%Q <> Lt.
Proof.
  intros H Hc. apply (proj2 (Qlt_alt _ _)) in Hc. exact (Qlt_not_le _ _ Hc H).
Qed.

Lemma ndiv_notNegative x z :
  notNegative x -> 0 <= z -> notNegative (ndiv x (ofZ z)).
Proof.
  intros Hx Hz.
  assert (Hzq : (0 <= inject_Z z)%Q)
    by (change 0%Q with (inject_Z 0); now rewrite <- Zle_Qle).
  pose proof (Qcompare_nonneg_not_Lt _ Hzq) as Hnlt.
  destruct Hx as [q Hq| |]; unfold ndiv, ofZ.
  - destruct (inject_Z z ?= 0)%Q eqn:Hc; try congruence.
    + pose proof (Qcompare_nonneg_not_Lt _ Hq) as Hqn.
      destruct (q ?= 0)%Q; try congruence; constructor.
    + apply notNegative_num. apply (proj2 (Qgt_alt _ _)) in Hc.
      apply Qle_shift_div_l; [exact Hc|]. now rewrite Qmult_0_l.
  - destruct (inject_Z z ?= 0)%Q; try congruence; constructor.
  - constructor.
Qed.

Lemma nmul_notNegative x y :
  notNegative x -> notNegative y -> notNegative (nmul x y).
Proof.
  intros Hx Hy. destruct Hx as [a Ha| |], Hy as [b Hb| |]; unfold nmul;
    try solve [constructor].
  - apply notNegative_num. now apply Qmult_le_0_compat.
  - pose proof (Qcompare_nonneg_not_Lt _ Ha) as Hn.
    destruct (a ?= 0)%Q; try congruence; constructor.
  - pose proof (Qcompare_nonneg_not_Lt _ Hb) as Hn.
    destruct (b ?= 0)%Q; try congruence; constructor.
Qed.

Lemma nadd_notNegative x y :
  notNegative x -> notNegative y -> notNegative (nadd x y).
Proof.
  intros Hx Hy. destruct Hx as [a Ha| |], Hy as [b Hb| |]; unfold nadd;
    try solve [constructor].
  apply notNegative_num.
  rewrite <- (Qplus_0_l 0). now apply Qplus_le_compat.
Qed.

Lemma notNegative_nlt x : notNegative x -> nlt x (ofZ 0) = false.
Proof.
  intros [q Hq| |]; unfold nlt, ofZ; try reflexivity.
  pose proof (Qcompare_nonneg_not_Lt _ Hq) as Hn.
  change (inject_Z 0) with 0%Q. destruct (q ?= 0)%Q; congruence.
Qed.

(** X9: [calculateCompletition] never returns a number above 100, whatever
    the amounts and pointers; and when the amounts are not negative and
    the pointers are at least 1 it never returns a number below 0.  (NaN,
    which compares false with everything, is the one way out of the
    percentage range.) *)
Theorem calculateCompletition_never_above_100 :
  forall (lookup : HierarchyLookup) courseTaken currentLesson currentPart,
    ngt (calculateCompletition courseTaken currentLesson currentPart) (ofZ 100) = false /\
    (0 <= getMaxValueForLesson (CourseTaken.course courseTaken) ->
     0 <= getMaxValueForPart currentLesson ->
     0 <= getMaxValueForTest currentPart ->
     1 <= CourseTaken.currentLesson courseTaken ->
     1 <= CourseTaken.currentPart courseTaken ->
     1 <= CourseTaken.currentTest courseTaken ->
     nlt (calculateCompletition courseTaken currentLesson currentPart) (ofZ 0) = false).
Proof.
  intros lookup courseTaken currentLesson currentPart.
  unfold calculateCompletition, queriedAmounts, completitionOf.
  set (L := getMaxValueForLesson _). set (P := getMaxValueForPart _).
  set (T := getMaxValueForTest _).
  set (v := match CourseTaken.status courseTaken with TAKEN => _ | COMPLETED => _ end).
  split.
  - destruct (ngt v (ofZ 100)) eqn:Hgt; [reflexivity|exact Hgt].
  - intros HL HP HT Hl Hp Ht.
    assert (Hv : notNegative v).
    { unfold v. destruct (CourseTaken.status courseTaken);
        [|apply notNegative_ofZ; lia].
      assert (H1 : notNegative (ndiv (ofZ 100) (ofZ L)))
        by (apply ndiv_notNegative; [apply notNegative_ofZ; lia|exact HL]).
      assert (H2 : notNegative (ndiv (ndiv (ofZ 100) (ofZ L)) (ofZ P)))
        by (apply ndiv_notNegative; assumption).
      assert (H3 : notNegative (ndiv (ndiv (ndiv (ofZ 100) (ofZ L)) (ofZ P)) (ofZ T)))
        by (apply ndiv_notNegative; assumption).
      repeat apply nadd_notNegative; apply nmul_notNegative;
        try assumption; apply notNegative_ofZ; lia. }
    destruct (ngt v (ofZ 100)); [reflexivity|now apply notNegative_nlt].
Qed.

(** The amounts of part 1 of [emptyPartCatalog] (no test) at (1,2,1): the
    result is NaN, neither above 100 nor below 0. *)
Lemma calculateCompletition_never_above_100_witness :
  calculateCompletition (lookup := tables emptyPartCatalog)
    (enrollment 1 2 1 TAKEN (ofZ 0) None) (Some "L1"%string) (Some "P1"%string) = NaN /\
  nlt (calculateCompletition (lookup := tables emptyPartCatalog)
         (enrollment 1 2 1 TAKEN (ofZ 0) None) (Some "L1"%string) (Some "P1"%string))
      (ofZ 0) = false.
Proof.
  split; [reflexivity|].
  refine (proj2 (calculateCompletition_never_above_100 (tables emptyPartCatalog)
                   (enrollment 1 2 1 TAKEN (ofZ 0) None)
                   (Some "L1"%string) (Some "P1"%string)) _ _ _ _ _ _);
    vm_compute; discriminate.
Defined.

(** ** Enrolling *)

(** X10: When [add] returns a snapshot, the pair was not enrolled before
    and is enrolled afterwards, with the time of the call as its start
    date and pointers at or after (1,1,1); the store holds exactly one
    record more; and the snapshot is for that user and course. *)
Theorem add_enrolls :
  forall (lookup : HierarchyLookup) initialCompletition fuel now newCourseTaken st
         snapshot st',
    let user := NewCourseTakenDTO.user newCourseTaken in
    let course := NewCourseTakenDTO.course newCourseTaken in
    add initialCompletition fuel now newCourseTaken st = (Returns snapshot, st') ->
    repository_findByUserIdAndCourseId st user course = None /\
    List.length st' = S (List.length st) /\
    AttendAClassDTO.user snapshot = user /\
    AttendAClassDTO.course snapshot = course /\
    exists e',
      repository_findByUserIdAndCourseId st' user course = Some e' /\
      CourseTaken.courseStartDate e' = Some now /\
      pointersLe (1, 1, 1) (CourseTaken.pointers e').
Proof.
  intros lookup initialCompletition fuel now newCourseTaken st snapshot st' user course Hadd.
  destruct (repository_findByUserIdAndCourseId st user course) as [e|] eqn:H.
  - rewrite (add_enrolled _ _ _ _ _ e H) in Hadd. discriminate.
  - split; [reflexivity|].
    rewrite (add_new _ _ _ _ _ H) in Hadd. fold user course in Hadd.
    set (e0 := newEntity initialCompletition now newCourseTaken) in *.
    assert (Hfind0 : repository_findByUserIdAndCourseId (repository_save e0 st) user course
                     = Some e0) by apply (save_find e0).
    split.
    + pose proof (attendAClass_keys fuel now user course _ _ Hfind0) as Hk.
      rewrite Hadd in Hk. cbn [snd] in Hk.
      apply (f_equal (@List.length _)) in Hk.
      rewrite save_keys in Hk. cbn [e0 newEntity CourseTaken.user CourseTaken.course] in Hk.
      fold user course in Hk. rewrite H in Hk. simpl truthy in Hk. cbv iota in Hk.
      rewrite length_app, !length_map in Hk. simpl in Hk. lia.
    + destruct (attendAClass_snapshot now user course fuel _ e0 snapshot st' Hfind0 Hadd)
        as (e1 & Hfind1 & Hshape).
      destruct (find_key _ _ _ _ Hfind1) as [Hu Hc].
      assert (Hsu : AttendAClassDTO.user snapshot = user /\
                    AttendAClassDTO.course snapshot = course).
      { destruct Hshape as [(l & p & t & _ & ->)|(_ & ->)]; cbn; auto. }
      split; [apply Hsu|]. split; [apply Hsu|].
      destruct (attendAClass_progressed now user course fuel _ e0 Hfind0)
        as (e' & Hfind & _ & _ & Hd & _ & Hle).
      rewrite Hadd in Hfind. cbn [snd] in Hfind.
      exists e'. split; [exact Hfind|]. split; [exact Hd|exact Hle].
Qed.

(** Enrolling in [fullCatalog]. *)
Lemma add_enrolls_witness :
  exists snapshot st' e',
    add (lookup := tables fullCatalog) (ofZ 0) 3 9 (NewCourseTakenDTO.mk "u" "c") []
    = (Returns snapshot, st') /\
    List.length st' = 1%nat /\
    repository_findByUserIdAndCourseId st' "u" "c" = Some e' /\
    CourseTaken.courseStartDate e' = Some 9.
Proof.
  eexists; eexists.
  assert (Hadd : add (lookup := tables fullCatalog) (ofZ 0) 3 9
                   (NewCourseTakenDTO.mk "u" "c") [] =
                 (Returns
                    (AttendAClassDTO.mk "u" "c" (Some (mkLesson "L1" "c" 1))
                       (Some (mkPart "P11" "L1" 1)) (Some (mkTest "T111" "P11" 1))
                       (ofZ 0) TAKEN),
                  [CourseTaken.mk "u" "c" 1 1 1 TAKEN (ofZ 0) (Some 9) None]))
    by (vm_compute; reflexivity).
  destruct (add_enrolls (tables fullCatalog) (ofZ 0) 3%nat 9
              (NewCourseTakenDTO.mk "u" "c") [] _ _ Hadd)
    as (_ & Hlen & _ & _ & e' & Hfind & Hd & _).
  exists e'. split; [exact Hadd|]. split; [exact Hlen|]. split; [exact Hfind|exact Hd].
Defined.

(** ** Self-healing and exhaustion *)

(** X11: When the lesson and part of a TAKEN enrollment exist but its
    current test does not, and the part has a test at the next sequence
    number, one call of [attendAClass] moves the test pointer by one and
    returns the snapshot of that lesson, that part and the next test. *)
Theorem attendAClass_skips_missing_test :
  forall (lookup : HierarchyLookup) fuel now user course st e lesson part test,
    repository_findByUserIdAndCourseId st user course = Some e ->
    CourseTaken.status e = TAKEN ->
    findLessonByCourseIdAndSeqNum course (CourseTaken.currentLesson e) = Some lesson ->
    getLessonIdByCourseIdAndSeqNum course (CourseTaken.currentLesson e)
      = Some (lesson_id lesson) ->
    findPartByLessonIdAndSeqNum (Some (lesson_id lesson)) (CourseTaken.currentPart e)
      = Some part ->
    getPartIdByLessonIdAndSeqNum (Some (lesson_id lesson)) (CourseTaken.currentPart e)
      = Some (part_id part) ->
    findTestByPartIdAndSeqNum (Some (part_id part)) (CourseTaken.currentTest e) = None ->
    findTestByPartIdAndSeqNum (Some (part_id part)) (CourseTaken.currentTest e + 1)
      = Some test ->
    exists snapshot st' e',
      attendAClass (S (S fuel)) now user course st = (Returns snapshot, st') /\
      repository_findByUserIdAndCourseId st' user course = Some e' /\
      CourseTaken.pointers e' =
        (CourseTaken.currentLesson e, CourseTaken.currentPart e,
         CourseTaken.currentTest e + 1) /\
      CourseTaken.status e' = TAKEN /\
      AttendAClassDTO.currentLesson snapshot = Some lesson /\
      AttendAClassDTO.currentPart snapshot = Some part /\
      AttendAClassDTO.currentTest snapshot = Some test /\
      AttendAClassDTO.status snapshot = TAKEN.
Proof.
  intros lookup fuel now user course st e lesson part test H Hs Hl Hlid Hp Hpid Ht Hnext.
  assert (Hr : resolved course e = None) by (unfold resolved; now rewrite Hl, Hp, Ht).
  set (e1 := stepOf now course e).
  assert (He1 : CourseTaken.pointers e1 =
                (CourseTaken.currentLesson e, CourseTaken.currentPart e,
                 CourseTaken.currentTest e + 1) /\
                CourseTaken.status e1 = TAKEN).
  { unfold e1, stepOf, advanced, idsOf, prepareCourseTakenUpdatedInfo.
    rewrite Hlid, Hpid, Hnext. simpl. auto. }
  destruct He1 as [Hptr Hs1].
  assert (Hr1 : resolved course e1 = Some (lesson, part, test)).
  { assert (Hl1 : CourseTaken.currentLesson e1 = CourseTaken.currentLesson e)
      by (unfold CourseTaken.pointers in Hptr; now injection Hptr).
    assert (Hp1 : CourseTaken.currentPart e1 = CourseTaken.currentPart e)
      by (unfold CourseTaken.pointers in Hptr; now injection Hptr).
    assert (Ht1 : CourseTaken.currentTest e1 = CourseTaken.currentTest e + 1)
      by (unfold CourseTaken.pointers in Hptr; now injection Hptr).
    unfold resolved. now rewrite Hl1, Hl, Hp1, Hp, Ht1, Hnext. }
  pose proof (save_stepOf_find now _ _ _ _ H) as Hfind1. fold e1 in Hfind1.
  exists (prepareAttendAClassDTO e1 course (Some lesson) (Some part) (Some test)),
         (repository_save e1 st), e1.
  split.
  - rewrite (attendAClass_invalid _ _ _ _ _ _ H Hr). fold e1. rewrite Hs1.
    exact (attendAClass_valid _ _ _ _ _ _ _ _ _ Hfind1 Hr1).
  - repeat split; try assumption.
Qed.

(** Test 1 of part "P12" was deleted from [fullCatalog]. *)
Lemma attendAClass_skips_missing_test_witness :
  let catalog :=
    mkCatalog (lessons fullCatalog) (parts fullCatalog)
      [mkTest "T111" "P11" 1; mkTest "T112" "P11" 2; mkTest "T122" "P12" 2] in
  exists snapshot st' e',
    attendAClass (lookup := tables catalog) 2 10 "u" "c"
      [enrollment 1 2 1 TAKEN (ofZ 25) None] = (Returns snapshot, st') /\
    repository_findByUserIdAndCourseId st' "u" "c" = Some e' /\
    CourseTaken.pointers e' = (1, 2, 2) /\
    AttendAClassDTO.currentTest snapshot = Some (mkTest "T122" "P12" 2).
Proof.
  cbv zeta.
  destruct (attendAClass_skips_missing_test
              (tables (mkCatalog (lessons fullCatalog) (parts fullCatalog)
                         [mkTest "T111" "P11" 1; mkTest "T112" "P11" 2;
                          mkTest "T122" "P12" 2]))
              0%nat 10 "u"%string "c"%string [enrollment 1 2 1 TAKEN (ofZ 25) None]
              (enrollment 1 2 1 TAKEN (ofZ 25) None)
              (mkLesson "L1" "c" 1) (mkPart "P12" "L1" 2) (mkTest "T122" "P12" 2)
              eq_refl eq_refl eq_refl eq_refl eq_refl eq_refl eq_refl eq_refl)
    as (snapshot & st' & e' & Hrun & Hfind & Hp & _ & _ & _ & Ht & _).
  exists snapshot, st', e'. repeat split; assumption.
Defined.

(** X12: When the pointers of an enrollment do not resolve and there is no
    next test, part or lesson, [updateCourseStatus] completes it where it
    stands: the status is COMPLETED, the completion 100 and the pointers
    are left at their last values; and [attendAClass] returns, without
    recursion, a COMPLETED snapshot with completion 100 and no lesson, part
    or test. *)
Theorem exhausted_position_completes :
  forall (lookup : HierarchyLookup) fuel now user course st e,
    repository_findByUserIdAndCourseId st user course = Some e ->
    hasNext course e = false ->
    (exists e' st',
        updateCourseStatus now user course st = (Returns e', st') /\
        repository_findByUserIdAndCourseId st' user course = Some e' /\
        CourseTaken.status e' = COMPLETED /\
        CourseTaken.completition e' = ofZ 100 /\
        CourseTaken.pointers e' = CourseTaken.pointers e) /\
    (resolved course e = None ->
     exists st',
       attendAClass (S fuel) now user course st =
       (Returns (AttendAClassDTO.mk user course None None None (ofZ 100) COMPLETED), st')).
Proof.
  intros lookup fuel now user course st e H Hnext.
  assert (Hstep : CourseTaken.status (stepOf now course e) = COMPLETED /\
                  CourseTaken.completition (stepOf now course e) = ofZ 100 /\
                  CourseTaken.pointers (stepOf now course e) = CourseTaken.pointers e).
  { assert (Hs : CourseTaken.status (stepOf now course e) = COMPLETED /\
                 CourseTaken.pointers (stepOf now course e) = CourseTaken.pointers e).
    { revert Hnext.
      unfold hasNext, stepOf, advanced, idsOf, prepareCourseTakenUpdatedInfo.
      destruct (truthy (findTestByPartIdAndSeqNum _ _)); [discriminate|].
      destruct (truthy (findPartByLessonIdAndSeqNum _ _)); [discriminate|].
      destruct (truthy (findLessonByCourseIdAndSeqNum _ _)); [discriminate|].
      intros _. split; reflexivity. }
    destruct Hs as [Hs Hp]. split; [exact Hs|]. split; [|exact Hp].
    now apply stepOf_completed_100. }
  destruct Hstep as (Hs & Hc & Hp).
  split.
  - exists (stepOf now course e), (repository_save (stepOf now course e) st).
    split; [now apply updateCourseStatus_found|].
    split; [now apply save_stepOf_find|auto].
  - intros Hr. exists (repository_save (stepOf now course e) st).
    rewrite (attendAClass_invalid _ _ _ _ _ _ H Hr), Hs.
    unfold prepareAttendAClassDTO. rewrite Hs, Hc.
    destruct (stepOf_key now course e) as [Hu _].
    destruct (find_key _ _ _ _ H) as [Hu' _]. now rewrite Hu, Hu'.
Qed.

(** The learner stands past the last test of [fullCatalog]. *)
Lemma exhausted_position_completes_witness :
  exists st',
    attendAClass (lookup := tables fullCatalog) 1 30 "u" "c"
      [enrollment 2 2 3 TAKEN (Num (175 # 2)) None] =
    (Returns (AttendAClassDTO.mk "u" "c" None None None (ofZ 100) COMPLETED), st').
Proof.
  exact (proj2 (exhausted_position_completes (tables fullCatalog) 0%nat 30
                  "u"%string "c"%string [enrollment 2 2 3 TAKEN (Num (175 # 2)) None]
                  (enrollment 2 2 3 TAKEN (Num (175 # 2)) None) eq_refl eq_refl)
           eq_refl).
Defined.

(** * Properties of [SecurityService] *)

(** ** Splitting the decoded credentials *)

Lemma split_nonempty sep s : Security.split sep s <> [].
Proof.
  destruct s as [|c rest]; simpl; [discriminate|].
  destruct (Ascii.eqb c sep); [discriminate|].
  destruct (Security.split sep rest); discriminate.
Qed.

Lemma split_free sep s : hasChar sep s = false -> Security.split sep s = [s].
Proof.
  induction s as [|c rest IH]; simpl; [reflexivity|].
  destruct (Ascii.eqb c sep); simpl; [discriminate|].
  intros H. now rewrite (IH H).
Qed.

Lemma split_app sep a b :
  hasChar sep a = false ->
  Security.split sep (a ++ String sep b) = a :: Security.split sep b.
Proof.
  induction a as [|c rest IH]; simpl.
  - intros _. now rewrite Ascii.eqb_refl.
  - destruct (Ascii.eqb c sep); simpl; [discriminate|].
    intros H. now rewrite (IH H).
Qed.

Lemma concat_cons_char sep c piece pieces :
  String.concat sep (String c piece :: pieces) =
  String c (String.concat sep (piece :: pieces)).
Proof. destruct pieces; reflexivity. Qed.

(** X13: [splitClientCredentials] cuts the login at every colon: joining
    the pieces with colons gives the login back, no piece contains a colon
    and there is always a first piece. *)
Theorem splitClientCredentials_pieces :
  forall login,
    String.concat ":" (Security.splitClientCredentials login) = login /\
    Forall (fun piece => hasChar ":" piece = false)
      (Security.splitClientCredentials login) /\
    Security.splitClientCredentials login <> [].
Proof.
  intros login. unfold Security.splitClientCredentials.
  split; [|split; [|apply split_nonempty]].
  - induction login as [|c rest IH]; [reflexivity|].
    cbn [Security.split].
    pose proof (split_nonempty ":" rest) as Hne.
    destruct (Security.split ":" rest) as [|piece pieces] eqn:Hs; [congruence|].
    destruct (Ascii.eqb c ":") eqn:Hc.
    + apply Ascii.eqb_eq in Hc. subst c.
      change (String.concat ":" ("" :: piece :: pieces))%string
        with (String ":" (String.concat ":" (piece :: pieces))).
      now rewrite IH.
    + rewrite concat_cons_char. now rewrite IH.
  - induction login as [|c rest IH]; [repeat constructor|].
    cbn [Security.split].
    destruct (Ascii.eqb c ":") eqn:Hc; [constructor; [reflexivity|exact IH]|].
    destruct (Security.split ":" rest) as [|piece pieces];
      [repeat constructor; simpl; now rewrite Hc|].
    inversion IH; subst. constructor; [|assumption].
    simpl. now rewrite Hc.
Qed.

(** X14: Of the decoded login only the text before the first colon (the
    name) and the text between the first and the second colon (the secret)
    are used: a login without colon has no secret, and whatever follows a
    second colon is ignored. *)
Theorem credentials_use_first_two_pieces :
  forall name secret,
    hasChar ":" name = false ->
    hasChar ":" secret = false ->
    Security.destructureNameSecret (Security.splitClientCredentials name)
      = (name, None) /\
    Security.destructureNameSecret
      (Security.splitClientCredentials (name ++ ":" ++ secret)) = (name, Some secret) /\
    forall rest,
      Security.destructureNameSecret
        (Security.splitClientCredentials (name ++ ":" ++ secret ++ ":" ++ rest))
      = (name, Some secret).
Proof.
  intros name secret Hn Hs. unfold Security.splitClientCredentials.
  split; [now rewrite (split_free _ _ Hn)|].
  split.
  - change (name ++ ":" ++ secret)%string with (name ++ String ":" secret)%string.
    now rewrite (split_app _ _ _ Hn), (split_free _ _ Hs).
  - intros rest.
    change (name ++ ":" ++ secret ++ ":" ++ rest)%string
      with (name ++ String ":" (secret ++ String ":" rest))%string.
    now rewrite (split_app _ _ _ Hn), (split_app _ _ _ Hs).
Qed.

(** A secret that contains a colon is cut at it. *)
Lemma credentials_use_first_two_pieces_witness :
  Security.destructureNameSecret (Security.splitClientCredentials "FRONT:s3:cret")
  = ("FRONT"%string, Some "s3"%string).
Proof.
  exact (proj2 (proj2 (credentials_use_first_two_pieces "FRONT" "s3" eq_refl eq_refl))
           "cret"%string).
Defined.

(** ** The entry points *)

Section SecurityFacts.
Variable ClientCredentials : Type.
Variable World : Type.
Variable Buffer_base64_ascii : string -> string.
Variable ClientCredentialsEnum : string -> option string.
Variable clientCredentialsRepository_findByNameAndSecret :
  World -> string -> option string -> Security.GrantTypeEnum -> option ClientCredentials.
Variable jwtService_sign : Security.TokenPayload ClientCredentials -> string -> string.
Variable jwtService_verify : string -> Security.Outcome (Security.TokenPayload ClientCredentials).
Variable userService_findByEmail : World -> option string -> Security.Outcome Security.User.
Variable userService_findByEmailAndPassword :
  World -> string -> string -> Security.Outcome Security.User.
Variable userService_update :
  string -> Security.UserInfo -> World -> Security.Outcome Security.User * World.
Variable expiresInAccessToken : string.
Variable expiresInRefreshToken : string.

Local Abbreviation generateLoginObject :=
  (Security.generateLoginObject ClientCredentials jwtService_sign
     expiresInAccessToken expiresInRefreshToken).
Local Abbreviation findClientCredentials :=
  (Security.findClientCredentialsByNameAndSecret ClientCredentials World
     clientCredentialsRepository_findByNameAndSecret).
Local Abbreviation validateClientCredentials :=
  (Security.validateClientCredentials ClientCredentials World Buffer_base64_ascii
     ClientCredentialsEnum clientCredentialsRepository_findByNameAndSecret
     jwtService_sign expiresInAccessToken expiresInRefreshToken).
Local Abbreviation validateUserCredentials :=
  (Security.validateUserCredentials ClientCredentials World Buffer_base64_ascii
     ClientCredentialsEnum clientCredentialsRepository_findByNameAndSecret
     jwtService_sign userService_findByEmailAndPassword
     expiresInAccessToken expiresInRefreshToken).
Local Abbreviation refreshToken :=
  (Security.refreshToken ClientCredentials World Buffer_base64_ascii
     ClientCredentialsEnum clientCredentialsRepository_findByNameAndSecret
     jwtService_sign jwtService_verify userService_findByEmail
     expiresInAccessToken expiresInRefreshToken).
Local Abbreviation validateFacebookUser :=
  (Security.validateFacebookUser ClientCredentials World jwtService_sign
     userService_findByEmail userService_update
     expiresInAccessToken expiresInRefreshToken).
Local Abbreviation validateGoogleUser :=
  (Security.validateGoogleUser ClientCredentials World jwtService_sign
     userService_findByEmail userService_update
     expiresInAccessToken expiresInRefreshToken).

(** The name and the secret an entry point reads from its login. *)
Local Abbreviation nameOf base64Login :=
  (fst (Security.destructureNameSecret
          (Security.splitClientCredentials (Buffer_base64_ascii base64Login)))).
Local Abbreviation secretOf base64Login :=
  (snd (Security.destructureNameSecret
          (Security.splitClientCredentials (Buffer_base64_ascii base64Login)))).

Lemma findClientCredentials_rejected w name secret grantType :
  name = None \/ name = Some EmptyString \/
  (exists key, name = Some key /\
     clientCredentialsRepository_findByNameAndSecret w key secret grantType = None) ->
  findClientCredentials w name secret grantType
    = Security.Throws Security.InvalidClientCredentialsError.
Proof.
  unfold Security.findClientCredentialsByNameAndSecret.
  intros [->|[->|(key & -> & Hrepo)]]; try reflexivity.
  destruct key; [reflexivity|]. simpl. now rewrite Hrepo.
Qed.

Lemma findClientCredentials_accepted w name secret grantType clientCredentials :
  (exists key, name = Some key /\ key <> EmptyString /\
     clientCredentialsRepository_findByNameAndSecret w key secret grantType
       = Some clientCredentials) ->
  findClientCredentials w name secret grantType = Security.Returns clientCredentials.
Proof.
  unfold Security.findClientCredentialsByNameAndSecret.
  intros (key & -> & Hkey & Hrepo).
  destruct key; [congruence|]. simpl. now rewrite Hrepo.
Qed.

(** X15: Every entry point that takes client credentials checks them
    first, each under its own grant type.  The credentials are rejected
    when the name is not a member of the enumeration, when the member's
    value is the empty string (whatever the repository holds under it), or
    when the repository has no credentials for the value, the secret and
    that grant type; they are accepted otherwise, and one of the two
    always is the case.  On rejected credentials each entry point throws
    InvalidClientCredentialsError, whatever the user name, the password or
    the token; on accepted ones [validateClientCredentials] returns the
    login of the credentials the repository found and
    [validateUserCredentials] goes on to the user service. *)
Theorem client_credentials_checked_first :
  forall w base64Login username password token,
    let key := ClientCredentialsEnum (nameOf base64Login) in
    let secret := secretOf base64Login in
    let rejected := fun grantType =>
      key = None \/ key = Some EmptyString \/
      (exists value, key = Some value /\
         clientCredentialsRepository_findByNameAndSecret w value secret grantType = None) in
    let accepted := fun grantType clientCredentials =>
      exists value, key = Some value /\ value <> EmptyString /\
        clientCredentialsRepository_findByNameAndSecret w value secret grantType
          = Some clientCredentials in
    (forall grantType,
        rejected grantType \/ exists clientCredentials, accepted grantType clientCredentials) /\
    (rejected Security.CLIENT_CREDENTIALS ->
     validateClientCredentials w base64Login
       = Security.Throws Security.InvalidClientCredentialsError) /\
    (forall clientCredentials,
        accepted Security.CLIENT_CREDENTIALS clientCredentials ->
        validateClientCredentials w base64Login
          = Security.Returns (generateLoginObject (Security.ofClient _ clientCredentials))) /\
    (rejected Security.PASSWORD ->
     validateUserCredentials w base64Login username password
       = Security.Throws Security.InvalidClientCredentialsError) /\
    (forall clientCredentials,
        accepted Security.PASSWORD clientCredentials ->
        validateUserCredentials w base64Login username password
          = match userService_findByEmailAndPassword w username password with
            | Security.Returns user =>
                Security.Returns (generateLoginObject (Security.ofUser _ user))
            | Security.Throws e => Security.Throws e
            end) /\
    (rejected Security.REFRESH_TOKEN ->
     refreshToken w base64Login token
       = Security.Throws Security.InvalidClientCredentialsError).
Proof.
  intros w base64Login username password token key secret rejected accepted.
  subst key secret rejected accepted.
  unfold Security.validateClientCredentials, Security.validateUserCredentials,
    Security.refreshToken.
  destruct (Security.destructureNameSecret _) as [name secret]. cbn [fst snd].
  split; [|repeat split].
  - intros grantType.
    destruct (ClientCredentialsEnum name) as [[|c value]|]; auto.
    destruct (clientCredentialsRepository_findByNameAndSecret w (String c value) secret
                grantType) as [clientCredentials|] eqn:Hrepo.
    + right. exists clientCredentials, (String c value).
      repeat split; [discriminate|exact Hrepo].
    + left. right. right. now exists (String c value).
  - intros H. now rewrite (findClientCredentials_rejected _ _ _ _ H).
  - intros clientCredentials H.
    now rewrite (findClientCredentials_accepted _ _ _ _ _ H).
  - intros H. now rewrite (findClientCredentials_rejected _ _ _ _ H).
  - intros clientCredentials H.
    now rewrite (findClientCredentials_accepted _ _ _ _ _ H).
  - intros H. now rewrite (findClientCredentials_rejected _ _ _ _ H).
Qed.

(** What [refreshToken] does with a token that verifies. *)
Lemma refreshToken_accepts_refresh_tokens_only_aux w base64Login clientCredentials :
  findClientCredentials w (ClientCredentialsEnum (nameOf base64Login))
    (secretOf base64Login) Security.REFRESH_TOKEN
    = Security.Returns clientCredentials ->
  (forall token payload,
      jwtService_verify token = Security.Returns payload ->
      Security.isRefreshToken _ payload = false ->
      refreshToken w base64Login token =
      Security.Throws
        (Security.UnauthorizedException "The given token is not a Refresh Token")) /\
  (forall token payload,
      jwtService_verify token = Security.Returns payload ->
      Security.isRefreshToken _ payload = true ->
      refreshToken w base64Login token =
      match userService_findByEmail w (Security.payload_email _ payload) with
      | Security.Returns user =>
          Security.Returns (generateLoginObject (Security.ofUser _ user))
      | Security.Throws e => Security.Throws e
      end).
Proof.
  unfold Security.refreshToken, Security.getUserFromToken.
  destruct (Security.destructureNameSecret _) as [name secret]. cbn [fst snd].
  intros Hclient. rewrite Hclient. split; intros token payload Hv Hmark;
    now rewrite Hv, Hmark.
Qed.

(** X16: With client credentials that pass, [refreshToken] accepts a token
    only if it verifies and carries [isRefreshToken]: an expired token is
    answered with the UnauthorizedException 'Refresh Token expired', any
    other verification error is passed on as it is, a verified token
    without the mark (an access token) is answered with the
    UnauthorizedException 'The given token is not a Refresh Token', and a
    refresh token gives the login of the user found by its email. *)
Theorem refreshToken_accepts_refresh_tokens_only :
  forall w base64Login token clientCredentials,
    findClientCredentials w (ClientCredentialsEnum (nameOf base64Login))
      (secretOf base64Login) Security.REFRESH_TOKEN
      = Security.Returns clientCredentials ->
    (jwtService_verify token = Security.Throws Security.TokenExpiredError ->
     refreshToken w base64Login token =
     Security.Throws (Security.UnauthorizedException "Refresh Token expired")) /\
    (forall error,
        jwtService_verify token = Security.Throws error ->
        error <> Security.TokenExpiredError ->
        refreshToken w base64Login token = Security.Throws error) /\
    (forall payload,
        jwtService_verify token = Security.Returns payload ->
        Security.isRefreshToken _ payload = false ->
        refreshToken w base64Login token =
        Security.Throws
          (Security.UnauthorizedException "The given token is not a Refresh Token")) /\
    (forall payload,
        jwtService_verify token = Security.Returns payload ->
        Security.isRefreshToken _ payload = true ->
        refreshToken w base64Login token =
        match userService_findByEmail w (Security.payload_email _ payload) with
        | Security.Returns user =>
            Security.Returns (generateLoginObject (Security.ofUser _ user))
        | Security.Throws e => Security.Throws e
        end).
Proof.
  intros w base64Login token clientCredentials.
  unfold Security.refreshToken, Security.getUserFromToken.
  destruct (Security.destructureNameSecret _) as [name secret]. cbn [fst snd].
  intros Hclient. rewrite Hclient.
  split; [|split; [|split]].
  - intros Hv. now rewrite Hv.
  - intros error Hv Hne. rewrite Hv. destruct error; congruence.
  - intros payload Hv Hmark. now rewrite Hv, Hmark.
  - intros payload Hv Hmark. now rewrite Hv, Hmark.
Qed.

(** X17: The tokens of a login round-trip through [refreshToken] as far as
    the token service lets them: when the token service verifies what it
    signed for a user, the refresh token of the login is accepted and gives
    the login of the user found under the same email, while the access
    token of the same login is refused as not being a refresh token. *)
Theorem login_tokens_and_refresh :
  forall w base64Login user clientCredentials,
    findClientCredentials w (ClientCredentialsEnum (nameOf base64Login))
      (secretOf base64Login) Security.REFRESH_TOKEN
      = Security.Returns clientCredentials ->
    (forall mark expiry,
        jwtService_verify
          (jwtService_sign (Security.mkTokenPayload _ (Security.ofUser _ user) mark) expiry)
        = Security.Returns (Security.mkTokenPayload _ (Security.ofUser _ user) mark)) ->
    let login := generateLoginObject (Security.ofUser _ user) in
    refreshToken w base64Login (Security.GeneratedTokenDTO.refreshToken login) =
      match userService_findByEmail w (Some (Security.email user)) with
      | Security.Returns found =>
          Security.Returns (generateLoginObject (Security.ofUser _ found))
      | Security.Throws e => Security.Throws e
      end /\
    refreshToken w base64Login (Security.GeneratedTokenDTO.accessToken login) =
      Security.Throws
        (Security.UnauthorizedException "The given token is not a Refresh Token").
Proof.
  intros w base64Login user clientCredentials Hclient Hjwt login.
  destruct (refreshToken_accepts_refresh_tokens_only_aux w base64Login clientCredentials
              Hclient) as [Hany Hmark].
  unfold login. split.
  - change (Security.GeneratedTokenDTO.refreshToken
              (generateLoginObject (Security.ofUser _ user)))
      with (jwtService_sign
              (Security.mkTokenPayload _ (Security.ofUser _ user) true)
              expiresInRefreshToken).
    rewrite (Hmark _ _ (Hjwt true expiresInRefreshToken) eq_refl). reflexivity.
  - exact (Hany _ _ (Hjwt false expiresInAccessToken) eq_refl).
Qed.

(** X18: [validateFacebookUser] passes on what [findByEmail] throws.  For
    a user that has a Facebook id stored, a login under another id is
    refused with the NotFoundException 'User not found' and a login under
    the stored id gives the login of the user; in both cases nothing is
    updated.  For a user without one (none, or the empty string) the id of
    the login is stored through [userService.update], called with the id
    of the user and the user without its role, and the login is that of
    the updated user. *)
Theorem validateFacebookUser_cases :
  forall facebookAuthUser w,
    (forall e,
        userService_findByEmail w (Some (Security.facebook_email facebookAuthUser))
          = Security.Throws e ->
        validateFacebookUser facebookAuthUser w = (Security.Throws e, w)) /\
    (forall user,
        userService_findByEmail w (Some (Security.facebook_email facebookAuthUser))
          = Security.Returns user ->
        (forall stored,
            Security.facebookId user = Some stored -> stored <> EmptyString ->
            stored <> Security.facebook_id facebookAuthUser ->
            validateFacebookUser facebookAuthUser w =
            (Security.Throws (Security.NotFoundException "User not found"), w)) /\
        (forall stored,
            Security.facebookId user = Some stored -> stored <> EmptyString ->
            stored = Security.facebook_id facebookAuthUser ->
            validateFacebookUser facebookAuthUser w =
            (Security.Returns (generateLoginObject (Security.ofUser _ user)), w)) /\
        (Security.truthy_string (Security.facebookId user) = false ->
         validateFacebookUser facebookAuthUser w =
         match userService_update (Security.id user)
                 (Security.withoutRole
                    (Security.set_facebookId (Some (Security.facebook_id facebookAuthUser)) user)) w with
         | (Security.Returns linked, w') =>
             (Security.Returns (generateLoginObject (Security.ofUser _ linked)), w')
         | (Security.Throws e, w') => (Security.Throws e, w')
         end)).
Proof.
  intros facebookAuthUser w. unfold Security.validateFacebookUser. split.
  - intros e Hfind. now rewrite Hfind.
  - intros user Hfind. rewrite Hfind. split; [|split].
    + intros stored Hstored Hne Hother. rewrite Hstored.
      destruct stored as [|c rest]; [congruence|]. cbn [Security.truthy_string negb].
      destruct (String.eqb (String c rest) (Security.facebook_id facebookAuthUser)) eqn:Heq;
        [apply String.eqb_eq in Heq; congruence|reflexivity].
    + intros stored Hstored Hne Hsame. rewrite Hstored.
      destruct stored as [|c rest]; [congruence|]. cbn [Security.truthy_string negb].
      rewrite <- Hsame, String.eqb_refl. reflexivity.
    + intros Hnone. rewrite Hnone. reflexivity.
Qed.

(** X19: [validateGoogleUser] passes on what [findByEmail] throws.  For
    a user that has a Google id stored, a login under another id is
    refused with the NotFoundException 'User not found' and a login under
    the stored id gives the login of the user; in both cases nothing is
    updated.  For a user without one (none, or the empty string) the id of
    the login is stored through [userService.update], called with the id
    of the user and the user without its role, and the login is that of
    the updated user. *)
Theorem validateGoogleUser_cases :
  forall googleAuthUser w,
    (forall e,
        userService_findByEmail w (Some (Security.google_email googleAuthUser))
          = Security.Throws e ->
        validateGoogleUser googleAuthUser w = (Security.Throws e, w)) /\
    (forall user,
        userService_findByEmail w (Some (Security.google_email googleAuthUser))
          = Security.Returns user ->
        (forall stored,
            Security.googleSub user = Some stored -> stored <> EmptyString ->
            stored <> Security.google_sub googleAuthUser ->
            validateGoogleUser googleAuthUser w =
            (Security.Throws (Security.NotFoundException "User not found"), w)) /\
        (forall stored,
            Security.googleSub user = Some stored -> stored <> EmptyString ->
            stored = Security.google_sub googleAuthUser ->
            validateGoogleUser googleAuthUser w =
            (Security.Returns (generateLoginObject (Security.ofUser _ user)), w)) /\
        (Security.truthy_string (Security.googleSub user) = false ->
         validateGoogleUser googleAuthUser w =
         match userService_update (Security.id user)
                 (Security.withoutRole
                    (Security.set_googleSub (Some (Security.google_sub googleAuthUser)) user)) w with
         | (Security.Returns linked, w') =>
             (Security.Returns (generateLoginObject (Security.ofUser _ linked)), w')
         | (Security.Throws e, w') => (Security.Throws e, w')
         end)).
Proof.
  intros googleAuthUser w. unfold Security.validateGoogleUser. split.
  - intros e Hfind. now rewrite Hfind.
  - intros user Hfind. rewrite Hfind. split; [|split].
    + intros stored Hstored Hne Hother. rewrite Hstored.
      destruct stored as [|c rest]; [congruence|]. cbn [Security.truthy_string negb].
      destruct (String.eqb (String c rest) (Security.google_sub googleAuthUser)) eqn:Heq;
        [apply String.eqb_eq in Heq; congruence|reflexivity].
    + intros stored Hstored Hne Hsame. rewrite Hstored.
      destruct stored as [|c rest]; [congruence|]. cbn [Security.truthy_string negb].
      rewrite <- Hsame, String.eqb_refl. reflexivity.
    + intros Hnone. rewrite Hnone. reflexivity.
Qed.

End SecurityFacts.

(** ** The entry points on the stand-ins *)

(** The member BLANK, whose value is the empty string, is refused although
    the table has a row under the empty name with that secret; a name that
    is no member, and the registered client with a wrong secret, are
    refused before the password or the token is looked at; the registered
    client with its secret is given its login. *)
Lemma client_credentials_checked_first_witness :
  SecurityDouble.findByNameAndSecret SecurityDouble.users ""%string (Some "s3cret"%string)
    Security.CLIENT_CREDENTIALS = Some ""%string /\
  SecurityDouble.validateClientCredentials SecurityDouble.users "BLANK:s3cret"
  = Security.Throws Security.InvalidClientCredentialsError /\
  SecurityDouble.validateClientCredentials SecurityDouble.users "FRONT:s3cret"
  = Security.Returns (SecurityDouble.loginOf (Security.ofClient _ "NEWSCHOOL@FRONT"%string)) /\
  SecurityDouble.validateUserCredentials SecurityDouble.users "BACK:s3cret"
    "ana@school" "pass"
  = Security.Throws Security.InvalidClientCredentialsError /\
  SecurityDouble.validateUserCredentials SecurityDouble.users "FRONT:s3cret"
    "ana@school" "pass"
  = Security.Returns (SecurityDouble.loginOf (Security.ofUser _ SecurityDouble.ana)) /\
  SecurityDouble.refreshToken SecurityDouble.users "FRONT:guess" "R/ana@school"
  = Security.Throws Security.InvalidClientCredentialsError.
Proof.
  pose proof (fun base64Login : string =>
          client_credentials_checked_first string SecurityDouble.World
            SecurityDouble.decoded SecurityDouble.clients
            SecurityDouble.findByNameAndSecret SecurityDouble.sign
            SecurityDouble.verify SecurityDouble.findByEmail
            SecurityDouble.findByEmailAndPassword "15m"%string "7d"%string
            SecurityDouble.users base64Login "ana@school"%string "pass"%string
            "R/ana@school"%string) as facts.
  cbv zeta in facts.
  split; [reflexivity|]. split; [|split; [|split; [|split]]].
  - destruct (facts "BLANK:s3cret"%string) as (_ & H & _).
    apply H. right. left. reflexivity.
  - destruct (facts "FRONT:s3cret"%string) as (_ & _ & H & _).
    apply H. exists "NEWSCHOOL@FRONT"%string.
    split; [reflexivity|]. split; [discriminate|reflexivity].
  - destruct (facts "BACK:s3cret"%string) as (_ & _ & _ & H & _).
    apply H. left. reflexivity.
  - destruct (facts "FRONT:s3cret"%string) as (_ & _ & _ & _ & H & _).
    apply (H "NEWSCHOOL@FRONT"%string). exists "NEWSCHOOL@FRONT"%string.
    split; [reflexivity|]. split; [discriminate|reflexivity].
  - destruct (facts "FRONT:guess"%string) as (_ & _ & _ & _ & _ & H).
    apply H. right. right. exists "NEWSCHOOL@FRONT"%string.
    split; reflexivity.
Defined.

(** An expired token, a forged one, an access token and a refresh token. *)
Lemma refreshToken_accepts_refresh_tokens_only_witness :
  SecurityDouble.refreshToken SecurityDouble.users "FRONT:s3cret" "old"
  = Security.Throws (Security.UnauthorizedException "Refresh Token expired") /\
  SecurityDouble.refreshToken SecurityDouble.users "FRONT:s3cret" "forged"
  = Security.Throws (Security.OtherError "JsonWebTokenError") /\
  SecurityDouble.refreshToken SecurityDouble.users "FRONT:s3cret" "A/ana@school"
  = Security.Throws
      (Security.UnauthorizedException "The given token is not a Refresh Token") /\
  SecurityDouble.refreshToken SecurityDouble.users "FRONT:s3cret" "R/ana@school"
  = Security.Returns (SecurityDouble.loginOf (Security.ofUser _ SecurityDouble.ana)).
Proof.
  pose (facts := fun token =>
    refreshToken_accepts_refresh_tokens_only string SecurityDouble.World
      SecurityDouble.decoded SecurityDouble.clients SecurityDouble.findByNameAndSecret
      SecurityDouble.sign SecurityDouble.verify SecurityDouble.findByEmail "15m" "7d"
      SecurityDouble.users "FRONT:s3cret" token "NEWSCHOOL@FRONT"%string eq_refl).
  split; [|split; [|split]].
  - exact (proj1 (facts "old"%string) eq_refl).
  - refine (proj1 (proj2 (facts "forged"%string)) _ eq_refl _). discriminate.
  - exact (proj1 (proj2 (proj2 (facts "A/ana@school"%string))) _ eq_refl eq_refl).
  - exact (proj2 (proj2 (proj2 (facts "R/ana@school"%string))) _ eq_refl eq_refl).
Defined.

(** The login of "ana": her refresh token refreshes, her access token
    does not. *)
Lemma login_tokens_and_refresh_witness :
  let login := SecurityDouble.loginOf (Security.ofUser _ SecurityDouble.ana) in
  SecurityDouble.refreshToken SecurityDouble.users "FRONT:s3cret"
    (Security.GeneratedTokenDTO.refreshToken login) = Security.Returns login /\
  SecurityDouble.refreshToken SecurityDouble.users "FRONT:s3cret"
    (Security.GeneratedTokenDTO.accessToken login)
  = Security.Throws
      (Security.UnauthorizedException "The given token is not a Refresh Token").
Proof.
  refine (login_tokens_and_refresh string SecurityDouble.World
            SecurityDouble.decoded SecurityDouble.clients SecurityDouble.findByNameAndSecret
            SecurityDouble.sign SecurityDouble.verify SecurityDouble.findByEmail "15m" "7d"
            SecurityDouble.users "FRONT:s3cret" SecurityDouble.ana
            "NEWSCHOOL@FRONT"%string eq_refl _).
  intros [|] expiry; reflexivity.
Defined.

(** "bob" is linked to the Facebook id "fb-bob"; "ana" is not linked. *)
Lemma validateFacebookUser_cases_witness :
  SecurityDouble.validateFacebookUser
    (Security.mkFacebookAuthUserDTO "bob@school" "fb-eve") SecurityDouble.users
  = (Security.Throws (Security.NotFoundException "User not found"), SecurityDouble.users) /\
  SecurityDouble.validateFacebookUser
    (Security.mkFacebookAuthUserDTO "bob@school" "fb-bob") SecurityDouble.users
  = (Security.Returns (SecurityDouble.loginOf (Security.ofUser _ SecurityDouble.bob)),
     SecurityDouble.users) /\
  snd (SecurityDouble.validateFacebookUser
         (Security.mkFacebookAuthUserDTO "ana@school" "fb-ana") SecurityDouble.users)
  = [Security.set_facebookId (Some "fb-ana"%string) SecurityDouble.ana; SecurityDouble.bob].
Proof.
  pose (facts := fun dto =>
    proj2 (validateFacebookUser_cases string SecurityDouble.World SecurityDouble.sign
             SecurityDouble.findByEmail SecurityDouble.update "15m" "7d"
             dto SecurityDouble.users)).
  split; [|split].
  - refine (proj1 (facts (Security.mkFacebookAuthUserDTO "bob@school" "fb-eve")
                     SecurityDouble.bob eq_refl) "fb-bob"%string eq_refl _ _);
      discriminate.
  - refine (proj1 (proj2 (facts (Security.mkFacebookAuthUserDTO "bob@school" "fb-bob")
                            SecurityDouble.bob eq_refl)) "fb-bob"%string eq_refl _ eq_refl).
    discriminate.
  - unfold SecurityDouble.validateFacebookUser.
    rewrite (proj2 (proj2 (facts (Security.mkFacebookAuthUserDTO "ana@school" "fb-ana")
                             SecurityDouble.ana eq_refl)) eq_refl).
    reflexivity.
Defined.

(** The same for the Google subject of "bob" and of "ana". *)
Lemma validateGoogleUser_cases_witness :
  SecurityDouble.validateGoogleUser
    (Security.mkGoogleAuthUserDTO "bob@school" "g-eve") SecurityDouble.users
  = (Security.Throws (Security.NotFoundException "User not found"), SecurityDouble.users) /\
  snd (SecurityDouble.validateGoogleUser
         (Security.mkGoogleAuthUserDTO "ana@school" "g-ana") SecurityDouble.users)
  = [Security.set_googleSub (Some "g-ana"%string) SecurityDouble.ana; SecurityDouble.bob].
Proof.
  pose (facts := fun dto =>
    proj2 (validateGoogleUser_cases string SecurityDouble.World SecurityDouble.sign
             SecurityDouble.findByEmail SecurityDouble.update "15m" "7d"
             dto SecurityDouble.users)).
  split.
  - refine (proj1 (facts (Security.mkGoogleAuthUserDTO "bob@school" "g-eve")
                     SecurityDouble.bob eq_refl) "g-bob"%string eq_refl _ _);
      discriminate.
  - unfold SecurityDouble.validateGoogleUser.
    rewrite (proj2 (proj2 (facts (Security.mkGoogleAuthUserDTO "ana@school" "g-ana")
                             SecurityDouble.ana eq_refl)) eq_refl).
    reflexivity.
Defined.
